(** * Kaizen service scripts: a shallow embedding and its properties

    The development follows the Python sources of the repository:

    - [forecast/app.py]: the phone normaliser [format_phone_number], the
      WhatsApp dispatch endpoint [send_whatsapp], the route
      [send_whatsapp_route] with the module namespace it reads, the forecast
      endpoint [forecast], and the customer segmentation pipeline
      ([initialize_segmentation_models], [prepare_customer_data],
      [apply_fuzzy_segmentation], [segment_customers],
      [initialize_segmentation]);
    - [forecast/whatsapp_client.py]: the helper [send_whatsapp] and
      [_ensure_whatsapp_prefix];
    - [Commando-AI/sample.py]: the repository statistics collector ([get],
      [paginate], [estimate_commit_count], the three counts, [list_repos] and
      the loop of [main]).

    External libraries (phonenumbers, Twilio, Prophet, scikit-learn, requests,
    urllib) are not part of the repository.  Their calls enter the model as
    section variables, so the theorems hold for any behaviour of those
    libraries, possibly under a stated contract.  Three library computations
    are written out instead, each marked as such where it is defined: the
    fuzzy inference of skfuzzy, and the scaling and the nearest-centre
    assignment of scikit-learn.  Python floats are modelled by exact rationals
    extended with NaN and the two infinities; rounding is not modelled. *)

From Stdlib Require Import ZArith QArith Qabs Qround Lqa Lia String Ascii List Bool Sorted.
From stdpp Require Import base option list strings gmap.
Import ListNotations.

Open Scope string_scope.

(** ** Python builtins used by the sources *)

Module Py.

(** Characters removed by [str.strip()] (ASCII range). *)
Definition is_space (c : ascii) : bool :=
  let n := nat_of_ascii c in
  ((9 <=? n)%nat && (n <=? 13)%nat) || ((28 <=? n)%nat && (n <=? 32)%nat).

Definition is_digit (c : ascii) : bool :=
  let n := nat_of_ascii c in (48 <=? n)%nat && (n <=? 57)%nat.

Fixpoint lstrip (s : string) : string :=
  match s with
  | EmptyString => EmptyString
  | String c s' => if is_space c then lstrip s' else s
  end.

Fixpoint rstrip (s : string) : string :=
  match s with
  | EmptyString => EmptyString
  | String c s' =>
      match rstrip s' with
      | EmptyString => if is_space c then EmptyString else String c EmptyString
      | r => String c r
      end
  end.

(** [s.strip()] *)
Definition strip (s : string) : string := rstrip (lstrip s).

(** [s.replace(c, '')] for a one-character pattern [c]. *)
Fixpoint remove_char (c : ascii) (s : string) : string :=
  match s with
  | EmptyString => EmptyString
  | String d s' => if Ascii.eqb c d then remove_char c s' else String d (remove_char c s')
  end.

Fixpoint all_digits (s : string) : bool :=
  match s with
  | EmptyString => true
  | String c s' => is_digit c && all_digits s'
  end.

(** [s.isdigit()]: non-empty and made of digits only (ASCII digits here). *)
Definition isdigit (s : string) : bool :=
  match s with
  | EmptyString => false
  | _ => all_digits s
  end.

(** [s.startswith(p)] *)
Definition startswith (p s : string) : bool := String.prefix p s.

(** Truth value of a string: [not s] holds of the empty string only. *)
Definition truthy (s : string) : bool :=
  match s with EmptyString => false | _ => true end.

(** Truth value of an optional string ([None] is falsy). *)
Definition truthy_opt (o : option string) : bool :=
  match o with Some s => truthy s | None => false end.

(** [s.find(c)] for a one-character pattern: the first index, or -1. *)
Fixpoint find_from (c : ascii) (s : string) (i : Z) : Z :=
  match s with
  | EmptyString => (-1)%Z
  | String d s' => if Ascii.eqb c d then i else find_from c s' (i + 1)%Z
  end.

Definition find (c : ascii) (s : string) : Z := find_from c s 0.

(** [s[a:b]]: a negative bound counts from the end, and both bounds are
    clamped to the string. *)
Definition slice (s : string) (a b : Z) : string :=
  let n := Z.of_nat (String.length s) in
  let norm i := if (i <? 0)%Z then Z.max 0 (i + n) else Z.min i n in
  String.substring (Z.to_nat (norm a)) (Z.to_nat (norm b - norm a)) s.

(** [s.split(c)] for a one-character separator. *)
Fixpoint split (c : ascii) (s : string) : list string :=
  match s with
  | EmptyString => [EmptyString]
  | String d s' =>
      if Ascii.eqb c d then EmptyString :: split c s'
      else
        match split c s' with
        | x :: xs => String d x :: xs
        | [] => [String d EmptyString]
        end
  end.

(** [sub in s] *)
Fixpoint contains (sub s : string) : bool :=
  String.prefix sub s ||
  match s with
  | EmptyString => false
  | String _ s' => contains sub s'
  end.

End Py.

(** ** Phone normaliser ([format_phone_number], app.py) *)

Module Phone.

(** One call of [phonenumbers.parse(number, region)]. *)
Definition call : Type := string * option string.

(** Country calling codes tried for a bare ten-digit number, in order. *)
Definition country_codes : list (string * string) :=
  [("IN", "+91"); ("US", "+1"); ("GB", "+44"); ("AU", "+61"); ("DE", "+49")].

(** Regions of the last fallback loop, in order. *)
Definition fallback_regions : list string :=
  ["IN"; "GB"; "AU"; "CA"; "DE"; "FR"; "IT"; "ES"; "BR"; "MX"].

(** [phone[0] in ['6', '7', '8', '9']] *)
Definition starts_6_to_9 (phone : string) : bool :=
  match phone with
  | String c _ => bool_decide (c ∈ ["6"; "7"; "8"; "9"]%char)
  | EmptyString => false
  end.

(** [len(phone) == 10 and phone.isdigit()] *)
Definition ten_digits (phone : string) : bool :=
  (String.length phone =? 10)%nat && Py.isdigit phone.

(** The chain of [replace] calls that follows [strip()]. *)
Definition clean (raw : string) : string :=
  Py.remove_char "." (Py.remove_char ")" (Py.remove_char "(" (Py.remove_char "-"
    (Py.remove_char " " (Py.strip raw))))).

Section Normalizer.

(** The phonenumbers library: parsing may raise [NumberParseException]
    ([None] here); validity and E.164 formatting are total. *)
Variable PhoneNumber : Type.
Variable parse : string -> option string -> option PhoneNumber.
Variable is_valid_number : PhoneNumber -> bool.
Variable format_e164 : PhoneNumber -> string.

(** The outcome of a run: what would be returned so far, and the parse calls
    made, oldest first. *)
Definition run : Type := option string * list call.

Definition skip : run := (None, []).

(** One [try: parse ... if is_valid_number ... return format_number ...
    except NumberParseException: pass] block. *)
Definition attempt (number : string) (region : option string) : run :=
  (match parse number region with
   | Some parsed =>
       if is_valid_number parsed then Some (format_e164 parsed) else None
   | None => None
   end, [(number, region)]).

(** Sequencing with early return: the second block runs only when the first
    one returned nothing. *)
Definition or_else (a b : run) : run :=
  match a.1 with
  | Some _ => a
  | None => (b.1, (a.2 ++ b.2)%list)
  end.

Infix "<||>" := or_else (at level 51, left associativity).

(** A [for] loop over candidates, returning at the first valid one. *)
Fixpoint try_each (candidates : list call) : run :=
  match candidates with
  | [] => skip
  | (number, region) :: rest => attempt number region <||> try_each rest
  end.

Definition format_phone_number_run (phone : option string) (default_region : string) : run :=
  match phone with
  | None => skip
  | Some raw =>
      if negb (Py.truthy raw) then skip
      else
        let phone := clean raw in
        (if Py.startswith "+" phone then attempt phone None else skip)
        <||> attempt phone (Some default_region)
        <||> (if ten_digits phone then
               (if starts_6_to_9 phone then attempt ("+91" ++ phone) None else skip)
               <||> try_each (map (fun rc : string * string => (rc.2 ++ phone, None)) country_codes)
             else skip)
        <||> (if ten_digits phone then attempt phone (Some "IN") else skip)
        <||> try_each (map (fun region => (phone, Some region)) fallback_regions)
  end.

(** The value returned by [format_phone_number(phone, default_region)]. *)
Definition format_phone_number (phone : option string) (default_region : string) : option string :=
  (format_phone_number_run phone default_region).1.

(** The parse calls it makes, in order. *)
Definition parse_calls (phone : option string) (default_region : string) : list call :=
  (format_phone_number_run phone default_region).2.

(** Whether prefixing [code] to [phone] gives a number the library accepts,
    and its E.164 form. *)
Definition accept (number : string) (region : option string) : option string :=
  (attempt number region).1.

(** What the policy promises for a list of candidates: the E.164 form of the
    first one the library accepts. *)
Fixpoint first_valid (candidates : list call) : option string :=
  match candidates with
  | [] => None
  | (number, region) :: rest =>
      match accept number region with
      | Some r => Some r
      | None => first_valid rest
      end
  end.

(** The candidates up to and including the first one the library accepts. *)
Fixpoint until_valid (candidates : list call) : list call :=
  match candidates with
  | [] => []
  | (number, region) :: rest =>
      match accept number region with
      | Some _ => [(number, region)]
      | None => (number, region) :: until_valid rest
      end
  end.

(** The candidates of the ten-digit step: each calling code put before the
    number, parsed with no region. *)
Definition prefixed (phone : string) : list call :=
  map (fun rc : string * string => (rc.2 ++ phone, None)) country_codes.

End Normalizer.

End Phone.

(** ** WhatsApp dispatch endpoint ([send_whatsapp], app.py) *)

Module Dispatch.

(** A recipient is a JSON object; the source reads the keys [phone],
    [message] and [customerName], each a string or null
    ([# Array of {phone: string, message: string, customerName?: string}]). *)
Definition recipient : Type := gmap string (option string).

(** [recipient.get(key)] *)
Definition get (r : recipient) (key : string) : option string :=
  match r !! key with Some v => v | None => None end.

(** [recipient.get(key, default)] *)
Definition get_default (r : recipient) (key default : string) : option string :=
  match r !! key with Some v => v | None => Some default end.

(** What [twilio_client.messages.create] returns. *)
Record twilio_message := { sid : string; status : string }.

(** An exception raised inside the per-recipient [try]: [str(e)],
    [type(e).__name__], and the [msg] and [code] attributes when it has them. *)
Record exception := {
  exc_str : string;
  exc_type : string;
  exc_msg : option string;
  exc_code : option string }.

(** One element of [results]; [None] stands for a key the entry does not have. *)
Record entry := {
  e_phone : option string;
  e_formattedPhone : option string;
  e_customerName : option string;
  e_success : bool;
  e_error : option string;
  e_errorType : option string;
  e_messageId : option string;
  e_status : option string }.

(** An element of the [recipients] array: a JSON object, or any other JSON
    value, of which the handler only meets the name of its Python type
    ([NoneType] for null, [str], [int], [list], ...). *)
Inductive item :=
| Object (r : recipient)
| Other (type_name : string).

(** The value under the [recipients] key, as the handler uses it: a sequence
    it can measure and iterate, or a truthy value without a length (a number
    other than 0, or true).  An array is the sequence of its elements; the
    absent key, null, false and 0 count as the empty sequence, as [not
    recipients] holds of them; a string or an object is iterated over its
    characters or its keys, each an element of type [str]. *)
Inductive recipients_value :=
| Items (items : list item)
| NoLen (type_name : string).

(** The parsed JSON body: none or a falsy one, a truthy value that is not an
    object (it has no [get]), or an object with what its [recipients] key
    holds. *)
Inductive payload :=
| NoData
| NotObject (type_name : string)
| Data (recipients : recipients_value).

Inductive response :=
| Error (code : Z) (error : string) (success : option bool) (errorType : option string)
| Report (total sent failed : Z) (results : list entry).

(** The text of the [AttributeError] of [x.get] and of the [TypeError] of
    [len(x)], for a value [x] of the named type. *)
Definition no_get_msg (type_name : string) : string :=
  "'" ++ type_name ++ "' object has no attribute 'get'".
Definition no_len_msg (type_name : string) : string :=
  "object of type '" ++ type_name ++ "' has no len()".

(** The answer of the outer [except Exception]. *)
Definition internal_error (error_msg error_type : string) : response :=
  Error 500 ("An internal error occurred: " ++ error_msg) None (Some error_type).

Definition no_data_msg : string := "No data provided".
Definition no_recipients_msg : string := "No recipients provided".
Definition not_configured_msg : string :=
  "Twilio is not configured. Please set TWILIO_ACCOUNT_SID, TWILIO_AUTH_TOKEN, and TWILIO_WHATSAPP_FROM environment variables.".
Definition no_sender_msg : string :=
  "TWILIO_WHATSAPP_FROM is not configured. Please set the WhatsApp sender number in format: whatsapp:+14155238886".
Definition missing_msg : string := "Missing phone or message".
Definition invalid_phone_msg (phone : string) : string :=
  "Invalid phone number format: " ++ phone.

Section Endpoint.

Variable PhoneNumber : Type.
Variable parse : string -> option string -> option PhoneNumber.
Variable is_valid_number : PhoneNumber -> bool.
Variable format_e164 : PhoneNumber -> string.

(** The messaging provider.  [create idx body from_ to] is the call made for
    the recipient at position [idx] of the batch; the position lets equal
    calls end differently. *)
Definition client : Type :=
  nat -> string -> string -> string -> exception + twilio_message.

(** Module-level configuration read from the environment. *)
Variable twilio_client : option client.
Variable TWILIO_WHATSAPP_FROM : option string.

(** The body of the [for idx, recipient in enumerate(recipients)] loop on a
    recipient that is an object: every path appends exactly one entry. *)
Definition process (create : client) (sender : string) (idx : nat) (r : recipient) : entry :=
  let phone := get r "phone" in
  let message := get r "message" in
  let customer_name := get_default r "customerName" "Customer" in
  match phone, message with
  | Some ph, Some msg =>
      if Py.truthy ph && Py.truthy msg then
        match Phone.format_phone_number PhoneNumber parse is_valid_number format_e164 phone "US" with
        | None =>
            {| e_phone := phone; e_formattedPhone := None; e_customerName := customer_name;
               e_success := false; e_error := Some (invalid_phone_msg ph);
               e_errorType := None; e_messageId := None; e_status := None |}
        | Some formatted_phone =>
            if Py.truthy formatted_phone then
              match create idx msg sender ("whatsapp:" ++ formatted_phone) with
              | inr twilio_message =>
                  {| e_phone := phone; e_formattedPhone := Some formatted_phone;
                     e_customerName := customer_name; e_success := true; e_error := None;
                     e_errorType := None; e_messageId := Some (sid twilio_message);
                     e_status := Some (status twilio_message) |}
              | inl e =>
                  let error_msg := exc_str e in
                  let error_msg :=
                    match exc_msg e with Some m => error_msg ++ " - " ++ m | None => error_msg end in
                  let error_msg :=
                    match exc_code e with
                    | Some c => error_msg ++ " (Code: " ++ c ++ ")"
                    | None => error_msg
                    end in
                  {| e_phone := phone; e_formattedPhone := None; e_customerName := customer_name;
                     e_success := false; e_error := Some error_msg;
                     e_errorType := Some (exc_type e); e_messageId := None; e_status := None |}
              end
            else
              {| e_phone := phone; e_formattedPhone := None; e_customerName := customer_name;
                 e_success := false; e_error := Some (invalid_phone_msg ph);
                 e_errorType := None; e_messageId := None; e_status := None |}
        end
      else
        {| e_phone := phone; e_formattedPhone := None; e_customerName := customer_name;
           e_success := false; e_error := Some missing_msg;
           e_errorType := None; e_messageId := None; e_status := None |}
  | _, _ =>
      {| e_phone := phone; e_formattedPhone := None; e_customerName := customer_name;
         e_success := false; e_error := Some missing_msg;
         e_errorType := None; e_messageId := None; e_status := None |}
  end.

(** [sum(1 for r in results if r.get('success'))] *)
Definition success_count (results : list entry) : Z :=
  Z.of_nat (length (filter (fun e => e_success e = true) results)).

(** The [for idx, recipient in enumerate(recipients)] loop, from position
    [idx] on: the entries appended to [results], and the type of the element
    at which the loop was left, if it was.  The three [recipient.get] calls
    stand before the inner [try]: on an element that is not an object they
    raise [AttributeError], which ends the loop with the entries made so
    far. *)
Fixpoint loop (create : client) (sender : string) (idx : nat) (items : list item)
    (results : list entry) : list entry * option string :=
  match items with
  | [] => (results, None)
  | Object r :: rest =>
      loop create sender (S idx) rest (results ++ [process create sender idx r])%list
  | Other type_name :: _ => (results, Some type_name)
  end.

(** The handler, from the parsed body on.  An exception raised outside the
    inner [try] reaches the outer [except Exception], which answers 500
    without a tally. *)
Definition send_whatsapp (data : payload) : response :=
  match data with
  | NoData => Error 400 no_data_msg None None
  | NotObject type_name => internal_error (no_get_msg type_name) "AttributeError"
  | Data (NoLen type_name) => internal_error (no_len_msg type_name) "TypeError"
  | Data (Items []) => Error 400 no_recipients_msg None None
  | Data (Items recipients) =>
      match twilio_client with
      | None => Error 500 not_configured_msg (Some false) None
      | Some create =>
          if Py.truthy_opt TWILIO_WHATSAPP_FROM then
            let sender := default EmptyString TWILIO_WHATSAPP_FROM in
            match loop create sender 0 recipients [] with
            | (results, None) =>
                let total := Z.of_nat (length recipients) in
                Report total (success_count results) (total - success_count results) results
            | (_, Some type_name) =>
                internal_error (no_get_msg type_name) "AttributeError"
            end
          else Error 500 no_sender_msg (Some false) None
      end
  end.

End Endpoint.

End Dispatch.

(** ** Repository statistics collector (sample.py) *)

Module RepoStats.

Definition GITHUB_API : string := "https://api.github.com".

(** A [requests] response.  Header names are matched without regard to case,
    so they are kept in lower case; [json] is the array [resp.json()] returns,
    [None] when the body is not one (the call raises). *)
Record Response := {
  status_code : Z;
  headers : gmap string string;
  json : option (list string) }.

(** How a call that loops ends: with a value, with an exception, or not
    within the given number of iterations. *)
Inductive outcome (A : Type) :=
| Returned (a : A)
| Raised (e : string)
| Pending.

Arguments Returned {A} a.
Arguments Raised {A} e.
Arguments Pending {A}.

Definition double_quote : string := String (ascii_of_nat 34) EmptyString.

(** The text [rel="last"]. *)
Definition rel_last : string := "rel=" ++ double_quote ++ "last" ++ double_quote.

(** [resp.raise_for_status()] raises for the 4xx and 5xx codes. *)
Definition is_http_error (code : Z) : bool := (400 <=? code)%Z && (code <? 600)%Z.

Section Collector.

(** The network: [session_get n url params] is the answer to the [n]-th
    request of the run, or the exception the client raises. *)
Variable session_get : nat -> string -> list (string * string) -> string + Response.

(** [parse_qs(urlparse(url).query).get(key)[0]], when the key is there. *)
Variable query_first : string -> string -> option string.

(** [int(s)] of a string; [None] when it raises [ValueError]. *)
Variable int_of_str : string -> option Z.

(** [get(session, url, params)]: retries on 202 and on a rate-limit answer.
    [n] counts the requests made so far. *)
Fixpoint get (fuel n : nat) (url : string) (params : list (string * string))
  : outcome Response * nat :=
  match fuel with
  | O => (Pending, n)
  | S fuel' =>
      match session_get n url params with
      | inl e => (Raised e, S n)
      | inr resp =>
          if (status_code resp =? 202)%Z then get fuel' (S n) url params
          else if (status_code resp =? 403)%Z
                  && bool_decide (headers resp !! "x-ratelimit-remaining" = Some "0")
          then
            match headers resp !! "x-ratelimit-reset" with
            | Some reset =>
                match int_of_str reset with
                | Some _ => get fuel' (S n) url params
                | None => (Raised "ValueError", S n)
                end
            | None => get fuel' (S n) url params
            end
          else if is_http_error (status_code resp) then (Raised "HTTPError", S n)
          else (Returned resp, S n)
      end
  end.

(** The first part of the link header that mentions [rel="last"]. *)
Definition last_part (link : string) : option string :=
  List.find (Py.contains rel_last) (Py.split "," link).

(** [part[part.find('<')+1:part.find('>')]] *)
Definition link_url (part : string) : string :=
  Py.slice part (Py.find "<" part + 1) (Py.find ">" part).

(** [int(qs.get(key, [default])[0])] *)
Definition query_int (url key : string) (default : Z) : option Z :=
  match query_first url key with
  | Some v => int_of_str v
  | None => Some default
  end.

(** [len(resp.json())] *)
Definition count_items (resp : Response) : outcome Z :=
  match json resp with
  | Some items => Returned (Z.of_nat (length items))
  | None => Raised "JSONDecodeError"
  end.

Definition estimate_commit_count (fuel n : nat) (owner repo branch : string)
  : outcome Z * nat :=
  let url := GITHUB_API ++ "/repos/" ++ owner ++ "/" ++ repo ++ "/commits" in
  let params := [("sha", branch); ("per_page", "1")] in
  match get fuel n url params with
  | (Returned resp, n1) =>
      if (status_code resp =? 204)%Z then (Returned 0%Z, n1)
      else
        match headers resp !! "link" ≫= last_part with
        | Some part =>
            let last_url := link_url part in
            match query_int last_url "page" 1 with
            | None => (Raised "ValueError", n1)
            | Some last_page =>
                match query_int last_url "per_page" 30 with
                | None => (Raised "ValueError", n1)
                | Some per_page =>
                    match get fuel n1 last_url [] with
                    | (Returned last_page_resp, n2) =>
                        match json last_page_resp with
                        | Some last_page_items =>
                            (Returned ((last_page - 1) * per_page
                                       + Z.of_nat (length last_page_items))%Z, n2)
                        | None => (Raised "JSONDecodeError", n2)
                        end
                    | (Raised e, n2) => (Raised e, n2)
                    | (Pending, n2) => (Pending, n2)
                    end
                end
            end
        | None => (count_items resp, n1)
        end
  | (Raised e, n1) => (Raised e, n1)
  | (Pending, n1) => (Pending, n1)
  end.

End Collector.

End RepoStats.

(** ** Floating-point values *)

Module Float.

Local Open Scope Q_scope.

(** A Python or numpy float: a rational, an infinity or NaN.  Rounding and the
    sign of zero are not modelled. *)
Inductive float :=
| Fin (q : Q)
| PInf
| NInf
| NaN.

Definition of_Z (z : Z) : float := Fin (inject_Z z).

Definition neg (x : float) : float :=
  match x with
  | Fin q => Fin (- q)
  | PInf => NInf
  | NInf => PInf
  | NaN => NaN
  end.

Definition add (x y : float) : float :=
  match x, y with
  | NaN, _ | _, NaN => NaN
  | Fin a, Fin b => Fin (a + b)
  | PInf, NInf | NInf, PInf => NaN
  | PInf, _ | _, PInf => PInf
  | NInf, _ | _, NInf => NInf
  end.

Definition sub (x y : float) : float := add x (neg y).

(** An infinity with the sign of [c]; NaN for a zero. *)
Definition signed_inf (c : comparison) : float :=
  match c with
  | Gt => PInf
  | Lt => NInf
  | Eq => NaN
  end.

Definition mul (x y : float) : float :=
  match x, y with
  | NaN, _ | _, NaN => NaN
  | Fin a, Fin b => Fin (a * b)
  | Fin a, PInf | PInf, Fin a => signed_inf (a ?= 0)
  | Fin a, NInf | NInf, Fin a => signed_inf (0 ?= a)
  | PInf, PInf | NInf, NInf => PInf
  | PInf, NInf | NInf, PInf => NInf
  end.

(** Division as numpy does it: a non-zero number over zero is an infinity,
    zero over zero is NaN. *)
Definition div (x y : float) : float :=
  match x, y with
  | NaN, _ | _, NaN => NaN
  | Fin a, Fin b => if Qeq_bool b 0 then signed_inf (a ?= 0) else Fin (a / b)
  | Fin _, (PInf | NInf) => Fin 0
  | PInf, Fin b => if Qle_bool 0 b then PInf else NInf
  | NInf, Fin b => if Qle_bool 0 b then NInf else PInf
  | (PInf | NInf), (PInf | NInf) => NaN
  end.

Definition abs (x : float) : float :=
  match x with
  | Fin q => Fin (Qabs q)
  | PInf | NInf => PInf
  | NaN => NaN
  end.

(** [x != 0]; NaN differs from every number. *)
Definition nonzero (x : float) : bool :=
  match x with
  | Fin q => negb (Qeq_bool q 0)
  | _ => true
  end.

Definition isnan (x : float) : bool :=
  match x with NaN => true | _ => false end.

Definition isfinite (x : float) : bool :=
  match x with Fin _ => true | _ => false end.

Definition sum (l : list float) : float := foldl add (Fin 0) l.

(** [np.mean]: NaN on an empty array. *)
Definition mean (l : list float) : float :=
  div (sum l) (of_Z (Z.of_nat (length l))).

(** Element-wise operation on two one-dimensional arrays with numpy's
    broadcasting: equal lengths, or one of them of length 1; [None] stands for
    the [ValueError] raised otherwise. *)
Definition broadcast (f : float -> float -> float) (a b : list float) : option (list float) :=
  if (length a =? length b)%nat then Some (zip_with f a b)
  else
    match a, b with
    | _, [y] => Some (map (fun x => f x y) a)
    | [x], _ => Some (map (f x) b)
    | _, _ => None
    end.

(** A float that is the rational [q], however written. *)
Definition is_value (x : float) (q : Q) : Prop :=
  match x with
  | Fin a => a == q
  | _ => False
  end.

End Float.

Import Float(float, Fin, PInf, NInf, NaN).

(** ** Forecast endpoint ([forecast], app.py) *)

Module Forecast.

(** A JSON value as far as [int(...)] tells them apart. *)
Inductive pyval :=
| PNone
| PBool (b : bool)
| PInt (z : Z)
| PFloat (x : float)
| PStr (s : string)
| PList
| PDict.

Record MonthlySample := {
  month : string;
  revenue : float;
  aov : float;
  orders : float }.

(** The JSON body: [monthlyData] (the empty list when absent), and the
    [periods] and [type] keys when present. *)
Record body := {
  monthlyData : list MonthlySample;
  periods : option pyval;
  type : option string }.

(** A row of the frame Prophet predicts. *)
Record prediction := {
  p_ds : Z;
  yhat : float;
  trend : float;
  yhat_lower : float;
  yhat_upper : float }.

(** An element of [historical] or [forecast] in the answer. *)
Record point := {
  pt_month : string;
  pt_value : float;
  pt_type : string;
  pt_trend : float;
  pt_yhat_lower : float;
  pt_yhat_upper : float }.

Record metrics := { mape : float; mae : float; rmse : float }.

(** The answer: an error with its status code (the text of an exception
    raised by a builtin stands as the name of its class), or the forecast. *)
Inductive response :=
| Failure (code : Z) (error : string) (historical : list MonthlySample)
| Success (historical forecast : list point) (m : metrics).

Definition no_data_msg : string := "No data provided".
Definition insufficient_msg : string :=
  "Insufficient data. Need at least 3 months of historical data.".

(** A row of [df]: the sample and its [ds] timestamp. *)
Definition row : Type := MonthlySample * Z.

(** [df[forecast_type]] at a row, for the three numeric fields; any other
    name has no numeric column, and the request ends in the 500 answer. *)
Definition field (forecast_type : string) (s : MonthlySample) : option float :=
  if String.eqb forecast_type "revenue" then Some (revenue s)
  else if String.eqb forecast_type "aov" then Some (aov s)
  else if String.eqb forecast_type "orders" then Some (orders s)
  else None.

(** [df.sort_values('ds')], as a stable insertion sort. *)
Fixpoint insert_row (r : row) (l : list row) : list row :=
  match l with
  | [] => [r]
  | x :: xs => if (r.2 <=? x.2)%Z then r :: l else x :: insert_row r xs
  end.

Definition sort_values (l : list row) : list row := foldr insert_row [] l.

(** The effects the claims speak about: each call of [model.fit]. *)
Inductive event := Fit (history : list (Z * float)).

Section Endpoint.

(** [int(s)] of a string; [None] when it raises. *)
Variable int_of_str : string -> option Z.
(** [pd.to_datetime] of one entry; [None] when it raises. *)
Variable to_datetime : string -> option Z.
(** [Timestamp.strftime('%Y-%m')] *)
Variable strftime : Z -> string.
(** [np.sqrt] *)
Variable sqrt : float -> float.
(** Prophet: fitting, and [make_future_dataframe] followed by [predict]. *)
Variable Model : Type.
Variable fit : list (Z * float) -> string + Model.
Variable predict : Model -> Z -> string + list prediction.

(** [int(v)]; the error is the class of the exception raised. *)
Definition int (v : pyval) : string + Z :=
  match v with
  | PNone | PList | PDict => inl "TypeError"
  | PBool b => inr (if b then 1 else 0)%Z
  | PInt z => inr z
  | PFloat (Fin q) => inr (Z.quot (Qnum q) (Zpos (Qden q)))
  | PFloat NaN => inl "ValueError"
  | PFloat _ => inl "OverflowError"
  | PStr s => match int_of_str s with Some z => inr z | None => inl "ValueError" end
  end.

(** The [historical] list: for each row of [df], the first prediction with
    the same [ds], when there is one. *)
Definition historical_points (forecast_type : string) (df : list row)
    (historical_forecast : list prediction) : list point :=
  flat_map (fun r : row =>
    match List.filter (fun p => (p_ds p =? r.2)%Z) historical_forecast,
          field forecast_type r.1 with
    | p :: _, Some v =>
        [{| pt_month := month r.1; pt_value := v; pt_type := "historical";
            pt_trend := trend p; pt_yhat_lower := yhat_lower p;
            pt_yhat_upper := yhat_upper p |}]
    | _, _ => []
    end) df.

Definition forecast_points (future_forecast : list prediction) : list point :=
  map (fun p =>
    {| pt_month := strftime (p_ds p); pt_value := yhat p; pt_type := "forecast";
       pt_trend := trend p; pt_yhat_lower := yhat_lower p;
       pt_yhat_upper := yhat_upper p |}) future_forecast.

(** [np.mean(np.abs((actuals - predictions) / actuals)) * 100
     if np.any(actuals != 0) else 0] *)
Definition compute_mape (actuals predictions : list float) : option float :=
  if existsb Float.nonzero actuals then
    d ← Float.broadcast Float.sub actuals predictions;
    r ← Float.broadcast Float.div d actuals;
    Some (Float.mul (Float.mean (map Float.abs r)) (Float.of_Z 100))
  else Some (Fin 0).

(** [np.mean(np.abs(actuals - predictions))] *)
Definition compute_mae (actuals predictions : list float) : option float :=
  d ← Float.broadcast Float.sub actuals predictions;
  Some (Float.mean (map Float.abs d)).

(** [np.sqrt(np.mean((actuals - predictions) ** 2))] *)
Definition compute_rmse (actuals predictions : list float) : option float :=
  d ← Float.broadcast Float.sub actuals predictions;
  Some (sqrt (Float.mean (map (fun x => Float.mul x x) d))).

Definition compute_metrics (actuals predictions : list float) : option metrics :=
  a ← compute_mape actuals predictions;
  b ← compute_mae actuals predictions;
  c ← compute_rmse actuals predictions;
  Some {| mape := a; mae := b; rmse := c |}.

(** The handler: the answer and the model fits attempted, oldest first.
    [data] is [None] for a missing or falsy body. *)
Definition forecast (data : option body) : response * list event :=
  match data with
  | None => (Failure 400 no_data_msg [], [])
  | Some data =>
      let monthly_data := monthlyData data in
      match int (default (PInt 6) (periods data)) with
      | inl e => (Failure 500 e [], [])
      | inr periods =>
          let forecast_type := default "revenue" (type data) in
          if (length monthly_data <? 3)%nat then
            (Failure 400 insufficient_msg monthly_data, [])
          else
            match mapM (fun s => to_datetime (month s ++ "-01")) monthly_data with
            | None => (Failure 500 "ValueError" [], [])
            | Some ds =>
                let df := sort_values (zip monthly_data ds) in
                match mapM (fun r : row => field forecast_type r.1) df with
                | None => (Failure 500 "KeyError" [], [])
                | Some y =>
                    let prophet_df := zip (map snd df) y in
                    match fit prophet_df with
                    | inl e => (Failure 500 e [], [Fit prophet_df])
                    | inr model =>
                        match predict model periods with
                        | inl e => (Failure 500 e [], [Fit prophet_df])
                        | inr forecast =>
                            let historical_count := length prophet_df in
                            let historical_forecast := take historical_count forecast in
                            let future_forecast := drop historical_count forecast in
                            let historical :=
                              historical_points forecast_type df historical_forecast in
                            let forecast_data := forecast_points future_forecast in
                            match compute_metrics y (map yhat historical_forecast) with
                            | None => (Failure 500 "ValueError" [], [Fit prophet_df])
                            | Some m => (Success historical forecast_data m, [Fit prophet_df])
                            end
                        end
                    end
                end
            end
      end
  end.

End Endpoint.

End Forecast.

(** ** Fuzzy stage of the segmentation pipeline (app.py) *)

Module Fuzzy.

Local Open Scope Q_scope.

Definition Qlt_bool (x y : Q) : bool := negb (Qle_bool y x).
Definition Qmin_b (x y : Q) : Q := if Qle_bool x y then x else y.
Definition Qmax_b (x y : Q) : Q := if Qle_bool x y then y else x.

(** Modelled from the spec: the fuzzy inference library (skfuzzy) is not part
    of the repository.  [trimf abc x] is the triangular membership function
    with feet [a], [c] and peak [b], at the point [x]. *)
Definition trimf (abc : Q * Q * Q) (x : Q) : Q :=
  let '(a, b, c) := abc in
  if Qeq_bool x b then 1
  else if negb (Qeq_bool a b) && Qlt_bool a x && Qlt_bool x b then (x - a) / (b - a)
  else if negb (Qeq_bool b c) && Qlt_bool b x && Qlt_bool x c then (c - x) / (c - b)
  else 0.

(** [np.arange(lo, ..., step)]: the points [lo + i * step] for [i <= steps]. *)
Record universe := { lo : Q; step : Q; steps : nat }.

Definition point (u : universe) (i : nat) : Q :=
  lo u + inject_Z (Z.of_nat i) * step u.

Definition hi (u : universe) : Q := point u (steps u).

Definition total_spent_universe : universe := {| lo := 0; step := 1; steps := 5000 |}.
Definition intent_score_universe : universe := {| lo := 0; step := 1 # 100; steps := 100 |}.
Definition touchpoints_count_universe : universe := {| lo := 0; step := 1; steps := 20 |}.
Definition recency_universe : universe := {| lo := 0; step := 1; steps := 800 |}.

(** The output universe [np.arange(0, 11, 1)], point by point. *)
Definition promotional_segment_universe : list Q :=
  map inject_Z [0; 1; 2; 3; 4; 5; 6; 7; 8; 9; 10]%Z.

(** The linguistic terms of the four inputs. *)
Inductive term :=
| spent_low | spent_medium | spent_high
| intent_weak | intent_moderate | intent_strong
| touch_low | touch_medium | touch_high
| recency_recent | recency_moderate | recency_distant.

(** The terms of the output [promotional_segment]. *)
Inductive segment := new_customer_nurture | high_value_engagement | re_engagement.

#[global] Instance segment_eq_dec : EqDecision segment.
Proof. solve_decision. Defined.

Definition term_universe (t : term) : universe :=
  match t with
  | spent_low | spent_medium | spent_high => total_spent_universe
  | intent_weak | intent_moderate | intent_strong => intent_score_universe
  | touch_low | touch_medium | touch_high => touchpoints_count_universe
  | recency_recent | recency_moderate | recency_distant => recency_universe
  end.

(** The [fuzz.trimf(universe, [a, b, c])] parameters of the source. *)
Definition term_abc (t : term) : Q * Q * Q :=
  match t with
  | spent_low => (0, 0, 1500)
  | spent_medium => (1000, 2500, 4000)
  | spent_high => (3500, 5000, 5000)
  | intent_weak => (0, 0, 1 # 2)
  | intent_moderate => (3 # 10, 6 # 10, 9 # 10)
  | intent_strong => (7 # 10, 1, 1)
  | touch_low => (0, 0, 7)
  | touch_medium => (5, 12, 18)
  | touch_high => (15, 20, 20)
  | recency_recent => (0, 0, 200)
  | recency_moderate => (150, 400, 650)
  | recency_distant => (600, hi recency_universe, hi recency_universe)
  end.

Definition segment_abc (s : segment) : Q * Q * Q :=
  match s with
  | new_customer_nurture => (0, 0, 4)
  | high_value_engagement => (3, 6, 9)
  | re_engagement => (7, 10, 10)
  end.

(** The six rules: the terms joined by [&], and the consequent. *)
Definition rules : list (list term * segment) :=
  [ ([spent_high; intent_strong; recency_recent], high_value_engagement);
    ([spent_low; recency_distant], re_engagement);
    ([spent_low; intent_weak; recency_recent; touch_low], new_customer_nurture);
    ([spent_medium; intent_moderate; recency_moderate], high_value_engagement);
    ([recency_distant; touch_low], re_engagement);
    ([intent_strong; touch_high], high_value_engagement) ].

Definition promotional_bins : Q * Q * Q * Q := (0, 45 # 10, 75 # 10, 10).
Definition promotional_labels : string * string * string :=
  ("New Customer Nurture", "High Value Engagement", "Re-engagement")%string.

(** A row as the fuzzy stage reads it: [float(row_data[...])] of the four
    features. *)
Record row_data := {
  total_spent : float;
  intent_score : float;
  touchpoints_count : float;
  recency : float }.

(** Modelled from the spec: setting an input of the simulation (skfuzzy, not
    in the repository) clips the value to the bounds of the universe, with
    numpy's [fmin] and [fmax], which skip NaN.  The rational is put in lowest
    terms first, so that the stage does not depend on how it is written. *)
Definition clip (u : universe) (x : float) : Q :=
  match x with
  | Fin q => Qmax_b (Qmin_b (Qred q) (hi u)) (lo u)
  | PInf | NaN => hi u
  | NInf => lo u
  end.

(** Modelled from the spec: the membership of a crisp value in a term
    (skfuzzy, not in the repository) is read from the term's function sampled
    on the universe, by linear interpolation between the two neighbouring
    points. *)
Definition interp_membership (u : universe) (abc : Q * Q * Q) (x : Q) : Q :=
  let i := Z.to_nat (Qfloor ((x - lo u) / step u)) in
  if (steps u <=? i)%nat then trimf abc (hi u)
  else
    let x0 := point u i in
    let y0 := trimf abc x0 in
    let y1 := trimf abc (point u (S i)) in
    Qred (y0 + (x - x0) * (y1 - y0) / step u).

Definition term_input (r : row_data) (t : term) : float :=
  match t with
  | spent_low | spent_medium | spent_high => total_spent r
  | intent_weak | intent_moderate | intent_strong => intent_score r
  | touch_low | touch_medium | touch_high => touchpoints_count r
  | recency_recent | recency_moderate | recency_distant => recency r
  end.

Definition membership (r : row_data) (t : term) : Q :=
  interp_membership (term_universe t) (term_abc t) (clip (term_universe t) (term_input r t)).

(** Modelled from the spec: antecedents are AND-combined (skfuzzy, not in the
    repository, takes the minimum). *)
Definition firing (r : row_data) (antecedent : list term) : Q :=
  match map (membership r) antecedent with
  | [] => 0
  | m :: ms => foldl Qmin_b m ms
  end.

(** Modelled from the spec: standard fuzzy aggregation (skfuzzy, not in the
    repository): a term of the output is cut at the largest firing strength
    among the rules that conclude it. *)
Definition cut (r : row_data) (s : segment) : Q :=
  foldl Qmax_b 0
    (map (fun rule => firing r rule.1)
       (List.filter (fun rule => bool_decide (rule.2 = s)) rules)).

(** Modelled from the spec: the points of the output universe where a sampled
    membership function crosses the level [y] (skfuzzy, not in the repository,
    adds them to the universe before the centroid is taken). *)
Fixpoint interp_universe (xs ys : list Q) (y : Q) : list Q :=
  match xs, ys with
  | x0 :: ((x1 :: _) as xs'), y0 :: ((y1 :: _) as ys') =>
      let above v := if Qeq_bool y 0 then Qlt_bool y v else Qle_bool y v in
      (if xorb (above y0) (above y1)
       then [Qred (x0 + (y - y0) * (x1 - x0) / (y1 - y0))]
       else [])
      ++ interp_universe xs' ys' y
  | _, _ => []
  end.

Fixpoint insert_point (x : Q) (l : list Q) : list Q :=
  match l with
  | [] => [x]
  | z :: zs =>
      if Qeq_bool x z then l
      else if Qlt_bool x z then x :: l
      else z :: insert_point x zs
  end.

(** [np.union1d] of a sorted array and new points. *)
Definition union1d (xs new : list Q) : list Q := foldr insert_point xs new.

(** [np.interp(x, xs, ys, left=0, right=0)] *)
Fixpoint interp (xs ys : list Q) (x : Q) : Q :=
  match xs, ys with
  | x0 :: xs', y0 :: ys' =>
      if Qlt_bool x x0 then 0
      else if Qeq_bool x x0 then y0
      else
        match xs', ys' with
        | x1 :: _, y1 :: _ =>
            if Qlt_bool x x1 then Qred (y0 + (x - x0) * (y1 - y0) / (x1 - x0))
            else interp xs' ys' x
        | _, _ => 0
        end
  | _, _ => 0
  end.

(** Modelled from the spec: centroid defuzzification (skfuzzy, not in the
    repository).  The aggregated set is piecewise linear between the points
    [xs]; the result pairs the sum of moment times area with the sum of the
    areas of the pieces. *)
Fixpoint centroid_sums (xs ys : list Q) : Q * Q :=
  match xs, ys with
  | x1 :: ((x2 :: _) as xs'), y1 :: ((y2 :: _) as ys') =>
      let '(m, a) := centroid_sums xs' ys' in
      if (Qeq_bool y1 0 && Qeq_bool y2 0) || Qeq_bool x1 x2 then (m, a)
      else
        let '(moment, area) :=
          if Qeq_bool y1 y2 then ((x1 + x2) / 2, (x2 - x1) * y1)
          else if Qeq_bool y1 0 then ((2 # 3) * (x2 - x1) + x1, (x2 - x1) * y2 / 2)
          else if Qeq_bool y2 0 then ((1 # 3) * (x2 - x1) + x1, (x2 - x1) * y1 / 2)
          else (((2 # 3) * (x2 - x1) * (y2 + y1 / 2)) / (y1 + y2) + x1,
                (x2 - x1) * (y1 + y2) / 2) in
        (Qred (m + moment * area), Qred (a + area))
  | _, _ => (0, 0)
  end.

Definition Qsum (l : list Q) : Q := foldl Qplus 0 l.

(** Modelled from the spec: the crisp output (skfuzzy, not in the
    repository); [None] when no rule fires and the centroid is undefined (the
    library raises [ValueError]). *)
Definition defuzz (xs mfx : list Q) : option Q :=
  if Qeq_bool (Qsum mfx) 0 then None
  else let '(m, a) := centroid_sums xs mfx in Some (Qred (m / a)).

Definition segments : list segment :=
  [new_customer_nurture; high_value_engagement; re_engagement].

(** The sampled membership function of an output term. *)
Definition sampled (s : segment) : list Q :=
  map (trimf (segment_abc s)) promotional_segment_universe.

(** Modelled from the spec: [promotional_segmenting_sim.compute()] followed by
    reading [output['promotional_segment']] (skfuzzy, not in the repository):
    every term is clipped at its cut, the clipped terms are joined by the
    maximum, and the centroid of the result is returned. *)
Definition compute (r : row_data) : option Q :=
  let new_values :=
    flat_map (fun s => interp_universe promotional_segment_universe (sampled s) (cut r s))
      segments in
  let new_universe := union1d promotional_segment_universe new_values in
  let output_mf :=
    map (fun x =>
      foldl Qmax_b 0
        (map (fun s => Qmin_b (cut r s) (interp promotional_segment_universe (sampled s) x))
           segments)) new_universe in
  defuzz new_universe output_mf.

(** The mapping of a score to a category by [promotional_bins]. *)
Definition category (score : Q) : string :=
  let '(b0, b1, b2, b3) := promotional_bins in
  let '(l0, l1, l2) := promotional_labels in
  if Qle_bool b0 score && Qlt_bool score b1 then l0
  else if Qle_bool b1 score && Qlt_bool score b2 then l1
  else if Qle_bool b2 score && Qle_bool score b3 then l2
  else "Unknown"%string.

(** [apply_fuzzy_segmentation(row_data)]: the score ([None] for NaN) and the
    category. *)
Definition apply_fuzzy_segmentation (r : row_data) : option Q * string :=
  match compute r with
  | Some score => (Some score, category score)
  | None => (None, "Unknown"%string)
  end.

End Fuzzy.


(** ** Segmentation pipeline (app.py) *)

Module Segmentation.

(** The frame [pd.read_csv] returns, as far as the pipeline reads it: the
    numeric columns by name (a blank cell is NaN), and the
    [last_purchase_date] column when the file has one, each cell already read
    by [pd.to_datetime(..., errors='coerce')] as seconds since the epoch
    ([None] is NaT). *)
Record DataFrame := {
  nrows : nat;
  numeric : gmap string (list float);
  last_purchase_date : option (list (option Z)) }.

Definition clustering_features : list string :=
  ["total_spent"; "intent_score"; "touchpoints_count"; "recency"].

(** [StandardScaler()], before and after [fit]. *)
Inductive scaler :=
| ScalerNew
| ScalerFitted (mean scale : list float).

(** [KMeans(n_clusters=4, ...)], before and after [fit]. *)
Inductive kmeans :=
| KMeansNew
| KMeansFitted (cluster_centers : list (list Q)).

(** The module-level globals. *)
Record state := {
  segmentation_scaler : option scaler;
  segmentation_kmeans : option kmeans;
  segmentation_initialized : bool }.

Definition initial_state : state :=
  {| segmentation_scaler := None; segmentation_kmeans := None;
     segmentation_initialized := false |}.

(** [series.fillna(0)] *)
Definition fillna (v : float) (column : list float) : list float :=
  map (fun x => if Float.isnan x then v else x) column.

Definition seconds_per_day : Z := 86400.

(** [(now - df['last_purchase_date']).dt.days]: whole days, rounded down;
    [None] for NaT. *)
Definition days_since (now : Z) (dates : list (option Z)) : list (option Z) :=
  map (fun d => (fun t => (now - t) / seconds_per_day)%Z <$> d) dates.

(** [series.max()], skipping the missing cells; [None] (NaN) when there is no
    other. *)
Definition series_max (l : list (option Z)) : option Z :=
  foldl (fun acc d =>
    match acc, d with
    | Some a, Some b => Some (Z.max a b)
    | None, _ => d
    | _, None => acc
    end) None l.

(** The [recency] column: days since the last purchase, a missing one
    replaced by the largest recency plus 30 (1000 plus 30 when all are
    missing). *)
Definition recency_column (now : Z) (dates : list (option Z)) : list Z :=
  let recency := days_since now dates in
  let max_recency_val := default 1000%Z (series_max recency) in
  map (default (max_recency_val + 30)%Z) recency.

Definition default_feature (feature : string) : float :=
  if String.eqb feature "intent_score" then Fin (1 # 2)
  else if String.eqb feature "touchpoints_count" then Fin 0
  else Fin 0.

(** The loop [for feature in clustering_features: if feature not in
    df.columns: df[feature] = ...]. *)
Definition ensure_features (n : nat) (columns : gmap string (list float))
  : gmap string (list float) :=
  foldl (fun cols feature =>
    match cols !! feature with
    | Some _ => cols
    | None => <[feature := replicate n (default_feature feature)]> cols
    end) columns clustering_features.

(** A cell of a numeric column (NaN outside the frame). *)
Definition cell (columns : gmap string (list float)) (feature : string) (i : nat) : float :=
  default NaN (columns !! feature ≫= (fun column => column !! i)).

(** [df[clustering_features]], row by row. *)
Definition feature_matrix (n : nat) (columns : gmap string (list float))
  : list (list float) :=
  map (fun i => map (fun feature => cell columns feature i) clustering_features) (seq 0 n).

(** The preprocessing shared by [initialize_segmentation_models] and
    [prepare_customer_data]; [inl] is the [KeyError] for a missing column. *)
Definition preprocess (now : Z) (df : DataFrame) : string + gmap string (list float) :=
  match last_purchase_date df with
  | None => inl "KeyError: 'last_purchase_date'"
  | Some dates =>
      match numeric df !! "total_spent" with
      | None => inl "KeyError: 'total_spent'"
      | Some spent =>
          let columns := <["total_spent" := fillna (Fin 0) spent]> (numeric df) in
          let columns :=
            <["recency" := map Float.of_Z (recency_column now dates)]> columns in
          inr (ensure_features (nrows df) columns)
      end
  end.

(** Modelled from the spec: [scaler.transform(X)] of a fitted scaler
    (scikit-learn, not in the repository) scales each feature with the frozen
    mean and scale; the library refuses an empty array. *)
Definition transform (mean scale : list float) (X : list (list float))
  : string + list (list float) :=
  match X with
  | [] => inl "ValueError: Found array with 0 sample(s)"
  | _ =>
      inr (map (fun row =>
             zip_with (fun x ms => Float.div (Float.sub x ms.1) ms.2) row (zip mean scale)) X)
  end.

Definition Qsq (x : Q) : Q := (x * x)%Q.

(** Squared Euclidean distance of a row of finite values to a centre. *)
Definition distance2 (row centre : list Q) : Q :=
  foldl Qplus 0%Q (zip_with (fun x c => Qsq (x - c)%Q) row centre).

(** [np.argmin]: the first index of the least value, counting from [i]. *)
Fixpoint argmin_from (i : Z) (best : Z) (least : Q) (l : list Q) : Z :=
  match l with
  | [] => best
  | d :: rest =>
      if Fuzzy.Qlt_bool d least then argmin_from (i + 1) i d rest
      else argmin_from (i + 1) best least rest
  end.

Definition argmin (l : list Q) : Z :=
  match l with
  | [] => 0
  | d :: rest => argmin_from 1 0 d rest
  end.

(** The finite values of a row, when all of them are. *)
Definition finite_row (row : list float) : option (list Q) :=
  mapM (fun x => match x with Fin q => Some q | _ => None end) row.

(** Modelled from the spec: [kmeans.predict(X)] of a fitted model
    (scikit-learn, not in the repository) is the distance-based assignment to
    the frozen centres, the index of the nearest one; the library refuses an
    empty array and values that are not finite. *)
Definition predict (cluster_centers : list (list Q)) (X : list (list float))
  : string + list Z :=
  match X with
  | [] => inl "ValueError: Found array with 0 sample(s)"
  | _ =>
      match mapM finite_row X with
      | None => inl "ValueError: Input X contains NaN or infinity"
      | Some rows =>
          inr (map (fun row => argmin (map (distance2 row) cluster_centers)) rows)
      end
  end.

(** A record of the answer: the four features as processed, and the three
    derived fields. *)
Record SegmentResult := {
  r_total_spent : float;
  r_intent_score : float;
  r_touchpoints_count : float;
  r_recency : float;
  promotional_segment_score : option Q;
  promotional_segment_category : string;
  cluster_label : Z }.

Inductive response :=
| Error (code : Z) (error : string)
| Initialized (rows_trained : nat)
| Records (result : list SegmentResult).

(** The upload: no [file] part, or a file name and what [pd.read_csv] makes
    of the content (an exception, or a frame). *)
Inductive request :=
| NoFilePart
| File (filename : string) (csv : string + DataFrame).

Definition internal_error (e : string) : response :=
  Error 500 ("An internal error occurred: " ++ e).

Definition init_failed_msg : string := "Failed to initialize segmentation models".

(** The row the fuzzy stage reads at index [i]. *)
Definition fuzzy_row (columns : gmap string (list float)) (i : nat) : Fuzzy.row_data :=
  {| Fuzzy.total_spent := cell columns "total_spent" i;
     Fuzzy.intent_score := cell columns "intent_score" i;
     Fuzzy.touchpoints_count := cell columns "touchpoints_count" i;
     Fuzzy.recency := cell columns "recency" i |}.

Definition make_result (columns : gmap string (list float)) (i : nat) (label : Z)
  : SegmentResult :=
  let fuzzy := Fuzzy.apply_fuzzy_segmentation (fuzzy_row columns i) in
  {| r_total_spent := cell columns "total_spent" i;
     r_intent_score := cell columns "intent_score" i;
     r_touchpoints_count := cell columns "touchpoints_count" i;
     r_recency := cell columns "recency" i;
     promotional_segment_score := fuzzy.1;
     promotional_segment_category := fuzzy.2;
     cluster_label := label |}.

(** The cluster model, when fitted, has four centres. *)
Definition four_centres (st : state) : Prop :=
  forall centres,
    segmentation_kmeans st = Some (KMeansFitted centres) -> length centres = 4%nat.

Section Pipeline.

(** scikit-learn: [StandardScaler().fit(X)] gives the mean and scale of each
    column, [KMeans(n_clusters, random_state, n_init='auto').fit(X)] the
    cluster centres; either may raise. *)
Variable scaler_fit : list (list float) -> string + (list float * list float).
Variable kmeans_fit : nat -> Z -> list (list float) -> string + list (list Q).

(** [initialize_segmentation_models(df_training)]: the value returned and the
    globals afterwards.  [now] is [pd.Timestamp.now()]. *)
Definition initialize_segmentation_models (now : Z) (df_training : DataFrame) (st : state)
  : bool * state :=
  match preprocess now df_training with
  | inl _ => (false, st)
  | inr columns =>
      let df_for_training := feature_matrix (nrows df_training) columns in
      match scaler_fit df_for_training with
      | inl _ =>
          (false, {| segmentation_scaler := Some ScalerNew;
                     segmentation_kmeans := segmentation_kmeans st;
                     segmentation_initialized := segmentation_initialized st |})
      | inr (mean, scale) =>
          let fitted := Some (ScalerFitted mean scale) in
          let failed :=
            (false, {| segmentation_scaler := fitted;
                       segmentation_kmeans := Some KMeansNew;
                       segmentation_initialized := segmentation_initialized st |}) in
          match transform mean scale df_for_training with
          | inl _ => failed
          | inr scaled =>
              match kmeans_fit 4 42 scaled with
              | inl _ => failed
              | inr centres =>
                  (true, {| segmentation_scaler := fitted;
                            segmentation_kmeans := Some (KMeansFitted centres);
                            segmentation_initialized := true |})
              end
          end
      end
  end.

(** The four ways [initialize_segmentation_models] can end. *)
Inductive init_outcome (now : Z) (df : DataFrame) (st : state) : bool * state -> Prop :=
| init_no_column e :
    preprocess now df = inl e ->
    init_outcome now df st (false, st)
| init_scaler_failed columns e :
    preprocess now df = inr columns ->
    scaler_fit (feature_matrix (nrows df) columns) = inl e ->
    init_outcome now df st
      (false, {| segmentation_scaler := Some ScalerNew;
                 segmentation_kmeans := segmentation_kmeans st;
                 segmentation_initialized := segmentation_initialized st |})
| init_kmeans_failed columns mean scale :
    preprocess now df = inr columns ->
    scaler_fit (feature_matrix (nrows df) columns) = inr (mean, scale) ->
    (forall scaled centres,
       transform mean scale (feature_matrix (nrows df) columns) = inr scaled ->
       kmeans_fit 4 42 scaled <> inr centres) ->
    init_outcome now df st
      (false, {| segmentation_scaler := Some (ScalerFitted mean scale);
                 segmentation_kmeans := Some KMeansNew;
                 segmentation_initialized := segmentation_initialized st |})
| init_done columns mean scale scaled centres :
    preprocess now df = inr columns ->
    scaler_fit (feature_matrix (nrows df) columns) = inr (mean, scale) ->
    transform mean scale (feature_matrix (nrows df) columns) = inr scaled ->
    kmeans_fit 4 42 scaled = inr centres ->
    init_outcome now df st
      (true, {| segmentation_scaler := Some (ScalerFitted mean scale);
                segmentation_kmeans := Some (KMeansFitted centres);
                segmentation_initialized := true |}).

(** [prepare_customer_data(df_input)]: the processed columns and the scaled
    features, or the exception raised. *)
Definition prepare_customer_data (now : Z) (df_input : DataFrame) (st : state)
  : string + (gmap string (list float) * list (list float)) :=
  match preprocess now df_input with
  | inl e => inl e
  | inr columns =>
      match segmentation_scaler st with
      | None => inl "AttributeError: 'NoneType' object has no attribute 'transform'"
      | Some ScalerNew => inl "NotFittedError"
      | Some (ScalerFitted mean scale) =>
          match transform mean scale (feature_matrix (nrows df_input) columns) with
          | inl e => inl e
          | inr scaled => inr (columns, scaled)
          end
      end
  end.

(** The part of [segment_customers] after the models are there: preprocess,
    fuzzy stage on every row, cluster stage, records. *)
Definition classify (now : Z) (df_input : DataFrame) (st : state) : response :=
  match prepare_customer_data now df_input st with
  | inl e => internal_error e
  | inr (columns, df_scaled_features) =>
      match segmentation_kmeans st with
      | None => internal_error "AttributeError: 'NoneType' object has no attribute 'predict'"
      | Some KMeansNew => internal_error "NotFittedError"
      | Some (KMeansFitted centres) =>
          match predict centres df_scaled_features with
          | inl e => internal_error e
          | inr labels =>
              Records (imap (fun i label => make_result columns i label) labels)
          end
      end
  end.

(** [segment_customers()], the [/segmentation] endpoint.  [now_init] and [now]
    are the two readings of the clock, in initialisation and in
    preprocessing. *)
Definition segment_customers (now_init now : Z) (req : request) (st : state)
  : response * state :=
  match req with
  | NoFilePart => (Error 400 "No file part in the request", st)
  | File filename csv =>
      if negb (Py.truthy filename) then (Error 400 "No selected file", st)
      else
        match csv with
        | inl e => (internal_error e, st)
        | inr df_input =>
            if segmentation_initialized st then (classify now df_input st, st)
            else
              let '(ok, st1) := initialize_segmentation_models now_init df_input st in
              if ok then (classify now df_input st1, st1)
              else (Error 500 init_failed_msg, st1)
        end
  end.

(** [initialize_segmentation()], the [/segmentation/initialize] endpoint. *)
Definition initialize_segmentation (now : Z) (req : request) (st : state)
  : response * state :=
  match req with
  | NoFilePart => (Error 400 "No file part in the request", st)
  | File filename csv =>
      if negb (Py.truthy filename) then (Error 400 "No selected file", st)
      else
        match csv with
        | inl e => (internal_error e, st)
        | inr df_training =>
            let '(ok, st1) := initialize_segmentation_models now df_training st in
            if ok then (Initialized (nrows df_training), st1)
            else (Error 500 "Failed to initialize models", st1)
        end
  end.

(** The states the process can be in: the globals at start-up, and what the
    two endpoints leave. *)
Inductive reachable : state -> Prop :=
| reachable_start : reachable initial_state
| reachable_segment now_init now req st :
    reachable st -> reachable (segment_customers now_init now req st).2
| reachable_initialize now req st :
    reachable st -> reachable (initialize_segmentation now req st).2.

End Pipeline.

End Segmentation.

(** ** The order of the parse attempts of [format_phone_number] *)

Module PhonePlan.

(** [c in s] for a character [c]. *)
Fixpoint occurs (c : ascii) (s : string) : bool :=
  match s with
  | EmptyString => false
  | String d s' => Ascii.eqb c d || occurs c s'
  end.

(** The characters the chain of [replace] calls takes out. *)
Definition punctuation : list ascii := [" "; "-"; "("; ")"; "."]%char.

(** The parse calls [format_phone_number] is ready to make on a cleaned
    number, in the order of the source: the number as it is when it starts
    with [+]; the default region; for ten digits, [+91] first when the first
    digit is 6 to 9, then the five calling codes; for ten digits, region IN;
    the ten fallback regions. *)
Definition plan (phone default_region : string) : list Phone.call :=
  ((((if Py.startswith "+" phone then [(phone, None)] else [])
     ++ [(phone, Some default_region)])
    ++ (if Phone.ten_digits phone then
          (if Phone.starts_6_to_9 phone then [("+91" ++ phone, None)] else [])
          ++ Phone.prefixed phone
        else []))
   ++ (if Phone.ten_digits phone then [(phone, Some "IN")] else []))
  ++ map (fun region => (phone, Some region)) Phone.fallback_regions.

End PhonePlan.

(** ** The WhatsApp helper (whatsapp_client.py) *)

Module WhatsappClient.

(** [_ensure_whatsapp_prefix(number)] *)
Definition ensure_whatsapp_prefix (number : string) : string :=
  if negb (Py.truthy number) then number
  else if Py.startswith "whatsapp:" number then number
  else "whatsapp:" ++ number.

(** An element of [results['sent']]: the number and the message id. *)
Record sent_entry := { s_to : string; s_sid : option string }.

(** An element of [results['failed']]: the number and [str(e)]. *)
Record failed_entry := { f_to : string; f_error : string }.

Record results := { sent : list sent_entry; failed : list failed_entry }.

Definition no_credentials_msg : string :=
  "Twilio credentials not found in TWILIO_ACCOUNT_SID/TWILIO_AUTH_TOKEN".
Definition not_installed_msg : string :=
  "twilio package is not installed. Add it to requirements.txt and install it.".

(** The [for user in users] loop; [idx] is the position of [user] in the
    list, [acc] the two lists so far. *)
Fixpoint dispatch (create : Dispatch.client) (from_number body : string)
    (idx : nat) (users : list string) (acc : results) : results :=
  match users with
  | [] => acc
  | user :: rest =>
      let to_number := ensure_whatsapp_prefix user in
      match create idx body from_number to_number with
      | inr msg =>
          dispatch create from_number body (S idx) rest
            {| sent := sent acc ++ [{| s_to := to_number; s_sid := Some (Dispatch.sid msg) |}];
               failed := failed acc |}
      | inl e =>
          dispatch create from_number body (S idx) rest
            {| sent := sent acc;
               failed := failed acc ++ [{| f_to := to_number; f_error := Dispatch.exc_str e |}] |}
      end
  end.

Section Helper.

(** The environment, as [os.getenv] reads it, and the [Client] class of the
    twilio package ([None] when the import failed); the class takes the two
    credentials. *)
Variable TWILIO_ACCOUNT_SID : option string.
Variable TWILIO_AUTH_TOKEN : option string.
Variable TWILIO_WHATSAPP_FROM : option string.
Variable Client : option (string -> string -> Dispatch.client).

(** [send_whatsapp(users, body, from_number)]: the two lists, or the text of
    the [RuntimeError] raised. *)
Definition send_whatsapp (users : list string) (body : string) (from_number : option string)
  : string + results :=
  let default_from := default "whatsapp:+14155238886" TWILIO_WHATSAPP_FROM in
  let from_number :=
    if Py.truthy_opt from_number
    then ensure_whatsapp_prefix (default EmptyString from_number)
    else ensure_whatsapp_prefix default_from in
  match TWILIO_ACCOUNT_SID, TWILIO_AUTH_TOKEN with
  | Some account_sid, Some auth_token =>
      if Py.truthy account_sid && Py.truthy auth_token then
        match Client with
        | None => inl not_installed_msg
        | Some new_client =>
            inr (dispatch (new_client account_sid auth_token) from_number body 0 users
                   {| sent := []; failed := [] |})
        end
      else inl no_credentials_msg
  | _, _ => inl no_credentials_msg
  end.

End Helper.

End WhatsappClient.

(** ** The module namespace of app.py and the [/send-whatsapp] route *)

Module AppModule.

(** What a global name of the module can be bound to, as far as the route
    tells: [None], the helper imported from whatsapp_client, or a function
    defined in the module with its number of parameters. *)
Inductive value :=
| VNone
| VHelper
| VFunction (name : string) (parameters : nat).





(** The JSON body of the route: each key when present; [users] and [to] are
    taken to be arrays of strings. *)
Record body := {
  users : option (list string);
  to : option (list string);
  message : option string;
  body_text : option string;
  from_ : option string }.

Definition empty_body : body :=
  {| users := None; to := None; message := None; body_text := None; from_ := None |}.

Inductive response :=
| Error (code : Z) (error : string)
| Sent (results : WhatsappClient.results).

Definition truthy_list (l : option (list string)) : bool :=
  match l with Some (_ :: _) => true | _ => false end.

(** [a or b] on optional values. *)
Definition py_or {A} (truthy : option A -> bool) (a b : option A) : option A :=
  if truthy a then a else b.

(** The text of the [TypeError] raised when a function of the module is
    called with three positional arguments; no function of the module takes
    three, and the text is the interpreter's for a function of none. *)
Definition wrong_arity_msg (name : string) (parameters : nat) : string :=
  match parameters with
  | O => name ++ "() takes 0 positional arguments but 3 were given"
  | _ => name ++ "() does not take 3 positional arguments"
  end.

Section Route.

Variable TWILIO_ACCOUNT_SID : option string.
Variable TWILIO_AUTH_TOKEN : option string.
Variable TWILIO_WHATSAPP_FROM : option string.
Variable Client : option (string -> string -> Dispatch.client).

(** [send_whatsapp_route()]: the name [send_whatsapp] is looked up in the
    globals when the route runs. *)
Definition send_whatsapp_route (globals : gmap string value) (data : option body)
  : response :=
  match globals !! "send_whatsapp" with
  | None => Error 500 "name 'send_whatsapp' is not defined"
  | Some VNone => Error 500 "WhatsApp support not available (twilio not installed)"
  | Some callee =>
      let data := default empty_body data in
      let users := default [] (py_or truthy_list (users data) (to data)) in
      let message := py_or Py.truthy_opt (message data) (body_text data) in
      let from_number := from_ data in
      match users with
      | [] => Error 400 "'users' must be a non-empty list of phone numbers"
      | _ =>
          if negb (Py.truthy_opt message) then Error 400 "'message' is required"
          else
            match callee with
            | VHelper =>
                match WhatsappClient.send_whatsapp TWILIO_ACCOUNT_SID TWILIO_AUTH_TOKEN
                        TWILIO_WHATSAPP_FROM Client users
                        (default EmptyString message) from_number with
                | inr results => Sent results
                | inl e => Error 500 e
                end
            | VFunction name parameters => Error 500 (wrong_arity_msg name parameters)
            | VNone => Error 500 "WhatsApp support not available (twilio not installed)"
            end
      end
  end.

End Route.

End AppModule.

(** ** The rest of the statistics collector (sample.py) *)

Module RepoCollector.

Import RepoStats.

(** The text [rel="next"]. *)
Definition rel_next : string := "rel=" ++ double_quote ++ "next" ++ double_quote.

(** The URL of the first part of the link header marked [rel="next"]. *)
Definition next_link (link : string) : option string :=
  link_url <$> List.find (Py.contains rel_next) (Py.split "," link).

(** A repository as [main] reads it from the listing: each key when present
    and not null ([private] by its truth value). *)
Record Repo := {
  name : option string;
  full_name : option string;
  private : bool;
  default_branch : option string;
  forks_count : option Z;
  stargazers_count : option Z;
  watchers_count : option Z;
  open_issues_count : option Z;
  pushed_at : option string }.

(** A row of the output; [None] is a count that could not be obtained. *)
Record Stats := {
  st_repo_name : option string;
  st_full_name : option string;
  st_visibility : string;
  st_default_branch : string;
  st_forks_count : option Z;
  st_stargazers_count : option Z;
  st_watchers_count : option Z;
  st_open_issues_count : option Z;
  st_pushed_at : option string;
  st_commits_count : option Z;
  st_prs_merged_count : option Z;
  st_issues_open_count : option Z;
  st_issues_closed_count : option Z;
  st_collaborators_count : option Z }.

(** [str(x)] or the f-string of an optional text: [None] prints as "None". *)
Definition str_opt (x : option string) : string := default "None" x.

Section Collector.

Variable session_get : nat -> string -> list (string * string) -> string + Response.
Variable query_first : string -> string -> option string.
Variable int_of_str : string -> option Z.

(** [bool(resp.content)]: whether the body is not empty. *)
Variable has_content : Response -> bool.

(** [resp.json().get('total_count', 0)] of a search answer, or the class of
    the exception raised. *)
Variable total_count : Response -> string + Z.

(** The element of a repository listing, read as a repository. *)
Variable repo_of_item : string -> Repo.

Local Abbreviation get := (get session_get int_of_str).

(** [if resp.content: items.extend(resp.json())] *)
Definition extend (items : list string) (resp : Response) : option (list string) :=
  if has_content resp then
    match json resp with
    | Some page => Some (items ++ page)%list
    | None => None
    end
  else Some items.

(** The [while 'link' in resp.headers] loop of [paginate]. *)
Fixpoint follow (fuel n : nat) (resp : Response) (items : list string)
  : outcome (list string) * nat :=
  match fuel with
  | O => (Pending, n)
  | S fuel' =>
      match headers resp !! "link" with
      | None => (Returned items, n)
      | Some link =>
          match next_link link with
          | None => (Returned items, n)
          | Some url =>
              if negb (Py.truthy url) then (Returned items, n)
              else
                match get fuel n url [] with
                | (Returned next, n1) =>
                    match extend items next with
                    | Some items' => follow fuel' n1 next items'
                    | None => (Raised "JSONDecodeError", n1)
                    end
                | (Raised e, n1) => (Raised e, n1)
                | (Pending, n1) => (Pending, n1)
                end
          end
      end
  end.

(** [paginate(session, url, params)] *)
Definition paginate (fuel n : nat) (url : string) (params : list (string * string))
  : outcome (list string) * nat :=
  match get fuel n url params with
  | (Returned resp, n1) =>
      match extend [] resp with
      | Some items => follow fuel n1 resp items
      | None => (Raised "JSONDecodeError", n1)
      end
  | (Raised e, n1) => (Raised e, n1)
  | (Pending, n1) => (Pending, n1)
  end.

(** [count_prs_merged(session, owner, repo)] *)
Definition count_prs_merged (fuel n : nat) (owner repo : string) : outcome Z * nat :=
  let q := "repo:" ++ owner ++ "/" ++ repo ++ " is:pr is:merged" in
  match get fuel n (GITHUB_API ++ "/search/issues") [("q", q); ("per_page", "1")] with
  | (Returned resp, n1) =>
      match total_count resp with
      | inr count => (Returned count, n1)
      | inl e => (Raised e, n1)
      end
  | (Raised e, n1) => (Raised e, n1)
  | (Pending, n1) => (Pending, n1)
  end.

(** One of the two searches of [count_issues]. *)
Definition search_count (fuel n : nat) (q : string) : outcome Z * nat :=
  match get fuel n (GITHUB_API ++ "/search/issues") [("q", q); ("per_page", "1")] with
  | (Returned resp, n1) =>
      match total_count resp with
      | inr count => (Returned count, n1)
      | inl e => (Raised e, n1)
      end
  | (Raised e, n1) => (Raised e, n1)
  | (Pending, n1) => (Pending, n1)
  end.

(** [count_issues(session, owner, repo)]: the open count, then the closed
    one. *)
Definition count_issues (fuel n : nat) (owner repo : string) : outcome (Z * Z) * nat :=
  let q_open := "repo:" ++ owner ++ "/" ++ repo ++ " is:issue is:open" in
  let q_closed := "repo:" ++ owner ++ "/" ++ repo ++ " is:issue is:closed" in
  match search_count fuel n q_open with
  | (Returned open_count, n1) =>
      match search_count fuel n1 q_closed with
      | (Returned closed_count, n2) => (Returned (open_count, closed_count), n2)
      | (Raised e, n2) => (Raised e, n2)
      | (Pending, n2) => (Pending, n2)
      end
  | (Raised e, n1) => (Raised e, n1)
  | (Pending, n1) => (Pending, n1)
  end.

(** [count_collaborators(session, owner, repo)]: [requests.HTTPError] gives
    [None]; any other exception goes on. *)
Definition count_collaborators (fuel n : nat) (owner repo : string)
  : outcome (option Z) * nat :=
  match paginate fuel n (GITHUB_API ++ "/repos/" ++ owner ++ "/" ++ repo ++ "/collaborators")
          [("per_page", "100")] with
  | (Returned items, n1) => (Returned (Some (Z.of_nat (length items))), n1)
  | (Raised e, n1) =>
      if String.eqb e "HTTPError" then (Returned None, n1) else (Raised e, n1)
  | (Pending, n1) => (Pending, n1)
  end.

(** [list_repos(session, owner)] *)
Definition list_repos (fuel n : nat) (owner : string) : outcome (list Repo) * nat :=
  match paginate fuel n (GITHUB_API ++ "/users/" ++ owner ++ "/repos")
          [("per_page", "100"); ("type", "all")] with
  | (Returned items, n1) => (Returned (map repo_of_item items), n1)
  | (Raised e, n1) => (Raised e, n1)
  | (Pending, n1) => (Pending, n1)
  end.

(** The body of the [for r in repos] loop of [main]: the three counts under
    [try ... except Exception] become [None] when they raise; the
    collaborators count is asked for outside any [try]. *)
Definition repo_stats (fuel n : nat) (owner : string) (r : Repo) : outcome Stats * nat :=
  let repo := str_opt (name r) in
  let branch :=
    if Py.truthy_opt (default_branch r) then default "main" (default_branch r) else "main" in
  match estimate_commit_count session_get query_first int_of_str fuel n owner repo branch with
  | (Pending, n1) => (Pending, n1)
  | (commits, n1) =>
      let commits_count := match commits with Returned c => Some c | _ => None end in
      match count_prs_merged fuel n1 owner repo with
      | (Pending, n2) => (Pending, n2)
      | (prs, n2) =>
          let prs_merged := match prs with Returned c => Some c | _ => None end in
          match count_issues fuel n2 owner repo with
          | (Pending, n3) => (Pending, n3)
          | (issues, n3) =>
              let issues_open := match issues with Returned c => Some c.1 | _ => None end in
              let issues_closed := match issues with Returned c => Some c.2 | _ => None end in
              match count_collaborators fuel n3 owner repo with
              | (Pending, n4) => (Pending, n4)
              | (Raised e, n4) => (Raised e, n4)
              | (Returned collaborators, n4) =>
                  (Returned
                     {| st_repo_name := name r;
                        st_full_name := full_name r;
                        st_visibility := if private r then "private" else "public";
                        st_default_branch := branch;
                        st_forks_count := forks_count r;
                        st_stargazers_count := stargazers_count r;
                        st_watchers_count := watchers_count r;
                        st_open_issues_count := open_issues_count r;
                        st_pushed_at := pushed_at r;
                        st_commits_count := commits_count;
                        st_prs_merged_count := prs_merged;
                        st_issues_open_count := issues_open;
                        st_issues_closed_count := issues_closed;
                        st_collaborators_count := collaborators |}, n4)
              end
          end
      end
  end.

(** The loop of [main] over the repositories: the rows, oldest first. *)
Fixpoint collect (fuel n : nat) (owner : string) (repos : list Repo)
  : outcome (list Stats) * nat :=
  match repos with
  | [] => (Returned [], n)
  | r :: rest =>
      match repo_stats fuel n owner r with
      | (Returned rec, n1) =>
          match collect fuel n1 owner rest with
          | (Returned results, n2) => (Returned (rec :: results), n2)
          | other => other
          end
      | (Raised e, n1) => (Raised e, n1)
      | (Pending, n1) => (Pending, n1)
      end
  end.

(** [main] up to the writing of the files: list the repositories, then
    collect their rows. *)
Definition run (fuel : nat) (owner : string) : outcome (list Stats) * nat :=
  match list_repos fuel 0 owner with
  | (Returned repos, n1) => collect fuel n1 owner repos
  | (Raised e, n1) => (Raised e, n1)
  | (Pending, n1) => (Pending, n1)
  end.

End Collector.

End RepoCollector.

(** ** Concrete instances of the libraries

    Small stand-ins for the external libraries, used to run the model on
    concrete inputs. *)

Module Scenario.

(** A phone library that accepts exactly the numbers written with the Indian
    calling code and ten more characters, parsed with no region. *)
Definition parse (number : string) (region : option string) : option string :=
  match region with
  | None => Some number
  | Some _ => None
  end.

Definition is_valid_number (number : string) : bool :=
  String.prefix "+91" number && (String.length number =? 13)%nat.

Definition format_e164 (number : string) : string := number.

(** A phone library that accepts exactly the numbers written with the
    British calling code and ten more characters. *)
Definition is_valid_british (number : string) : bool :=
  String.prefix "+44" number && (String.length number =? 13)%nat.

(** A provider that takes every message. *)
Definition create : Dispatch.client :=
  fun idx body from_ to =>
    inr {| Dispatch.sid := "SM" ++ to; Dispatch.status := "queued" |}.

Definition recipient (phone message : string) : Dispatch.recipient :=
  <["phone" := Some phone]> {["message" := Some message]}.

(** Three recipients; the phone of the second one is not a number. *)
Definition batch : list Dispatch.recipient :=
  [recipient "9876543210" "Hello"; recipient "12345" "Hello";
   recipient "+919123456789" "Hello"].

(** [int(s)] on the non-empty strings of decimal digits. *)
Fixpoint digits_value (acc : Z) (s : string) : Z :=
  match s with
  | EmptyString => acc
  | String c s' => digits_value (10 * acc + Z.of_nat (nat_of_ascii c - 48)) s'
  end.

Definition int_of_str (s : string) : option Z :=
  if Py.isdigit s then Some (digits_value 0 s) else None.

(** A repository of 57 commits, listed one per page.  The first answer asks
    to retry; the next one carries the link header; the last page has one
    item. *)
Definition last_url : string :=
  "https://api.github.com/repositories/1/commits?sha=main&per_page=1&page=57".

Definition link_header : string :=
  "<https://api.github.com/repositories/1/commits?sha=main&per_page=1&page=2>; rel="
  ++ RepoStats.double_quote ++ "next" ++ RepoStats.double_quote
  ++ ", <" ++ last_url ++ ">; " ++ RepoStats.rel_last.

Definition paged_session (n : nat) (url : string) (params : list (string * string))
  : string + RepoStats.Response :=
  if String.eqb url last_url then
    inr {| RepoStats.status_code := 200; RepoStats.headers := ∅;
           RepoStats.json := Some ["commit 57"] |}
  else
    match n with
    | O => inr {| RepoStats.status_code := 202; RepoStats.headers := ∅;
                  RepoStats.json := None |}
    | _ => inr {| RepoStats.status_code := 200;
                  RepoStats.headers := {["link" := link_header]};
                  RepoStats.json := Some ["commit 1"] |}
    end.

(** A listing of two pages: the first answer links to the last page as the
    next one. *)
Definition two_pages (n : nat) (url : string) (params : list (string * string))
  : string + RepoStats.Response :=
  if String.eqb url last_url then
    inr {| RepoStats.status_code := 200; RepoStats.headers := ∅;
           RepoStats.json := Some ["commit 57"] |}
  else
    inr {| RepoStats.status_code := 200;
           RepoStats.headers :=
             {["link" := "<" ++ last_url ++ ">; " ++ RepoCollector.rel_next]};
           RepoStats.json := Some ["commit 1"] |}.

(** A repository whose commits fit on one page: no link header. *)
Definition single_page_session (n : nat) (url : string) (params : list (string * string))
  : string + RepoStats.Response :=
  inr {| RepoStats.status_code := 200; RepoStats.headers := ∅;
         RepoStats.json := Some ["commit 1"] |}.

(** The query of [last_url], key by key. *)
Definition query_first (url key : string) : option string :=
  if String.eqb url last_url then
    if String.eqb key "page" then Some "57"
    else if String.eqb key "per_page" then Some "1"
    else if String.eqb key "sha" then Some "main"
    else None
  else None.

(** [pd.to_datetime] on texts of the form [YYYY-MM-01], as a count of
    months. *)
Definition to_datetime (s : string) : option Z :=
  if (String.length s =? 10)%nat then
    y ← int_of_str (String.substring 0 4 s);
    m ← int_of_str (String.substring 5 2 s);
    Some (12 * y + m - 1)%Z
  else None.

Definition strftime (ds : Z) : string := "a later month".

(** A forecaster that repeats the history and then its last value. *)
Definition fit (history : list (Z * float)) : string + list (Z * float) :=
  match history with
  | [] => inl "Dataframe has less than 2 non-NaN rows."
  | _ => inr history
  end.

Definition flat (ds : Z) (y : float) : Forecast.prediction :=
  {| Forecast.p_ds := ds; Forecast.yhat := y; Forecast.trend := y;
     Forecast.yhat_lower := y; Forecast.yhat_upper := y |}.

Definition predict (model : list (Z * float)) (periods : Z)
  : string + list Forecast.prediction :=
  let last := List.last model (0%Z, Fin 0) in
  inr (map (fun p : Z * float => flat p.1 p.2) model
       ++ map (fun k => flat (last.1 + Z.of_nat k) last.2) (seq 1 (Z.to_nat periods)))%list.

(** On the values used here the placeholder for [np.sqrt] is exact. *)
Definition sqrt (x : float) : float := x.

Definition sample (month : string) (value : Q) : Forecast.MonthlySample :=
  {| Forecast.month := month; Forecast.revenue := Fin value;
     Forecast.aov := Fin 50; Forecast.orders := Fin value |}.

(** Three months without revenue. *)
Definition quiet_months : Forecast.body :=
  {| Forecast.monthlyData := [sample "2024-02" 0; sample "2024-01" 0; sample "2024-03" 0];
     Forecast.periods := Some (Forecast.PInt 2);
     Forecast.type := Some "revenue" |}.

(** A series that starts with a month without revenue. *)
Definition launch_months : Forecast.body :=
  {| Forecast.monthlyData := [sample "2024-03" 150; sample "2024-01" 0; sample "2024-02" 120];
     Forecast.periods := Some (Forecast.PInt 2);
     Forecast.type := None |}.

(** One month only. *)
Definition one_month : Forecast.body :=
  {| Forecast.monthlyData := [sample "2024-01" 10000];
     Forecast.periods := Some (Forecast.PInt 1);
     Forecast.type := Some "revenue" |}.

(** No month at all, and a [periods] that is null. *)
Definition null_periods : Forecast.body :=
  {| Forecast.monthlyData := [];
     Forecast.periods := Some Forecast.PNone;
     Forecast.type := None |}.

(** The record of the spec, as the fuzzy stage reads it. *)
Definition spec_row : Fuzzy.row_data :=
  {| Fuzzy.total_spent := Fin 4800; Fuzzy.intent_score := Fin (95 # 100);
     Fuzzy.touchpoints_count := Fin 18; Fuzzy.recency := Fin 10 |}.

(** A scaler that leaves the features as they are, and refuses an empty
    array as scikit-learn does. *)
Definition scaler_fit (X : list (list float)) : string + (list float * list float) :=
  match X with
  | [] => inl "ValueError: Found array with 0 sample(s)"
  | _ => inr (replicate 4 (Fin 0), replicate 4 (Fin 1))
  end.

(** A clustering that takes the first [n_clusters] rows as centres; like
    scikit-learn it refuses values that are not finite and fewer rows than
    clusters. *)
Definition kmeans_fit (n_clusters : nat) (random_state : Z) (X : list (list float))
  : string + list (list Q) :=
  match mapM Segmentation.finite_row X with
  | None => inl "ValueError: Input X contains NaN or infinity"
  | Some rows =>
      if (length rows <? n_clusters)%nat
      then inl "ValueError: n_samples should be >= n_clusters"
      else inr (take n_clusters rows)
  end.

(** The clock: day 20000 after the epoch, at midnight. *)
Definition now : Z := 20000 * 86400.

Definition days_ago (d : Z) : option Z := Some (now - d * 86400)%Z.

(** Four customers; the first one is the record of the spec. *)
Definition customers : Segmentation.DataFrame :=
  {| Segmentation.nrows := 4;
     Segmentation.numeric :=
       <["total_spent" := [Fin 4800; Fin 100; Fin 2500; Fin 50]]>
       (<["intent_score" := [Fin (95 # 100); Fin (1 # 10); Fin (6 # 10); Fin (2 # 10)]]>
       {["touchpoints_count" := [Fin 18; Fin 1; Fin 10; Fin 2]]});
     Segmentation.last_purchase_date :=
       Some [days_ago 10; days_ago 20; days_ago 400; None] |}.

(** One customer whose intent score is blank. *)
Definition blank_intent : Segmentation.DataFrame :=
  {| Segmentation.nrows := 1;
     Segmentation.numeric :=
       <["total_spent" := [Fin 4800]]>
       (<["intent_score" := [NaN]]>
       {["touchpoints_count" := [Fin 18]]});
     Segmentation.last_purchase_date := Some [days_ago 10] |}.

(** Two customers, in a file without the intent and touchpoints columns. *)
Definition two_columns : Segmentation.DataFrame :=
  {| Segmentation.nrows := 2;
     Segmentation.numeric := {["total_spent" := [Fin 4800; NaN]]};
     Segmentation.last_purchase_date := Some [days_ago 10; None] |}.


Definition upload (df : Segmentation.DataFrame) : Segmentation.request :=
  Segmentation.File "customers.csv" (inr df).

(** The globals after a first classification of [customers]. *)
Definition trained : Segmentation.state :=
  (Segmentation.segment_customers scaler_fit kmeans_fit now now (upload customers)
     Segmentation.initial_state).2.

(** An account with two repositories.  The commits listing cannot be
    reached, the searches answer, and the collaborators listing is refused
    with a 403 that is not a rate limit. *)
Definition forbidden : RepoStats.Response :=
  {| RepoStats.status_code := 403; RepoStats.headers := ∅; RepoStats.json := None |}.

Definition org_session (n : nat) (url : string) (params : list (string * string))
  : string + RepoStats.Response :=
  if Py.contains "/collaborators" url then inr forbidden
  else if Py.contains "/commits" url then inl "ConnectionError"
  else if Py.contains "/search/issues" url then
    inr {| RepoStats.status_code := 200; RepoStats.headers := ∅; RepoStats.json := None |}
  else
    inr {| RepoStats.status_code := 200; RepoStats.headers := ∅;
           RepoStats.json := Some ["kaizen"; "pixro"] |}.

(** The same account when the collaborators listing cannot be reached
    either. *)
Definition down_session (n : nat) (url : string) (params : list (string * string))
  : string + RepoStats.Response :=
  if Py.contains "/collaborators" url then inl "ConnectionError"
  else org_session n url params.

Definition has_content (resp : RepoStats.Response) : bool :=
  match RepoStats.json resp with Some _ => true | None => false end.

Definition total_count (resp : RepoStats.Response) : string + Z := inr 7%Z.

Definition repo_of_item (item : string) : RepoCollector.Repo :=
  {| RepoCollector.name := Some item;
     RepoCollector.full_name := Some ("debugfest/" ++ item);
     RepoCollector.private := false;
     RepoCollector.default_branch := None;
     RepoCollector.forks_count := Some 0%Z;
     RepoCollector.stargazers_count := Some 3%Z;
     RepoCollector.watchers_count := Some 3%Z;
     RepoCollector.open_issues_count := Some 1%Z;
     RepoCollector.pushed_at := Some "2024-05-01T10:00:00Z" |}.

End Scenario.

(** * Properties *)

(** ** Phone normaliser *)

Module PhoneFacts.

Import Phone.

Lemma digit_not_space c : Py.is_digit c = true -> Py.is_space c = false.
Proof.
  unfold Py.is_digit, Py.is_space. generalize (nat_of_ascii c). intros n H.
  apply andb_true_iff in H as [H1 H2].
  apply Nat.leb_le in H1. apply Nat.leb_le in H2.
  apply orb_false_iff. split; apply andb_false_iff.
  - right. apply Nat.leb_gt. lia.
  - right. apply Nat.leb_gt. lia.
Qed.

Lemma lstrip_digits s : Py.all_digits s = true -> Py.lstrip s = s.
Proof.
  destruct s as [|c s]; simpl; [reflexivity|].
  intros H. apply andb_true_iff in H as [H _].
  now rewrite (digit_not_space _ H).
Qed.

Lemma rstrip_digits s : Py.all_digits s = true -> Py.rstrip s = s.
Proof.
  induction s as [|c s IH]; simpl; [reflexivity|].
  intros H. apply andb_true_iff in H as [Hc Hs].
  rewrite (IH Hs). destruct s; [|reflexivity].
  now rewrite (digit_not_space _ Hc).
Qed.

Lemma remove_char_digits c s :
  Py.is_digit c = false -> Py.all_digits s = true -> Py.remove_char c s = s.
Proof.
  intros Hc. induction s as [|d s IH]; simpl; [reflexivity|].
  intros H. apply andb_true_iff in H as [Hd Hs].
  destruct (Ascii.eqb_spec c d) as [->|_]; [congruence|].
  now rewrite (IH Hs).
Qed.

(** Cleaning leaves a string of digits as it is. *)
Lemma clean_digits s : Py.all_digits s = true -> clean s = s.
Proof.
  intros H. unfold clean, Py.strip.
  rewrite (lstrip_digits _ H), (rstrip_digits _ H).
  rewrite (remove_char_digits " " s), (remove_char_digits "-" s),
    (remove_char_digits "(" s), (remove_char_digits ")" s),
    (remove_char_digits "." s); auto.
Qed.

Lemma digits_no_plus s : Py.all_digits s = true -> Py.startswith "+" s = false.
Proof.
  destruct s as [|c s]; [reflexivity|]. cbn [Py.all_digits]. intros H.
  apply andb_true_iff in H as [Hc _].
  unfold Py.startswith. cbn [String.prefix].
  destruct (ascii_dec "+" c) as [<-|_]; [discriminate|reflexivity].
Qed.

Section Normalizer.

Variable PhoneNumber : Type.
Variable parse : string -> option string -> option PhoneNumber.
Variable is_valid_number : PhoneNumber -> bool.
Variable format_e164 : PhoneNumber -> string.

Local Abbreviation attempt := (attempt PhoneNumber parse is_valid_number format_e164).
Local Abbreviation accept := (accept PhoneNumber parse is_valid_number format_e164).
Local Abbreviation try_each := (try_each PhoneNumber parse is_valid_number format_e164).
Local Abbreviation first_valid := (first_valid PhoneNumber parse is_valid_number format_e164).
Local Abbreviation until_valid := (until_valid PhoneNumber parse is_valid_number format_e164).
Local Abbreviation format_phone_number :=
  (format_phone_number PhoneNumber parse is_valid_number format_e164).
Local Abbreviation format_phone_number_run :=
  (format_phone_number_run PhoneNumber parse is_valid_number format_e164).
Local Abbreviation parse_calls := (parse_calls PhoneNumber parse is_valid_number format_e164).

Lemma attempt_calls number region : (attempt number region).2 = [(number, region)].
Proof. reflexivity. Qed.

(** The loop returns the first accepted candidate, and calls the library on
    the candidates up to that one. *)
Lemma try_each_spec candidates :
  try_each candidates = (first_valid candidates, until_valid candidates).
Proof.
  induction candidates as [|[number region] rest IH]; [reflexivity|].
  cbn [Phone.try_each Phone.first_valid Phone.until_valid].
  unfold or_else. rewrite IH. unfold Phone.accept.
  destruct (attempt number region) as [[r|] calls] eqn:E; simpl.
  - pose proof (attempt_calls number region) as Hc. rewrite E in Hc.
    simpl in Hc. now subst calls.
  - f_equal. pose proof (attempt_calls number region) as Hc. rewrite E in Hc.
    simpl in Hc. now subst calls.
Qed.

Lemma or_else_none calls (b : run) : or_else (None, calls) b = (b.1, (calls ++ b.2)%list).
Proof. reflexivity. Qed.

Lemma or_else_some r calls (b : run) : or_else (Some r, calls) b = (Some r, calls).
Proof. reflexivity. Qed.

Lemma or_else_calls (a b : run) : exists more, (or_else a b).2 = (a.2 ++ more)%list.
Proof.
  unfold or_else. destruct a as [[r|] calls]; cbn [fst snd]; eexists.
  - symmetry. apply app_nil_r.
  - reflexivity.
Qed.

Lemma attempt_eq number region : attempt number region = (accept number region, [(number, region)]).
Proof. reflexivity. Qed.

(** The first candidate of the ten-digit step is the Indian one. *)
Lemma first_valid_head phone r :
  accept ("+91" ++ phone) None = Some r -> first_valid (prefixed phone) = Some r.
Proof.
  intros H. unfold Phone.prefixed, country_codes.
  cbn [map Phone.first_valid snd]. now rewrite H.
Qed.

(** The run on a bare ten-digit number whose parse with the default region
    was not accepted: the ten-digit step, then the two fallbacks. *)
Lemma run_ten_digits (phone region : string) :
  String.length phone = 10%nat ->
  Py.all_digits phone = true ->
  accept phone (Some region) = None ->
  format_phone_number_run (Some phone) region =
    or_else
      (or_else
         (or_else (None, [(phone, Some region)])
            (or_else
               (if starts_6_to_9 phone then attempt ("+91" ++ phone) None
                else skip)
               (try_each (prefixed phone))))
         (attempt phone (Some "IN")))
      (try_each (map (fun r => (phone, Some r)) fallback_regions)).
Proof.
  intros Hlen Hdig Hacc. unfold Phone.format_phone_number_run.
  assert (Ht : Py.truthy phone = true) by (destruct phone; [discriminate|reflexivity]).
  rewrite Ht. cbn [negb]. rewrite (clean_digits _ Hdig), (digits_no_plus _ Hdig).
  assert (H10 : ten_digits phone = true).
  { unfold ten_digits. rewrite Hlen. cbn [Nat.eqb andb].
    destruct phone; [discriminate|exact Hdig]. }
  rewrite H10. rewrite (attempt_eq phone (Some region)), Hacc.
  reflexivity.
Qed.

(** In a list whose first accepted candidate is [c], the loop stops at [c]. *)
Lemma first_valid_split (l1 : list call) (c : call) (l2 : list call) r :
  Forall (fun x : call => accept x.1 x.2 = None) l1 ->
  accept c.1 c.2 = Some r ->
  first_valid (l1 ++ c :: l2) = Some r /\ until_valid (l1 ++ c :: l2) = (l1 ++ [c])%list.
Proof.
  intros Hl Hc. induction Hl as [|[number region] l1 Hx _ IH]; cbn [app].
  - destruct c as [number region]. cbn [fst snd] in Hc.
    cbn [Phone.first_valid Phone.until_valid]. now rewrite Hc.
  - cbn [fst snd] in Hx. cbn [Phone.first_valid Phone.until_valid]. rewrite Hx.
    destruct IH as [-> ->]. auto.
Qed.

(** In a list without accepted candidate, the loop goes through all of it. *)
Lemma first_valid_none (l : list call) :
  Forall (fun x : call => accept x.1 x.2 = None) l ->
  first_valid l = None /\ until_valid l = l.
Proof.
  induction 1 as [|[number region] l Hx _ [IH1 IH2]]; [now split|].
  cbn [fst snd] in Hx. cbn [Phone.first_valid Phone.until_valid]. rewrite Hx, IH1, IH2. auto.
Qed.

(** C7: for a string of exactly ten digits whose parse with the default
    region was not accepted (a string of digits does not start with [+], so
    the first step does not apply), the normaliser goes on as follows.  When
    the first digit is 6, 7, 8 or 9, the next parse is that of [+91] followed
    by the number, and its E.164 form is returned when it is valid.
    Otherwise the calling codes [+91], [+1], [+44], [+61], [+49] are put
    before the number and parsed in this order: the first one that gives a
    valid number is returned and ends the parsing, and when none does all
    five have been parsed, in this order, before the later steps.  In both
    cases the first of the five that is valid is what is returned, so
    [9876543210] becomes [+919876543210] as soon as the library accepts that
    number. *)
Theorem ten_digit_policy (phone region : string) :
  String.length phone = 10%nat ->
  Py.all_digits phone = true ->
  accept phone (Some region) = None ->
  (starts_6_to_9 phone = true ->
     (exists later,
        parse_calls (Some phone) region
        = (phone, Some region) :: ("+91" ++ phone, None) :: later) /\
     (forall r, accept ("+91" ++ phone) None = Some r ->
        format_phone_number_run (Some phone) region
        = (Some r, [(phone, Some region); ("+91" ++ phone, None)]))) /\
  (starts_6_to_9 phone = false ->
     (forall before code after r,
        ["+91"; "+1"; "+44"; "+61"; "+49"] = (before ++ code :: after)%list ->
        Forall (fun c => accept (c ++ phone) None = None) before ->
        accept (code ++ phone) None = Some r ->
        format_phone_number_run (Some phone) region
        = (Some r,
           (phone, Some region)
           :: map (fun c => (c ++ phone, None)) (before ++ [code])%list)) /\
     (Forall (fun c => accept (c ++ phone) None = None) ["+91"; "+1"; "+44"; "+61"; "+49"] ->
      exists later,
        parse_calls (Some phone) region
        = app ((phone, Some region)
               :: map (fun c => (c ++ phone, None)) ["+91"; "+1"; "+44"; "+61"; "+49"])
              later)) /\
  (forall before code after r,
     ["+91"; "+1"; "+44"; "+61"; "+49"] = (before ++ code :: after)%list ->
     Forall (fun c => accept (c ++ phone) None = None) before ->
     accept (code ++ phone) None = Some r ->
     format_phone_number (Some phone) region = Some r) /\
  (phone = "9876543210" ->
   accept "+919876543210" None = Some "+919876543210" ->
   format_phone_number (Some phone) region = Some "+919876543210").
Proof.
  intros Hlen Hdig Hacc.
  pose proof (run_ten_digits phone region Hlen Hdig Hacc) as Hrun.
  assert (Hcodes : prefixed phone
                   = map (fun c => (c ++ phone, @None string))
                       ["+91"; "+1"; "+44"; "+61"; "+49"]) by reflexivity.
  assert (Hsplit : forall before code after r,
            ["+91"; "+1"; "+44"; "+61"; "+49"] = (before ++ code :: after)%list ->
            Forall (fun c => accept (c ++ phone) None = None) before ->
            accept (code ++ phone) None = Some r ->
            first_valid (prefixed phone) = Some r /\
            until_valid (prefixed phone)
            = map (fun c => (c ++ phone, @None string)) (before ++ [code])%list).
  { intros before code after r Hl Hb Hc. rewrite Hcodes, Hl, !map_app. cbn [map].
    apply first_valid_split; [|exact Hc].
    apply Forall_forall. intros x Hx.
    apply list_elem_of_In, in_map_iff in Hx as (c & <- & Hin).
    rewrite Forall_forall in Hb. apply Hb. now apply list_elem_of_In. }
  assert (Hfirst : forall r, first_valid (prefixed phone) = Some r ->
            format_phone_number (Some phone) region = Some r).
  { intros r Hr. unfold Phone.format_phone_number. rewrite Hrun.
    rewrite try_each_spec, Hr.
    destruct (starts_6_to_9 phone); [|reflexivity].
    rewrite attempt_eq.
    destruct (accept ("+91" ++ phone) None) as [r'|] eqn:E; [|reflexivity].
    rewrite (first_valid_head phone r' E) in Hr. injection Hr as ->. reflexivity. }
  split; [|split; [|split]].
  - intros Hs. split.
    + unfold Phone.parse_calls. rewrite Hrun, Hs.
      match goal with |- exists _, (or_else ?a ?b).2 = _ =>
        destruct (or_else_calls a b) as [m1 ->] end.
      match goal with |- exists _, ((or_else ?a ?b).2 ++ _)%list = _ =>
        destruct (or_else_calls a b) as [m2 ->] end.
      rewrite or_else_none. cbn [snd].
      match goal with |- context [(or_else ?a ?b).2] =>
        destruct (or_else_calls a b) as [m3 ->] end.
      rewrite attempt_calls. cbn [app]. eexists. reflexivity.
    + intros r Hr. rewrite Hrun, Hs, attempt_eq, Hr. reflexivity.
  - intros Hs. split.
    + intros before code after r Hl Hb Hc.
      destruct (Hsplit before code after r Hl Hb Hc) as [Hr Hu].
      rewrite Hrun, Hs, try_each_spec, Hr, Hu. reflexivity.
    + intros Hnone.
      assert (Hall : Forall (fun x : call => accept x.1 x.2 = None) (prefixed phone)).
      { rewrite Hcodes. apply Forall_forall. intros x Hx.
        apply list_elem_of_In, in_map_iff in Hx as (c & <- & Hin).
        rewrite Forall_forall in Hnone. apply Hnone. now apply list_elem_of_In. }
      destruct (first_valid_none _ Hall) as [Hr Hu].
      unfold Phone.parse_calls. rewrite Hrun, Hs.
      match goal with |- exists _, (or_else ?a ?b).2 = _ =>
        destruct (or_else_calls a b) as [m1 ->] end.
      match goal with |- exists _, ((or_else ?a ?b).2 ++ _)%list = _ =>
        destruct (or_else_calls a b) as [m2 ->] end.
      rewrite try_each_spec, Hr, Hu, Hcodes. cbn [skip or_else fst snd app].
      exists (m2 ++ m1)%list. cbn [map app]. now rewrite <- ?app_assoc.
  - intros before code after r Hl Hb Hc. apply Hfirst.
    now destruct (Hsplit before code after r Hl Hb Hc).
  - intros -> Hr. apply Hfirst. now apply first_valid_head.
Qed.

End Normalizer.

(** The theorem at the number of the spec, with a library that accepts the
    Indian form only, and at a number that does not start with 6 to 9, with
    a library that accepts the British form only: the third calling code is
    the one returned, after the first two were parsed. *)
Lemma ten_digit_policy_witness :
  Phone.format_phone_number string Scenario.parse Scenario.is_valid_number
    Scenario.format_e164 (Some "9876543210") "US" = Some "+919876543210" /\
  Phone.format_phone_number_run string Scenario.parse Scenario.is_valid_british
    Scenario.format_e164 (Some "2079460958") "US"
  = (Some "+442079460958",
     [("2079460958", Some "US"); ("+912079460958", None); ("+12079460958", None);
      ("+442079460958", None)]).
Proof.
  split.
  - refine (proj2 (proj2 (proj2
      (ten_digit_policy string Scenario.parse Scenario.is_valid_number
         Scenario.format_e164 "9876543210" "US" eq_refl eq_refl eq_refl)))
      eq_refl eq_refl).
  - refine (proj1 (proj1 (proj2
      (ten_digit_policy string Scenario.parse Scenario.is_valid_british
         Scenario.format_e164 "2079460958" "US" eq_refl eq_refl eq_refl)) eq_refl)
      ["+91"; "+1"] "+44" ["+61"; "+49"] "+442079460958" eq_refl _ eq_refl).
    repeat constructor.
Defined.

(** Punctuation and blanks are removed before the digits are counted. *)
Example format_with_punctuation :
  Phone.format_phone_number_run string Scenario.parse Scenario.is_valid_number
    Scenario.format_e164 (Some " (987) 654-3210 ") "US"
  = (Some "+919876543210", [("9876543210", Some "US"); ("+919876543210", None)]).
Proof. reflexivity. Qed.

(** A number that no attempt accepts goes through every step, in order. *)
Example format_rejected :
  Phone.format_phone_number_run string Scenario.parse (fun _ => false)
    Scenario.format_e164 (Some "5551234567") "US"
  = (None,
     [("5551234567", Some "US");
      ("+915551234567", None); ("+15551234567", None); ("+445551234567", None);
      ("+615551234567", None); ("+495551234567", None);
      ("5551234567", Some "IN");
      ("5551234567", Some "IN"); ("5551234567", Some "GB"); ("5551234567", Some "AU");
      ("5551234567", Some "CA"); ("5551234567", Some "DE"); ("5551234567", Some "FR");
      ("5551234567", Some "IT"); ("5551234567", Some "ES"); ("5551234567", Some "BR");
      ("5551234567", Some "MX")]).
Proof. reflexivity. Qed.

End PhoneFacts.

(** ** WhatsApp dispatch *)

Module DispatchFacts.

Import Dispatch.

Lemma filter_success_split (results : list entry) :
  (length (filter (fun e => e_success e = true) results)
   + length (filter (fun e => e_success e = false) results) = length results)%nat.
Proof.
  induction results as [|e results IH]; [reflexivity|].
  rewrite !filter_cons. destruct (e_success e) eqn:E.
  - rewrite decide_True by reflexivity. rewrite decide_False by discriminate.
    cbn [length]. lia.
  - rewrite decide_False by discriminate. rewrite decide_True by reflexivity.
    cbn [length]. lia.
Qed.

Section Endpoint.

Variable PhoneNumber : Type.
Variable parse : string -> option string -> option PhoneNumber.
Variable is_valid_number : PhoneNumber -> bool.
Variable format_e164 : PhoneNumber -> string.
Variable twilio_client : option client.
Variable TWILIO_WHATSAPP_FROM : option string.

Local Abbreviation process := (process PhoneNumber parse is_valid_number format_e164).
Local Abbreviation loop := (loop PhoneNumber parse is_valid_number format_e164).
Local Abbreviation send_whatsapp :=
  (send_whatsapp PhoneNumber parse is_valid_number format_e164 twilio_client
     TWILIO_WHATSAPP_FROM).
Local Abbreviation format_phone_number :=
  (Phone.format_phone_number PhoneNumber parse is_valid_number format_e164).

(** A recipient whose phone is not accepted gets the failure entry that
    names the phone. *)
Lemma process_invalid_phone create sender idx (r : recipient) ph :
  get r "phone" = Some ph ->
  Py.truthy ph = true ->
  Py.truthy_opt (get r "message") = true ->
  format_phone_number (Some ph) "US" = None ->
  e_success (process create sender idx r) = false /\
  e_error (process create sender idx r) = Some ("Invalid phone number format: " ++ ph) /\
  e_phone (process create sender idx r) = Some ph.
Proof.
  intros Hph Ht Hm Hf. unfold Dispatch.process. rewrite Hph.
  destruct (get r "message") as [msg|]; [|discriminate].
  cbn [Py.truthy_opt] in Hm. rewrite Ht, Hm. cbn [andb].
  rewrite Hf. repeat split.
Qed.

(** On objects the loop runs to its end, with the entry of each recipient
    at its position. *)
Lemma loop_objects create sender (recipients : list recipient) : forall idx results,
  loop create sender idx (map Object recipients) results
  = ((results ++ imap (fun i => process create sender (idx + i)) recipients)%list, None).
Proof.
  induction recipients as [|r rest IH]; intros idx results; cbn [map Dispatch.loop imap].
  - now rewrite app_nil_r.
  - rewrite IH, <- app_assoc. cbn [app]. rewrite Nat.add_0_r. do 3 f_equal.
    apply imap_ext. intros i x _. cbn. now rewrite Nat.add_succ_r.
Qed.

(** The loop ends without an exception on objects only; it then made one
    entry per element. *)
Lemma loop_completes create sender items : forall idx results out,
  loop create sender idx items results = (out, None) ->
  exists recipients : list recipient,
    items = map Object recipients /\
    out = (results ++ imap (fun i => process create sender (idx + i)) recipients)%list.
Proof.
  induction items as [|[r|type_name] rest IH]; intros idx results out H;
    cbn [Dispatch.loop] in H.
  - injection H as <-. exists []. now rewrite app_nil_r.
  - destruct (IH _ _ _ H) as (recipients & -> & ->). exists (r :: recipients).
    split; [reflexivity|]. rewrite <- app_assoc. cbn [app imap].
    rewrite Nat.add_0_r. do 2 f_equal. apply imap_ext. intros i x _. cbn.
    now rewrite Nat.add_succ_r.
  - discriminate H.
Qed.

(** C6, as amended: when the provider and the sender are configured and the
    list of recipients is not empty and made of JSON objects, the endpoint
    answers with a report whose [total] is the number of recipients, whose
    [sent] and [failed] add up to [total] and count the entries that
    succeeded and failed, and whose [results] has, for every recipient and at
    the same position, the entry of that recipient alone (so no failure stops
    the batch).  A recipient with a phone and a message whose phone is not
    accepted by the normaliser has a failure entry whose error text ends with
    that phone. *)
Theorem dispatch_report (create : client) (recipients : list recipient) :
  twilio_client = Some create ->
  Py.truthy_opt TWILIO_WHATSAPP_FROM = true ->
  recipients <> [] ->
  exists sent failed results,
    send_whatsapp (Data (Items (map Object recipients)))
      = Report (Z.of_nat (length recipients)) sent failed results /\
    (sent + failed = Z.of_nat (length recipients))%Z /\
    length results = length recipients /\
    sent = Z.of_nat (length (filter (fun e => e_success e = true) results)) /\
    failed = Z.of_nat (length (filter (fun e => e_success e = false) results)) /\
    (forall i r, recipients !! i = Some r ->
       results !! i
       = Some (process create (default EmptyString TWILIO_WHATSAPP_FROM) i r)) /\
    (forall i r ph,
       recipients !! i = Some r ->
       get r "phone" = Some ph ->
       Py.truthy ph = true ->
       Py.truthy_opt (get r "message") = true ->
       format_phone_number (Some ph) "US" = None ->
       exists e, results !! i = Some e /\ e_success e = false /\
                 e_error e = Some ("Invalid phone number format: " ++ ph)).
Proof.
  intros Hc Hf Hne. unfold Dispatch.send_whatsapp. rewrite Hc, Hf.
  set (sender := default EmptyString TWILIO_WHATSAPP_FROM).
  rewrite (loop_objects create sender recipients 0 []). cbn [app].
  change (imap (fun i => process create sender (0 + i)) recipients)
    with (imap (process create sender) recipients).
  rewrite length_map.
  destruct recipients as [|r0 rest] eqn:Hrec; [congruence|]. cbn [map]. rewrite <- Hrec in *.
  set (results := imap (process create sender) recipients).
  assert (Hlen : length results = length recipients) by apply length_imap.
  assert (Hlook : forall i r, recipients !! i = Some r ->
            results !! i = Some (process create sender i r)).
  { intros i r Hi. unfold results. rewrite list_lookup_imap, Hi. reflexivity. }
  pose proof (filter_success_split results) as Hsplit.
  exists (success_count results), (Z.of_nat (length recipients) - success_count results)%Z,
    results.
  unfold success_count. repeat split; try lia; try assumption.
  intros i r ph Hi Hph Ht Hm Hinv.
  destruct (process_invalid_phone create sender i r ph Hph Ht Hm Hinv) as (Hs & He & _).
  exists (process create sender i r). auto.
Qed.

End Endpoint.

(** The theorem at a batch of three with the provider configured. *)
Lemma dispatch_report_witness :
  exists sent failed results,
    Dispatch.send_whatsapp string Scenario.parse Scenario.is_valid_number
      Scenario.format_e164 (Some Scenario.create) (Some "whatsapp:+14155238886")
      (Data (Items (map Object Scenario.batch)))
      = Report 3 sent failed results /\
    (sent + failed = 3)%Z /\
    length results = 3%nat /\
    sent = Z.of_nat (length (filter (fun e => e_success e = true) results)) /\
    failed = Z.of_nat (length (filter (fun e => e_success e = false) results)) /\
    (forall i r, Scenario.batch !! i = Some r ->
       results !! i
       = Some (Dispatch.process string Scenario.parse Scenario.is_valid_number
                 Scenario.format_e164 Scenario.create "whatsapp:+14155238886" i r)) /\
    (forall i r ph,
       Scenario.batch !! i = Some r ->
       get r "phone" = Some ph ->
       Py.truthy ph = true ->
       Py.truthy_opt (get r "message") = true ->
       Phone.format_phone_number string Scenario.parse Scenario.is_valid_number
         Scenario.format_e164 (Some ph) "US" = None ->
       exists e, results !! i = Some e /\ e_success e = false /\
                 e_error e = Some ("Invalid phone number format: " ++ ph)).
Proof.
  exact (dispatch_report string Scenario.parse Scenario.is_valid_number
           Scenario.format_e164 (Some Scenario.create) (Some "whatsapp:+14155238886")
           Scenario.create Scenario.batch eq_refl eq_refl
           (fun H : Scenario.batch = [] => eq_ind Scenario.batch
              (fun l => match l with [] => False | _ => True end) I [] H)).
Defined.

(** The batch of the spec: three recipients, one phone that is not a number,
    a provider that takes the other two. *)
Example dispatch_batch_of_three :
  exists e1 e2 e3,
    Dispatch.send_whatsapp string Scenario.parse Scenario.is_valid_number
      Scenario.format_e164 (Some Scenario.create) (Some "whatsapp:+14155238886")
      (Data (Items (map Object Scenario.batch)))
      = Report 3 2 1 [e1; e2; e3] /\
    e_success e1 = true /\ e_success e3 = true /\
    e_success e2 = false /\
    e_error e2 = Some "Invalid phone number format: 12345".
Proof. vm_compute. do 3 eexists. repeat split. Qed.

(** C6 as stated fails on the empty list of recipients: the endpoint answers
    400 and gives no report. *)
Lemma dispatch_empty_list_rejected :
  Dispatch.send_whatsapp string Scenario.parse Scenario.is_valid_number
    Scenario.format_e164 (Some Scenario.create) (Some "whatsapp:+14155238886")
    (Data (Items []))
    = Error 400 "No recipients provided" None None /\
  ~ exists total sent failed results,
      Dispatch.send_whatsapp string Scenario.parse Scenario.is_valid_number
        Scenario.format_e164 (Some Scenario.create) (Some "whatsapp:+14155238886")
        (Data (Items []))
      = Report total sent failed results.
Proof.
  split; [reflexivity|]. intros (total & sent & failed & results & H). discriminate H.
Qed.

(** An element that is not an object stops the batch: with a first recipient
    that is sent and a second element that is null, the loop is left after
    the first entry, and the answer is the 500 of the outer handler, without
    a tally. *)
Example dispatch_null_element_aborts :
  exists e1,
    Dispatch.loop string Scenario.parse Scenario.is_valid_number Scenario.format_e164
      Scenario.create "whatsapp:+14155238886" 0
      [Object (Scenario.recipient "9876543210" "Hello"); Other "NoneType"] []
    = ([e1], Some "NoneType") /\
    e_success e1 = true /\
    Dispatch.send_whatsapp string Scenario.parse Scenario.is_valid_number
      Scenario.format_e164 (Some Scenario.create) (Some "whatsapp:+14155238886")
      (Data (Items [Object (Scenario.recipient "9876543210" "Hello"); Other "NoneType"]))
    = Error 500 "An internal error occurred: 'NoneType' object has no attribute 'get'"
        None (Some "AttributeError").
Proof. vm_compute. eexists. repeat split. Qed.

(** Without a configured provider there is no report either. *)
Example dispatch_not_configured :
  Dispatch.send_whatsapp string Scenario.parse Scenario.is_valid_number
    Scenario.format_e164 None (Some "whatsapp:+14155238886")
    (Data (Items (map Object Scenario.batch)))
  = Error 500 not_configured_msg (Some false) None.
Proof. reflexivity. Qed.

(** A body that is not an object, and a [recipients] value without a
    length, are answered by the outer handler as well. *)
Example dispatch_malformed_body :
  Dispatch.send_whatsapp string Scenario.parse Scenario.is_valid_number
    Scenario.format_e164 (Some Scenario.create) (Some "whatsapp:+14155238886")
    (NotObject "list")
  = Error 500 "An internal error occurred: 'list' object has no attribute 'get'"
      None (Some "AttributeError") /\
  Dispatch.send_whatsapp string Scenario.parse Scenario.is_valid_number
    Scenario.format_e164 (Some Scenario.create) (Some "whatsapp:+14155238886")
    (Data (NoLen "int"))
  = Error 500 "An internal error occurred: object of type 'int' has no len()"
      None (Some "TypeError").
Proof. split; reflexivity. Qed.

End DispatchFacts.

(** ** Repository statistics *)

Module RepoFacts.

Import RepoStats.

Section Collector.

Variable session_get : nat -> string -> list (string * string) -> string + Response.
Variable query_first : string -> string -> option string.
Variable int_of_str : string -> option Z.

Local Abbreviation get := (get session_get int_of_str).
Local Abbreviation query_int := (query_int query_first int_of_str).
Local Abbreviation estimate_commit_count :=
  (estimate_commit_count session_get query_first int_of_str).

(** An answer that is neither a retry nor an error is returned at once. *)
Lemma get_returns fuel n url params resp :
  session_get n url params = inr resp ->
  status_code resp <> 202%Z ->
  status_code resp <> 403%Z ->
  is_http_error (status_code resp) = false ->
  get (S fuel) n url params = (Returned resp, S n).
Proof.
  intros Hs H202 H403 Herr. cbn [RepoStats.get]. rewrite Hs.
  destruct (Z.eqb_spec (status_code resp) 202) as [?|_]; [contradiction|].
  destruct (Z.eqb_spec (status_code resp) 403) as [?|_]; [contradiction|].
  cbn [andb]. now rewrite Herr.
Qed.

(** Once the loop has ended, more iterations change nothing. *)
Lemma get_more_fuel fuel : forall n url params o n1 extra,
  get fuel n url params = (o, n1) ->
  o <> Pending ->
  get (fuel + extra) n url params = (o, n1).
Proof.
  induction fuel as [|fuel IH]; intros n url params o n1 extra H Ho.
  - cbn in H. injection H as <- <-. contradiction.
  - cbn [RepoStats.get Nat.add] in *.
    destruct (session_get n url params) as [e|resp]; [exact H|].
    destruct (status_code resp =? 202)%Z; [now apply IH|].
    destruct ((status_code resp =? 403)%Z
              && bool_decide (headers resp !! "x-ratelimit-remaining" = Some "0")).
    + destruct (headers resp !! "x-ratelimit-reset") as [reset|]; [|now apply IH].
      destruct (int_of_str reset); [now apply IH|exact H].
    + exact H.
Qed.

(** What [get] returns is never a retry answer nor an HTTP error. *)
Lemma get_returned_status fuel : forall n url params resp n1,
  get fuel n url params = (Returned resp, n1) ->
  status_code resp <> 202%Z /\ is_http_error (status_code resp) = false.
Proof.
  induction fuel as [|fuel IH]; intros n url params resp n1 H.
  - discriminate H.
  - cbn [RepoStats.get] in H.
    destruct (session_get n url params) as [e|r]; [discriminate H|].
    destruct (Z.eqb_spec (status_code r) 202) as [E|E]; [now apply IH in H|].
    destruct ((status_code r =? 403)%Z
              && bool_decide (headers r !! "x-ratelimit-remaining" = Some "0")).
    + destruct (headers r !! "x-ratelimit-reset") as [reset|]; [|now apply IH in H].
      destruct (int_of_str reset); [now apply IH in H|discriminate H].
    + destruct (is_http_error (status_code r)) eqn:Herr; [discriminate H|].
      injection H as <- <-. auto.
Qed.

(** C8: let [resp] be the answer to the commits listing.  When it carries no
    link header and its body is the list [items] (a 204 answer has no items),
    the estimate is the number of items.  When its link header has a part
    marked [rel="last"], and [last_page] and [per_page] are the integers read
    from the query of that URL (1 and 30 when absent), the estimate is
    [(last_page - 1) * per_page] plus the number of items of the page that
    URL returns. *)
Theorem estimate_commit_count_spec fuel n owner repo branch resp n1 :
  get fuel n (GITHUB_API ++ "/repos/" ++ owner ++ "/" ++ repo ++ "/commits")
    [("sha", branch); ("per_page", "1")] = (Returned resp, n1) ->
  (headers resp !! "link" = None ->
   forall items,
     json resp = Some items ->
     (status_code resp = 204%Z -> items = []) ->
     estimate_commit_count fuel n owner repo branch
     = (Returned (Z.of_nat (length items)), n1)) /\
  (forall link part last_page per_page last_page_resp n2 last_page_items,
     status_code resp <> 204%Z ->
     headers resp !! "link" = Some link ->
     last_part link = Some part ->
     query_int (link_url part) "page" 1 = Some last_page ->
     query_int (link_url part) "per_page" 30 = Some per_page ->
     get fuel n1 (link_url part) [] = (Returned last_page_resp, n2) ->
     json last_page_resp = Some last_page_items ->
     estimate_commit_count fuel n owner repo branch
     = (Returned ((last_page - 1) * per_page + Z.of_nat (length last_page_items))%Z, n2)).
Proof.
  intros Hget. unfold RepoStats.estimate_commit_count. rewrite Hget. split.
  - intros Hlink items Hjson H204.
    destruct (Z.eqb_spec (status_code resp) 204) as [E|_].
    + now rewrite (H204 E).
    + rewrite Hlink. cbn [mbind option_bind]. unfold count_items. now rewrite Hjson.
  - intros link part last_page per_page last_page_resp n2 last_page_items
      H204 Hlink Hpart Hpage Hper Hget2 Hjson.
    destruct (Z.eqb_spec (status_code resp) 204) as [?|_]; [contradiction|].
    rewrite Hlink. cbn [mbind option_bind]. rewrite Hpart, Hpage, Hper, Hget2, Hjson.
    reflexivity.
Qed.

End Collector.

(** The theorem on the repository of 57 commits: one retry, then the link
    header, then the last page. *)
Lemma estimate_commit_count_witness :
  RepoStats.estimate_commit_count Scenario.paged_session Scenario.query_first
    Scenario.int_of_str 3 0 "debugfest" "kaizen" "main"
  = (Returned 57%Z, 3%nat).
Proof.
  exact (proj2 (estimate_commit_count_spec Scenario.paged_session Scenario.query_first
                  Scenario.int_of_str 3 0 "debugfest" "kaizen" "main" _ 2%nat eq_refl)
           Scenario.link_header _ 57%Z 1%Z _ 3%nat ["commit 57"]
           ltac:(discriminate) eq_refl eq_refl eq_refl eq_refl eq_refl eq_refl).
Defined.

(** The single page of the spec: no link header, the count is that of the
    page. *)
Example estimate_single_page :
  RepoStats.estimate_commit_count Scenario.single_page_session Scenario.query_first
    Scenario.int_of_str 1 0 "debugfest" "kaizen" "main"
  = (Returned 1%Z, 1%nat).
Proof. reflexivity. Qed.

(** An empty answer (204) counts as no commit. *)
Example estimate_no_content :
  RepoStats.estimate_commit_count
    (fun _ _ _ => inr {| status_code := 204; headers := ∅; json := None |})
    Scenario.query_first Scenario.int_of_str 1 0 "debugfest" "kaizen" "main"
  = (Returned 0%Z, 1%nat).
Proof. reflexivity. Qed.

(** A server that keeps asking to retry never lets [get] return. *)
Example get_pending fuel :
  RepoStats.get (fun _ _ _ => inr {| status_code := 202; headers := ∅; json := None |})
    Scenario.int_of_str fuel 0 "u" [] = (Pending, fuel).
Proof.
  change fuel with (0 + fuel)%nat at 2. generalize 0%nat.
  induction fuel as [|fuel IH]; intros n; cbn [RepoStats.get].
  - now rewrite Nat.add_0_r.
  - cbn. rewrite IH. f_equal. lia.
Qed.

End RepoFacts.

(** ** Forecast endpoint *)

Module ForecastFacts.

Import Forecast.

Lemma insert_row_Forall (P : row -> Prop) r l :
  P r -> Forall P l -> Forall P (insert_row r l).
Proof.
  intros Hr Hl. induction Hl as [|x xs Hx Hxs IH]; cbn [insert_row].
  - repeat constructor. exact Hr.
  - destruct (r.2 <=? x.2)%Z; repeat constructor; assumption.
Qed.

(** Sorting keeps what holds of every row. *)
Lemma sort_values_Forall (P : row -> Prop) l : Forall P l -> Forall P (sort_values l).
Proof.
  intros H. unfold sort_values. induction H as [|x xs Hx Hxs IH]; cbn [foldr].
  - constructor.
  - now apply insert_row_Forall.
Qed.

Lemma zip_fst_Forall {A B} (P : A -> Prop) (l : list A) (k : list B) :
  Forall P l -> Forall (fun r : A * B => P r.1) (zip l k).
Proof.
  intros H. revert k. induction H as [|x xs Hx Hxs IH]; intros [|y k]; cbn [zip zip_with];
    constructor; auto.
Qed.

Section Endpoint.

Variable int_of_str : string -> option Z.
Variable to_datetime : string -> option Z.
Variable strftime : Z -> string.
Variable sqrt : float -> float.
Variable Model : Type.
Variable fit : list (Z * float) -> string + Model.
Variable predict : Model -> Z -> string + list prediction.

Local Abbreviation int := (int int_of_str).
Local Abbreviation compute_metrics := (compute_metrics sqrt).
Local Abbreviation forecast :=
  (forecast int_of_str to_datetime strftime sqrt Model fit predict).

(** With no actual value different from zero, the guard of the MAPE formula
    takes the constant branch. *)
Lemma compute_metrics_all_zero actuals predictions m :
  Forall (fun v => Float.nonzero v = false) actuals ->
  compute_metrics actuals predictions = Some m ->
  mape m = Fin 0.
Proof.
  intros Hz. unfold Forecast.compute_metrics, compute_mape.
  assert (E : existsb Float.nonzero actuals = false).
  { induction Hz as [|v vs Hv Hvs IH]; [reflexivity|]. cbn [existsb]. now rewrite Hv, IH. }
  rewrite E. cbn [mbind option_bind].
  destruct (compute_mae actuals predictions); [|discriminate].
  destruct (compute_rmse sqrt actuals predictions); [|discriminate].
  cbn [mbind option_bind]. intros H. injection H as <-. reflexivity.
Qed.

(** C4, as amended: when [periods] is absent or converts to an integer and
    [monthlyData] has fewer than three samples, the endpoint answers 400 with
    the fixed message and the samples it was given, and no model has been
    fitted. *)
Theorem insufficient_data_rejected (b : body) (p : Z) :
  int (default (PInt 6) (periods b)) = inr p ->
  (length (monthlyData b) < 3)%nat ->
  forecast (Some b)
  = (Failure 400 "Insufficient data. Need at least 3 months of historical data."
       (monthlyData b), []).
Proof.
  intros Hint Hlen. unfold Forecast.forecast. rewrite Hint.
  destruct (Nat.ltb_spec (length (monthlyData b)) 3) as [_|?]; [reflexivity|lia].
Qed.

(** C5: whenever the endpoint answers with metrics and every actual value of
    the target field is zero, the MAPE of the answer is exactly 0; such an
    answer is only given for at least three samples. *)
Theorem mape_zero_when_all_zero (b : body) historical forecast_data m log :
  Forall (fun s => exists v, field (default "revenue" (type b)) s = Some v
                             /\ Float.nonzero v = false) (monthlyData b) ->
  forecast (Some b) = (Success historical forecast_data m, log) ->
  mape m = Fin 0 /\ (3 <= length (monthlyData b))%nat.
Proof.
  intros Hzero. unfold Forecast.forecast.
  destruct (int (default (PInt 6) (periods b))) as [e|p]; [discriminate|].
  destruct (Nat.ltb_spec (length (monthlyData b)) 3) as [?|Hlen]; [discriminate|].
  destruct (mapM _ (monthlyData b)) as [ds|]; [|discriminate].
  set (df := sort_values (zip (monthlyData b) ds)).
  destruct (mapM _ df) as [y|] eqn:Hy; [|discriminate].
  destruct (fit _) as [e|model]; [discriminate|].
  destruct (predict model p) as [e|fc]; [discriminate|].
  destruct (compute_metrics y _) as [m'|] eqn:Hm; [|discriminate].
  intros H. injection H as _ _ <- _. split; [|exact Hlen].
  apply (fun Hz => compute_metrics_all_zero _ _ _ Hz Hm).
  assert (Hdf : Forall (fun r : row => exists v,
              field (default "revenue" (type b)) r.1 = Some v
              /\ Float.nonzero v = false) df).
  { apply sort_values_Forall.
    exact (zip_fst_Forall
             (fun s => exists v, field (default "revenue" (type b)) s = Some v
                                 /\ Float.nonzero v = false) _ ds Hzero). }
  apply mapM_Some_1 in Hy. clear -Hy Hdf.
  induction Hy as [|r v df y Hr Hy IH]; [constructor|].
  apply Forall_cons in Hdf as [(v' & Hv' & Hnz) Hdf].
  constructor; [|now apply IH].
  rewrite Hr in Hv'. now injection Hv' as ->.
Qed.

End Endpoint.

(** A request with a single month is refused before any fit. *)
Lemma insufficient_data_witness :
  Forecast.forecast Scenario.int_of_str Scenario.to_datetime Scenario.strftime
    Scenario.sqrt _ Scenario.fit Scenario.predict (Some Scenario.one_month)
  = (Failure 400 "Insufficient data. Need at least 3 months of historical data."
       (monthlyData Scenario.one_month), []).
Proof.
  exact (insufficient_data_rejected Scenario.int_of_str Scenario.to_datetime
           Scenario.strftime Scenario.sqrt _ Scenario.fit Scenario.predict
           Scenario.one_month 1%Z eq_refl (le_n_S _ _ (le_S _ _ (le_n 1)))).
Defined.

(** C4 as stated fails on a request with fewer than three samples whose
    [periods] is null: [int(None)] raises before the length is looked at, and
    the answer is the generic 500. *)
Lemma insufficient_data_null_periods :
  (length (monthlyData Scenario.null_periods) < 3)%nat /\
  Forecast.forecast Scenario.int_of_str Scenario.to_datetime Scenario.strftime
    Scenario.sqrt _ Scenario.fit Scenario.predict (Some Scenario.null_periods)
  = (Failure 500 "TypeError" [], []) /\
  Forecast.forecast Scenario.int_of_str Scenario.to_datetime Scenario.strftime
    Scenario.sqrt _ Scenario.fit Scenario.predict (Some Scenario.null_periods)
  <> (Failure 400 "Insufficient data. Need at least 3 months of historical data."
        (monthlyData Scenario.null_periods), []).
Proof. split; [cbn; lia|]. split; [reflexivity|discriminate]. Qed.

(** Three months without revenue: the answer has metrics, and its MAPE is
    0. *)
Lemma mape_zero_witness :
  exists historical forecast_data m log,
    Forecast.forecast Scenario.int_of_str Scenario.to_datetime Scenario.strftime
      Scenario.sqrt _ Scenario.fit Scenario.predict (Some Scenario.quiet_months)
    = (Success historical forecast_data m, log) /\
    mape m = Fin 0 /\ (3 <= length (monthlyData Scenario.quiet_months))%nat.
Proof.
  do 4 eexists. split; [vm_compute; reflexivity|].
  refine (mape_zero_when_all_zero Scenario.int_of_str Scenario.to_datetime
            Scenario.strftime Scenario.sqrt _ Scenario.fit Scenario.predict
            Scenario.quiet_months _ _ _ _ _ eq_refl).
  repeat constructor; eexists; split; reflexivity.
Defined.

(** With one month of revenue among zeros the guard lets the division
    through, and the MAPE is not a number. *)
Example mape_with_some_zero :
  Forecast.compute_mape [Fin 0; Fin 100; Fin 0] [Fin 0; Fin 90; Fin 0] = Some NaN
  /\ Forecast.compute_mape [Fin 0; Fin 100; Fin 0] [Fin 1; Fin 90; Fin 0] = Some NaN
  /\ Forecast.compute_mape [Fin 100; Fin 0] [Fin 90; Fin 5] = Some PInf.
Proof. repeat split. Qed.

End ForecastFacts.

(** ** Fuzzy stage *)

Module FuzzyFacts.

Import Fuzzy.

Lemma clip_value u x q : Float.is_value x q -> clip u x = clip u (Fin q).
Proof.
  destruct x as [a| | |]; cbn [Float.is_value]; try contradiction.
  intros H. unfold clip. now rewrite (Qred_complete _ _ H).
Qed.

(** The stage reads a row through the clipped values only. *)
Lemma apply_fuzzy_segmentation_ext (r r' : row_data) :
  (forall t, membership r t = membership r' t) ->
  apply_fuzzy_segmentation r = apply_fuzzy_segmentation r'.
Proof.
  intros H.
  assert (Hf : forall a, firing r a = firing r' a).
  { intros a. unfold firing. now rewrite (map_ext _ _ H). }
  assert (Hc : forall s, cut r s = cut r' s).
  { intros s. unfold cut. f_equal. apply map_ext. intros rule. apply Hf. }
  unfold apply_fuzzy_segmentation, compute.
  rewrite (flat_map_ext _ _ (fun s => f_equal _ (Hc s))).
  assert (Hm : forall x,
    map (fun s => Qmin_b (cut r s) (interp promotional_segment_universe (sampled s) x))
      segments
    = map (fun s => Qmin_b (cut r' s) (interp promotional_segment_universe (sampled s) x))
      segments).
  { intros x. apply map_ext. intros s. now rewrite Hc. }
  rewrite (map_ext _ _ (fun x => f_equal (foldl Qmax_b 0%Q) (Hm x))).
  reflexivity.
Qed.

(** On the record of the spec the first and the sixth rule fire, with
    strengths 5/6 and 3/5, and nothing else does. *)
Lemma spec_row_firing :
  map (fun rule => firing Scenario.spec_row rule.1) rules
  = [(5 # 6)%Q; 0%Q; 0%Q; 0%Q; 0%Q; (3 # 5)%Q].
Proof. vm_compute. reflexivity. Qed.

Lemma spec_row_category :
  apply_fuzzy_segmentation Scenario.spec_row = (Some 6%Q, "High Value Engagement").
Proof. vm_compute. reflexivity. Qed.

(** The fuzzy stage on any row with the four values of the spec. *)
Lemma apply_fuzzy_segmentation_spec_values (r : row_data) :
  Float.is_value (total_spent r) 4800 ->
  Float.is_value (intent_score r) (95 # 100) ->
  Float.is_value (touchpoints_count r) 18 ->
  Float.is_value (recency r) 10 ->
  apply_fuzzy_segmentation r = (Some 6%Q, "High Value Engagement").
Proof.
  intros H1 H2 H3 H4. rewrite <- spec_row_category.
  apply apply_fuzzy_segmentation_ext. intros t. unfold membership.
  destruct t; cbn [term_input term_universe];
    first [ now rewrite (clip_value _ _ _ H1) | now rewrite (clip_value _ _ _ H2)
          | now rewrite (clip_value _ _ _ H3) | now rewrite (clip_value _ _ _ H4) ].
Qed.

(** No rule fires on a middling customer: the score is undefined and the
    category is Unknown. *)
Example no_rule_fires :
  apply_fuzzy_segmentation
    {| total_spent := Fin 2000; intent_score := Fin (1 # 10);
       touchpoints_count := Fin 10; recency := Fin 300 |}
  = (None, "Unknown").
Proof. vm_compute. reflexivity. Qed.

(** The category of a score follows the three bins. *)
Lemma category_bins (score : Q) :
  ((0 <= score < 45 # 10)%Q -> category score = "New Customer Nurture") /\
  ((45 # 10 <= score < 75 # 10)%Q -> category score = "High Value Engagement") /\
  ((75 # 10 <= score <= 10)%Q -> category score = "Re-engagement").
Proof.
  unfold category, promotional_bins, promotional_labels, Qlt_bool.
  repeat split; intros [Hlo Hhi].
  - apply Qle_bool_iff in Hlo. rewrite Hlo.
    destruct (Qle_bool (45 # 10) score) eqn:E; [|reflexivity].
    apply Qle_bool_iff in E. lra.
  - destruct (Qle_bool 0 score && negb (Qle_bool (45 # 10) score)) eqn:E0.
    + apply andb_true_iff in E0 as [_ E0]. apply negb_true_iff in E0.
      apply Qle_bool_iff in Hlo. congruence.
    + apply Qle_bool_iff in Hlo. rewrite Hlo.
      destruct (Qle_bool (75 # 10) score) eqn:E; [|reflexivity].
      apply Qle_bool_iff in E. lra.
  - assert (E1 : Qle_bool (45 # 10) score = true) by (apply Qle_bool_iff; lra).
    assert (E2 : Qle_bool (75 # 10) score = true) by (now apply Qle_bool_iff).
    assert (E3 : Qle_bool score 10 = true) by (now apply Qle_bool_iff).
    rewrite E1, E2, E3. cbn. now rewrite andb_false_r.
Qed.

End FuzzyFacts.

(** ** Segmentation pipeline *)

Module SegmentationFacts.

Import Segmentation.

Lemma argmin_from_range l : forall i best least,
  (0 <= best < i)%Z ->
  (0 <= argmin_from i best least l < i + Z.of_nat (length l))%Z.
Proof.
  induction l as [|d l IH]; intros i best least H; cbn [argmin_from length].
  - lia.
  - destruct (Fuzzy.Qlt_bool d least).
    + specialize (IH (i + 1)%Z i d ltac:(lia)). lia.
    + specialize (IH (i + 1)%Z best least ltac:(lia)). lia.
Qed.

(** [argmin] is an index of the list. *)
Lemma argmin_range l : l <> [] -> (0 <= argmin l < Z.of_nat (length l))%Z.
Proof.
  destruct l as [|d l]; [congruence|]. intros _. unfold argmin.
  pose proof (argmin_from_range l 1 0 d ltac:(lia)). cbn [length]. lia.
Qed.

(** The labels [predict] gives are indices of the centres, one per row. *)
Lemma predict_labels centres X labels :
  centres <> [] ->
  predict centres X = inr labels ->
  Forall (fun z => (0 <= z < Z.of_nat (length centres))%Z) labels
  /\ length labels = length X.
Proof.
  intros Hc. unfold predict. destruct X as [|x X]; [discriminate|].
  destruct (mapM finite_row (x :: X)) as [rows|] eqn:E; [|discriminate].
  intros H. injection H as <-. split.
  - apply Forall_map, Forall_forall. intros row _.
    pose proof (argmin_range (map (distance2 row) centres)) as Ha.
    rewrite length_map in Ha. apply Ha. destruct centres; [congruence|discriminate].
  - rewrite length_map. apply length_mapM in E. now rewrite <- E.
Qed.

Lemma predict_length centres X labels :
  predict centres X = inr labels -> length labels = length X.
Proof.
  unfold predict. destruct X as [|x X]; [discriminate|].
  destruct (mapM finite_row (x :: X)) as [rows|] eqn:E; [|discriminate].
  intros H. injection H as <-. rewrite length_map. apply length_mapM in E. now rewrite <- E.
Qed.

Lemma transform_length mean scale X scaled :
  transform mean scale X = inr scaled -> length scaled = length X.
Proof.
  unfold transform. destruct X as [|x X]; [discriminate|].
  intros H. injection H as <-. cbn [length]. now rewrite length_map.
Qed.

(** After the loop over the features, a column that was there is kept and
    an absent one holds its default in every row. *)
Lemma ensure_features_lookup n (base : gmap string (list float)) spent recency :
  base !! "total_spent" = Some spent ->
  base !! "recency" = Some recency ->
  ensure_features n base !! "intent_score"
  = Some (default (replicate n (Fin (1 # 2))) (base !! "intent_score"))
  /\ ensure_features n base !! "touchpoints_count"
     = Some (default (replicate n (Fin 0)) (base !! "touchpoints_count")).
Proof.
  intros Hs Hr. unfold ensure_features, clustering_features. cbn [foldl].
  rewrite Hs.
  destruct (base !! "intent_score") as [intent|] eqn:Ei;
    destruct (base !! "touchpoints_count") as [touch|] eqn:Et;
    simplify_map_eq; auto.
Qed.

Lemma cell_replicate (columns : gmap string (list float)) feature n v i :
  columns !! feature = Some (replicate n v) -> (i < n)%nat -> cell columns feature i = v.
Proof.
  intros H Hi. unfold cell. rewrite H. cbn [mbind option_bind].
  now rewrite (lookup_replicate_2 n v i Hi).
Qed.

(** The two columns after preprocessing: the one of the batch, or the
    default in every row when the batch has none. *)
Lemma preprocess_columns now df columns :
  preprocess now df = inr columns ->
  columns !! "intent_score"
  = Some (default (replicate (nrows df) (Fin (1 # 2))) (numeric df !! "intent_score"))
  /\ columns !! "touchpoints_count"
     = Some (default (replicate (nrows df) (Fin 0)) (numeric df !! "touchpoints_count")).
Proof.
  unfold preprocess.
  destruct (last_purchase_date df) as [dates|]; [|discriminate].
  destruct (numeric df !! "total_spent") as [spent|] eqn:Hs; [|discriminate].
  intros H. injection H as <-.
  set (base := <["recency" := _]> (<["total_spent" := fillna (Fin 0) spent]> (numeric df))).
  destruct (ensure_features_lookup (nrows df) base (fillna (Fin 0) spent)
              (map Float.of_Z (recency_column now dates))) as [Hi Ht];
    [unfold base; now simplify_map_eq..|].
  assert (Ei : base !! "intent_score" = numeric df !! "intent_score")
    by (unfold base; now simplify_map_eq).
  assert (Et : base !! "touchpoints_count" = numeric df !! "touchpoints_count")
    by (unfold base; now simplify_map_eq).
  rewrite Ei in Hi. rewrite Et in Ht. auto.
Qed.

(** A column that is there is taken as it is, blank cells included. *)
Lemma present_column_kept now df columns :
  preprocess now df = inr columns ->
  (forall column, numeric df !! "intent_score" = Some column ->
     columns !! "intent_score" = Some column) /\
  (forall column, numeric df !! "touchpoints_count" = Some column ->
     columns !! "touchpoints_count" = Some column).
Proof.
  intros H. destruct (preprocess_columns now df columns H) as [Hi Ht].
  split; intros column Hc; [now rewrite Hi, Hc|now rewrite Ht, Hc].
Qed.

(** C3, as amended: preprocessing (shared by initialisation and by
    classification, and run before the fuzzy and cluster stages) gives every
    record the intent score 0.5 when the batch has no [intent_score] column,
    and the touchpoints count 0 when it has no [touchpoints_count] column. *)
Theorem missing_column_defaults now df columns :
  preprocess now df = inr columns ->
  (numeric df !! "intent_score" = None ->
   forall i, (i < nrows df)%nat -> cell columns "intent_score" i = Fin (1 # 2)) /\
  (numeric df !! "touchpoints_count" = None ->
   forall i, (i < nrows df)%nat -> cell columns "touchpoints_count" i = Fin 0).
Proof.
  intros H. destruct (preprocess_columns now df columns H) as [Hi Ht]. split.
  - intros Hn i Hlt. rewrite Hn in Hi. now apply (cell_replicate _ _ _ _ _ Hi).
  - intros Hn i Hlt. rewrite Hn in Ht. now apply (cell_replicate _ _ _ _ _ Ht).
Qed.

(** The columns classification works on are those of the preprocessing. *)
Lemma prepare_customer_data_columns now df st columns scaled :
  prepare_customer_data now df st = inr (columns, scaled) ->
  preprocess now df = inr columns.
Proof.
  unfold prepare_customer_data. destruct (preprocess now df) as [e|c]; [discriminate|].
  destruct (segmentation_scaler st) as [[|mean scale]|]; try discriminate.
  destruct (transform mean scale _); [discriminate|].
  intros H. now injection H as <- _.
Qed.

Section Pipeline.

Variable scaler_fit : list (list float) -> string + (list float * list float).
Variable kmeans_fit : nat -> Z -> list (list float) -> string + list (list Q).

Local Abbreviation initialize_segmentation_models :=
  (initialize_segmentation_models scaler_fit kmeans_fit).
Local Abbreviation segment_customers := (segment_customers scaler_fit kmeans_fit).
Local Abbreviation initialize_segmentation := (initialize_segmentation scaler_fit kmeans_fit).
Local Abbreviation reachable := (reachable scaler_fit kmeans_fit).

Lemma initialize_outcome now df st :
  init_outcome scaler_fit kmeans_fit now df st (initialize_segmentation_models now df st).
Proof.
  unfold Segmentation.initialize_segmentation_models.
  destruct (preprocess now df) as [e|columns] eqn:Hp; [eapply init_no_column, Hp|].
  destruct (scaler_fit _) as [e|[mean scale]] eqn:Hs; [eapply init_scaler_failed; eassumption|].
  destruct (transform mean scale _) as [e|scaled] eqn:Ht.
  { eapply init_kmeans_failed; eauto. intros scaled centres H. rewrite Ht in H. discriminate H. }
  destruct (kmeans_fit 4 42 scaled) as [e|centres] eqn:Hk.
  { eapply init_kmeans_failed; eauto. intros scaled' centres H.
    rewrite Ht in H. injection H as <-. now rewrite Hk. }
  eapply init_done; eauto.
Qed.

(** What a successful classification went through. *)
Lemma classify_records now df st result :
  classify now df st = Records result ->
  exists columns scaled centres labels,
    prepare_customer_data now df st = inr (columns, scaled) /\
    segmentation_kmeans st = Some (KMeansFitted centres) /\
    predict centres scaled = inr labels /\
    result = imap (make_result columns) labels.
Proof.
  unfold classify.
  destruct (prepare_customer_data now df st) as [e|[columns scaled]]; [discriminate|].
  destruct (segmentation_kmeans st) as [[|centres]|]; try discriminate.
  destruct (predict centres scaled) as [e|labels] eqn:Hp; [discriminate|].
  intros H. injection H as <-. now exists columns, scaled, centres, labels.
Qed.

(** A classification that returns records returns one per row. *)
Lemma classify_length now df st result :
  classify now df st = Records result -> length result = nrows df.
Proof.
  intros H. apply classify_records in H as (columns & scaled & centres & labels
                                            & Hprep & _ & Hpred & ->).
  rewrite length_imap. apply predict_length in Hpred. rewrite Hpred.
  unfold prepare_customer_data in Hprep.
  destruct (preprocess now df) as [e|c]; [discriminate|].
  destruct (segmentation_scaler st) as [[|mean scale]|]; try discriminate.
  destruct (transform mean scale _) as [e|scaled'] eqn:Ht; [discriminate|].
  injection Hprep as _ <-. apply transform_length in Ht. rewrite Ht.
  unfold feature_matrix. now rewrite length_map, length_seq.
Qed.

(** Records only come out of [classify], run on the globals the request
    leaves behind, and those are marked initialised. *)
Lemma segment_customers_records now_init now req st result st' :
  segment_customers now_init now req st = (Records result, st') ->
  exists filename df,
    req = File filename (inr df) /\
    classify now df st' = Records result /\
    segmentation_initialized st' = true /\
    (st' = st \/ st' = (initialize_segmentation_models now_init df st).2).
Proof.
  unfold Segmentation.segment_customers. destruct req as [|filename [e|df]]; [discriminate| |].
  - destruct (negb (Py.truthy filename)); discriminate.
  - destruct (negb (Py.truthy filename)); [discriminate|].
    destruct (segmentation_initialized st) eqn:Hi.
    + intros H. injection H as H <-. exists filename, df. auto.
    + destruct (initialize_segmentation_models now_init df st) as [ok st1] eqn:Hinit.
      destruct ok; [|discriminate].
      intros H. injection H as H <-. exists filename, df.
      split; [reflexivity|]. split; [exact H|]. split.
      * pose proof (initialize_outcome now_init df st) as Ho. rewrite Hinit in Ho.
        inversion Ho; subst; reflexivity.
      * right. now rewrite Hinit.
Qed.

(** C1, as amended: a classification request that finds the pipeline
    uninitialised first initialises it from the uploaded batch.  When that
    fails, the answer is the 500 error "Failed to initialize segmentation
    models" and the pipeline stays uninitialised; when it succeeds, the
    pipeline is initialised and the batch is classified with the new models,
    with one record per row whenever records are returned. *)
Theorem classify_uninitialized now_init now filename df st ok st1 :
  segmentation_initialized st = false ->
  Py.truthy filename = true ->
  initialize_segmentation_models now_init df st = (ok, st1) ->
  (ok = false ->
     segment_customers now_init now (File filename (inr df)) st
     = (Error 500 "Failed to initialize segmentation models", st1)
     /\ segmentation_initialized st1 = false) /\
  (ok = true ->
     segment_customers now_init now (File filename (inr df)) st
     = (classify now df st1, st1)
     /\ segmentation_initialized st1 = true
     /\ forall result, classify now df st1 = Records result ->
          length result = nrows df).
Proof.
  intros Hi Hf Hinit. unfold Segmentation.segment_customers.
  rewrite Hf, Hi, Hinit. cbn [negb].
  pose proof (initialize_outcome now_init df st) as Ho. rewrite Hinit in Ho.
  split; intros ->.
  - split; [reflexivity|]. inversion Ho; subst; cbn; assumption.
  - split; [reflexivity|]. split; [inversion Ho; subst; reflexivity|].
    apply classify_length.
Qed.


(** No endpoint leaves a fitted cluster model with other than four centres,
    provided fitting with [n_clusters] gives that many. *)
Section Centres.

Hypothesis kmeans_fit_centres : forall n_clusters random_state X centres,
  kmeans_fit n_clusters random_state X = inr centres -> length centres = n_clusters.

Lemma initialize_four_centres now df st :
  four_centres st -> four_centres (initialize_segmentation_models now df st).2.
Proof.
  intros Hst. pose proof (initialize_outcome now df st) as Ho.
  inversion Ho as [e Hp Heq|columns e Hp Hs Heq|columns mean scale Hp Hs Hk Heq
                  |columns mean scale scaled centres Hp Hs Ht Hk Heq];
    cbn [snd]; unfold four_centres; cbn [segmentation_kmeans]; try assumption.
  - intros centres H. discriminate H.
  - intros centres' H. injection H as <-. exact (kmeans_fit_centres _ _ _ _ Hk).
Qed.

Lemma reachable_four_centres st : reachable st -> four_centres st.
Proof.
  induction 1 as [|now_init now req st Hr IH|now req st Hr IH].
  - intros centres H. discriminate H.
  - unfold Segmentation.segment_customers. destruct req as [|filename [e|df]]; [exact IH| |].
    + destruct (negb (Py.truthy filename)); exact IH.
    + destruct (negb (Py.truthy filename)); [exact IH|].
      destruct (segmentation_initialized st); [exact IH|].
      pose proof (initialize_four_centres now_init df st IH) as H.
      destruct (initialize_segmentation_models now_init df st) as [[|] st1]; exact H.
  - unfold Segmentation.initialize_segmentation. destruct req as [|filename [e|df]]; [exact IH| |].
    + destruct (negb (Py.truthy filename)); exact IH.
    + destruct (negb (Py.truthy filename)); [exact IH|].
      pose proof (initialize_four_centres now df st IH) as H.
      destruct (initialize_segmentation_models now df st) as [[|] st1]; exact H.
Qed.

(** C9: in every state the process can reach with the pipeline initialised,
    each record a classification returns has its [cluster_label] among 0, 1,
    2 and 3, for any clustering library whose fit with [n_clusters] gives
    that many centres. *)
Theorem cluster_label_range now_init now req st result st' :
  reachable st ->
  segmentation_initialized st = true ->
  segment_customers now_init now req st = (Records result, st') ->
  Forall (fun rec => cluster_label rec ∈ [0; 1; 2; 3]%Z) result.
Proof.
  intros Hr _ Hseg.
  assert (Hst' : four_centres st').
  { change st' with ((Records result, st').2). rewrite <- Hseg.
    apply reachable_four_centres. now constructor. }
  apply segment_customers_records in Hseg as (filename & df & _ & Hc & _ & _).
  apply classify_records in Hc as (columns & scaled & centres & labels & _ & Hk & Hp & ->).
  specialize (Hst' centres Hk).
  apply predict_labels in Hp as [Hl _]; [|destruct centres; [discriminate|congruence]].
  rewrite Hst' in Hl. apply Forall_lookup. intros i rec Hi.
  rewrite list_lookup_imap in Hi.
  destruct (labels !! i) as [label|] eqn:El; [|discriminate].
  injection Hi as <-. cbn [make_result cluster_label].
  rewrite Forall_lookup in Hl. specialize (Hl i label El). cbn in Hl.
  rewrite !elem_of_cons. lia.
Qed.

End Centres.

(** C2: whenever a classification returns records, a record whose features
    are total_spent 4800, intent_score 0.95, touchpoints_count 18 and
    recency 10 has the category "High Value Engagement", with score 6; the
    pipeline is then initialised. *)
Theorem classify_spec_record now_init now req st result st' i rec :
  segment_customers now_init now req st = (Records result, st') ->
  result !! i = Some rec ->
  Float.is_value (r_total_spent rec) 4800 ->
  Float.is_value (r_intent_score rec) (95 # 100) ->
  Float.is_value (r_touchpoints_count rec) 18 ->
  Float.is_value (r_recency rec) 10 ->
  promotional_segment_category rec = "High Value Engagement"
  /\ promotional_segment_score rec = Some 6%Q
  /\ segmentation_initialized st' = true.
Proof.
  intros Hseg Hi H1 H2 H3 H4.
  apply segment_customers_records in Hseg as (filename & df & _ & Hc & Hinit & _).
  apply classify_records in Hc as (columns & scaled & centres & labels & _ & _ & _ & ->).
  rewrite list_lookup_imap in Hi.
  destruct (labels !! i) as [label|]; [|discriminate].
  injection Hi as <-. cbn [make_result r_total_spent r_intent_score r_touchpoints_count
    r_recency promotional_segment_category promotional_segment_score] in *.
  rewrite (FuzzyFacts.apply_fuzzy_segmentation_spec_values (fuzzy_row columns i)); auto.
Qed.

End Pipeline.

(** The stand-in clustering keeps the contract: as many centres as asked. *)
Lemma scenario_kmeans_fit_centres n_clusters random_state X centres :
  Scenario.kmeans_fit n_clusters random_state X = inr centres ->
  length centres = n_clusters.
Proof.
  unfold Scenario.kmeans_fit. destruct (mapM finite_row X) as [rows|]; [|discriminate].
  destruct (Nat.ltb_spec (length rows) n_clusters) as [?|Hle]; [discriminate|].
  intros H. injection H as <-. rewrite length_take. lia.
Qed.

(** C1 as stated fails: a classification request that finds the pipeline
    uninitialised is served, with one record per row. *)
Lemma uninitialized_request_is_served :
  segmentation_initialized initial_state = false /\
  exists result st',
    Segmentation.segment_customers Scenario.scaler_fit Scenario.kmeans_fit
      Scenario.now Scenario.now (Scenario.upload Scenario.customers) initial_state
    = (Records result, st') /\
    length result = 4%nat /\
    segmentation_initialized st' = true.
Proof.
  split; [reflexivity|]. do 2 eexists. split; [vm_compute; reflexivity|].
  split; reflexivity.
Qed.

(** The start-up state and a batch of four customers: the request
    initialises the pipeline and classifies the batch. *)
Lemma classify_uninitialized_witness :
  Segmentation.segment_customers Scenario.scaler_fit Scenario.kmeans_fit
    Scenario.now Scenario.now (Scenario.upload Scenario.customers) initial_state
  = (classify Scenario.now Scenario.customers Scenario.trained, Scenario.trained)
  /\ segmentation_initialized Scenario.trained = true
  /\ forall result,
       classify Scenario.now Scenario.customers Scenario.trained = Records result ->
       length result = 4%nat.
Proof.
  refine (proj2 (classify_uninitialized Scenario.scaler_fit Scenario.kmeans_fit
                   Scenario.now Scenario.now "customers.csv" Scenario.customers
                   initial_state true Scenario.trained eq_refl eq_refl _) eq_refl).
  vm_compute. reflexivity.
Defined.

(** With a batch the clustering refuses (fewer rows than clusters), the same
    request fails and the pipeline stays uninitialised. *)
Example uninitialized_request_fails :
  exists st',
    Segmentation.segment_customers Scenario.scaler_fit Scenario.kmeans_fit
      Scenario.now Scenario.now (Scenario.upload Scenario.two_columns) initial_state
    = (Error 500 "Failed to initialize segmentation models", st') /\
    segmentation_initialized st' = false.
Proof. eexists. split; [vm_compute; reflexivity|reflexivity]. Qed.

(** The first of the four customers is the record of the spec. *)
Lemma classify_spec_record_witness :
  exists result st' rec,
    Segmentation.segment_customers Scenario.scaler_fit Scenario.kmeans_fit
      Scenario.now Scenario.now (Scenario.upload Scenario.customers) Scenario.trained
    = (Records result, st') /\
    result !! 0%nat = Some rec /\
    promotional_segment_category rec = "High Value Engagement" /\
    promotional_segment_score rec = Some 6%Q /\
    segmentation_initialized st' = true.
Proof.
  do 3 eexists. split; [vm_compute; reflexivity|]. split; [reflexivity|].
  eapply (classify_spec_record Scenario.scaler_fit Scenario.kmeans_fit
            Scenario.now Scenario.now (Scenario.upload Scenario.customers)
            Scenario.trained _ _ 0%nat);
    [vm_compute; reflexivity|reflexivity..].
Defined.

(** C3 as stated fails on a blank cell of a column that is there: the cell
    is still blank after preprocessing. *)
Lemma blank_cell_not_replaced :
  exists columns,
    preprocess Scenario.now Scenario.blank_intent = inr columns /\
    cell (numeric Scenario.blank_intent) "intent_score" 0 = NaN /\
    cell columns "intent_score" 0 = NaN /\
    cell columns "intent_score" 0 <> Fin (1 # 2).
Proof.
  eexists. split; [reflexivity|]. split; [reflexivity|].
  split; [vm_compute; reflexivity|vm_compute; discriminate].
Qed.

(** The batch with the blank cell goes through the fuzzy stage as it is; the
    cluster stage then refuses it, and the request ends in a 500. *)
Example blank_cell_request :
  (Segmentation.segment_customers Scenario.scaler_fit Scenario.kmeans_fit
     Scenario.now Scenario.now (Scenario.upload Scenario.blank_intent) Scenario.trained).1
  = Error 500 "An internal error occurred: ValueError: Input X contains NaN or infinity".
Proof. vm_compute. reflexivity. Qed.

(** A batch without the two columns: every record gets the defaults. *)
Lemma missing_column_defaults_witness :
  exists columns,
    preprocess Scenario.now Scenario.two_columns = inr columns /\
    (forall i, (i < 2)%nat -> cell columns "intent_score" i = Fin (1 # 2)) /\
    (forall i, (i < 2)%nat -> cell columns "touchpoints_count" i = Fin 0).
Proof.
  eexists. split; [reflexivity|].
  pose proof (missing_column_defaults Scenario.now Scenario.two_columns _ eq_refl)
    as (Hi & Ht).
  split; [exact (Hi eq_refl)|exact (Ht eq_refl)].
Defined.

(** A second classification of the four customers: every label is in range. *)
Lemma cluster_label_range_witness :
  exists result st',
    Segmentation.segment_customers Scenario.scaler_fit Scenario.kmeans_fit
      Scenario.now Scenario.now (Scenario.upload Scenario.customers) Scenario.trained
    = (Records result, st') /\
    Forall (fun rec => cluster_label rec ∈ [0; 1; 2; 3]%Z) result.
Proof.
  do 2 eexists. split; [vm_compute; reflexivity|].
  refine (cluster_label_range Scenario.scaler_fit Scenario.kmeans_fit
            scenario_kmeans_fit_centres Scenario.now Scenario.now
            (Scenario.upload Scenario.customers) Scenario.trained _ _ _ eq_refl _).
  - exact (reachable_segment _ _ Scenario.now Scenario.now
             (Scenario.upload Scenario.customers) initial_state (reachable_start _ _)).
  - vm_compute. reflexivity.
Defined.


(** After that failed re-initialisation the flag still says initialised, and
    a classification ends in a 500. *)
Example classify_after_failed_initialize :
  let st := (Segmentation.initialize_segmentation_models Scenario.scaler_fit
               Scenario.kmeans_fit Scenario.now Scenario.two_columns Scenario.trained).2 in
  segmentation_initialized st = true /\
  (Segmentation.segment_customers Scenario.scaler_fit Scenario.kmeans_fit
     Scenario.now Scenario.now (Scenario.upload Scenario.customers) st).1
  = Error 500 "An internal error occurred: NotFittedError".
Proof. split; vm_compute; reflexivity. Qed.

End SegmentationFacts.

(** ** Phone normaliser: the whole function *)

Module PhonePlanFacts.

Import Phone PhonePlan.

Lemma occurs_remove_char c s : occurs c (Py.remove_char c s) = false.
Proof.
  induction s as [|d s IH]; [reflexivity|]. cbn [Py.remove_char].
  destruct (Ascii.eqb c d) eqn:E; [exact IH|]. cbn [occurs]. now rewrite E, IH.
Qed.

Lemma occurs_remove_other c d s :
  occurs c s = false -> occurs c (Py.remove_char d s) = false.
Proof.
  induction s as [|e s IH]; [reflexivity|]. cbn [occurs Py.remove_char]. intros H.
  apply orb_false_iff in H as [He Hs].
  destruct (Ascii.eqb d e); [now apply IH|]. cbn [occurs]. now rewrite He, IH.
Qed.

(** Cleaning: after the chain of [replace] calls the number has no blank,
    dash, parenthesis or dot left, whatever the input. *)
Theorem clean_no_punctuation (raw : string) (c : ascii) :
  c ∈ punctuation -> occurs c (clean raw) = false.
Proof.
  unfold punctuation, clean. rewrite !elem_of_cons, elem_of_nil.
  intros [->|[->|[->|[->|[->|[]]]]]];
    repeat first [ apply occurs_remove_char | apply occurs_remove_other ].
Qed.

Lemma clean_no_punctuation_witness :
  occurs "-" (clean " (022) 555-01.23 ") = false.
Proof.
  apply clean_no_punctuation. apply list_elem_of_further, list_elem_of_here.
Defined.

Section Normalizer.

Variable PhoneNumber : Type.
Variable parse : string -> option string -> option PhoneNumber.
Variable is_valid_number : PhoneNumber -> bool.
Variable format_e164 : PhoneNumber -> string.

Local Abbreviation attempt := (attempt PhoneNumber parse is_valid_number format_e164).
Local Abbreviation accept := (accept PhoneNumber parse is_valid_number format_e164).
Local Abbreviation try_each := (try_each PhoneNumber parse is_valid_number format_e164).
Local Abbreviation first_valid := (first_valid PhoneNumber parse is_valid_number format_e164).
Local Abbreviation until_valid := (until_valid PhoneNumber parse is_valid_number format_e164).
Local Abbreviation format_phone_number :=
  (format_phone_number PhoneNumber parse is_valid_number format_e164).
Local Abbreviation format_phone_number_run :=
  (format_phone_number_run PhoneNumber parse is_valid_number format_e164).
Local Abbreviation parse_calls := (parse_calls PhoneNumber parse is_valid_number format_e164).

(** Two loops in sequence are one loop over the two lists. *)
Lemma try_each_app l1 l2 :
  or_else (try_each l1) (try_each l2) = try_each (l1 ++ l2)%list.
Proof.
  induction l1 as [|[number region] l1 IH]; cbn [app Phone.try_each].
  - unfold or_else, skip. cbn [fst snd app]. now destruct (try_each l2).
  - rewrite <- IH. unfold or_else.
    destruct (attempt number region) as [[r|] calls]; cbn [fst snd]; [reflexivity|].
    destruct (try_each l1) as [[r1|] calls1]; cbn [fst snd]; [reflexivity|].
    now rewrite app_assoc.
Qed.

Lemma attempt_try_each number region : attempt number region = try_each [(number, region)].
Proof.
  cbn [Phone.try_each]. unfold or_else, skip.
  destruct (attempt number region) as [[r|] calls] eqn:E; cbn [fst snd]; [reflexivity|].
  now rewrite app_nil_r.
Qed.

(** On a number that is there, the function is one loop over the plan. *)
Lemma run_plan raw region :
  Py.truthy raw = true ->
  format_phone_number_run (Some raw) region = try_each (plan (clean raw) region).
Proof.
  intros Ht. unfold Phone.format_phone_number_run, plan, prefixed. rewrite Ht.
  cbn [negb]. cbv zeta.
  destruct (Py.startswith "+" (clean raw)), (ten_digits (clean raw)),
    (starts_6_to_9 (clean raw));
    change skip with (try_each []); rewrite !attempt_try_each, <- !try_each_app;
    reflexivity.
Qed.

Lemma first_valid_elem l r :
  first_valid l = Some r ->
  exists number region parsed,
    (number, region) ∈ until_valid l /\
    parse number region = Some parsed /\
    is_valid_number parsed = true /\
    r = format_e164 parsed.
Proof.
  induction l as [|[number region] l IH]; [discriminate|].
  cbn [Phone.first_valid Phone.until_valid].
  destruct (accept number region) as [r'|] eqn:E.
  - intros H. injection H as ->. unfold Phone.accept, Phone.attempt in E. cbn [fst] in E.
    destruct (parse number region) as [parsed|] eqn:Hp; [|discriminate].
    destruct (is_valid_number parsed) eqn:Hv; [|discriminate].
    injection E as <-. exists number, region, parsed. repeat split; auto. left.
  - intros H. destruct (IH H) as (n & rg & parsed & Hin & Hrest).
    exists n, rg, parsed. split; [now right|exact Hrest].
Qed.

Lemma until_valid_length l : (length (until_valid l) <= length l)%nat.
Proof.
  induction l as [|[number region] l IH]; [reflexivity|].
  cbn [Phone.until_valid]. destruct (accept number region); cbn [length]; lia.
Qed.

(** A number that starts with [+] is not made of ten digits. *)
Lemma plus_not_ten_digits phone :
  Py.startswith "+" phone = true -> ten_digits phone = false.
Proof.
  intros Hp. unfold ten_digits. destruct (Py.isdigit phone) eqn:Hd; [|apply andb_false_r].
  assert (Ha : Py.all_digits phone = true) by (destruct phone; [discriminate Hd|exact Hd]).
  rewrite (PhoneFacts.digits_no_plus phone Ha) in Hp. discriminate Hp.
Qed.

Lemma plan_length phone region : (length (plan phone region) <= 18)%nat.
Proof.
  unfold plan, prefixed, country_codes, fallback_regions.
  destruct (Py.startswith "+" phone) eqn:Hp.
  - rewrite (plus_not_ten_digits phone Hp). cbn [map app length]. lia.
  - destruct (ten_digits phone), (starts_6_to_9 phone); cbn [map app length]; lia.
Qed.

(** [format_phone_number] as a whole: nothing and no parse for a missing or
    empty phone; otherwise the E.164 form of the first call of the plan that
    the library accepts, after parsing the calls of the plan up to that one
    and no other. *)
Theorem format_phone_number_first_valid (phone : option string) (region : string) :
  format_phone_number_run phone region =
    match phone with
    | Some raw =>
        if Py.truthy raw
        then (first_valid (plan (clean raw) region), until_valid (plan (clean raw) region))
        else (None, [])
    | None => (None, [])
    end.
Proof.
  destruct phone as [raw|]; [|reflexivity].
  destruct (Py.truthy raw) eqn:Ht.
  - rewrite (run_plan raw region Ht). apply PhoneFacts.try_each_spec.
  - unfold Phone.format_phone_number_run. now rewrite Ht.
Qed.

(** What is returned is always the E.164 form of a number that was parsed
    in this run and that the library holds valid. *)
Theorem format_phone_number_validated (phone : option string) (region r : string) :
  format_phone_number phone region = Some r ->
  exists number reg parsed,
    (number, reg) ∈ parse_calls phone region /\
    parse number reg = Some parsed /\
    is_valid_number parsed = true /\
    r = format_e164 parsed.
Proof.
  unfold Phone.format_phone_number, Phone.parse_calls.
  destruct phone as [raw|]; [|discriminate].
  destruct (Py.truthy raw) eqn:Ht.
  - rewrite (run_plan raw region Ht), PhoneFacts.try_each_spec. cbn [fst snd].
    apply first_valid_elem.
  - unfold Phone.format_phone_number_run. rewrite Ht. discriminate.
Qed.

(** A run parses at most eighteen times, and at most twelve times when the
    cleaned number is not made of ten digits. *)
Theorem parse_calls_bounded (phone : option string) (region : string) :
  (length (parse_calls phone region) <= 18)%nat /\
  (forall raw, phone = Some raw -> ten_digits (clean raw) = false ->
     (length (parse_calls phone region) <= 12)%nat).
Proof.
  unfold Phone.parse_calls. split.
  - destruct phone as [raw|]; [|cbn; lia].
    destruct (Py.truthy raw) eqn:Ht.
    + rewrite (run_plan raw region Ht), PhoneFacts.try_each_spec. cbn [snd].
      pose proof (until_valid_length (plan (clean raw) region)).
      pose proof (plan_length (clean raw) region). lia.
    + unfold Phone.format_phone_number_run. rewrite Ht. cbn. lia.
  - intros raw -> H10. destruct (Py.truthy raw) eqn:Ht.
    + rewrite (run_plan raw region Ht), PhoneFacts.try_each_spec. cbn [snd].
      pose proof (until_valid_length (plan (clean raw) region)) as Hu.
      unfold plan in Hu. rewrite H10 in Hu. unfold plan. rewrite H10.
      revert Hu. unfold fallback_regions.
      destruct (Py.startswith "+" (clean raw)); cbn [map app length]; lia.
    + unfold Phone.format_phone_number_run. rewrite Ht. cbn. lia.
Qed.

(** A number written in international form that the library accepts costs
    one parse, with no region. *)
Theorem international_number_single_parse (raw region r : string) :
  Py.startswith "+" (clean raw) = true ->
  accept (clean raw) None = Some r ->
  format_phone_number_run (Some raw) region = (Some r, [(clean raw, None)]).
Proof.
  intros Hplus Hacc.
  assert (Ht : Py.truthy raw = true).
  { destruct raw; [discriminate Hplus|reflexivity]. }
  rewrite (run_plan raw region Ht), PhoneFacts.try_each_spec.
  unfold plan. rewrite Hplus. cbn [app Phone.first_valid Phone.until_valid].
  now rewrite Hacc.
Qed.

End Normalizer.

Lemma format_phone_number_validated_witness :
  exists number reg parsed,
    (number, reg) ∈ Phone.parse_calls string Scenario.parse Scenario.is_valid_number
                      Scenario.format_e164 (Some "98765 43210") "US" /\
    Scenario.parse number reg = Some parsed /\
    Scenario.is_valid_number parsed = true /\
    "+919876543210" = Scenario.format_e164 parsed.
Proof.
  exact (format_phone_number_validated string Scenario.parse Scenario.is_valid_number
           Scenario.format_e164 (Some "98765 43210") "US" "+919876543210" eq_refl).
Defined.

Lemma international_number_witness :
  Phone.format_phone_number_run string Scenario.parse Scenario.is_valid_number
    Scenario.format_e164 (Some "+91 98765-43210") "US"
  = (Some "+919876543210", [("+919876543210", None)]).
Proof.
  exact (international_number_single_parse string Scenario.parse Scenario.is_valid_number
           Scenario.format_e164 "+91 98765-43210" "US" "+919876543210" eq_refl eq_refl).
Defined.

(** Cleaning once may leave a blank at an end: the strip comes first. *)
Example clean_not_idempotent :
  clean "- 1" = "1" /\ clean (String "-" (String (ascii_of_nat 9) "1"))
                        = String (ascii_of_nat 9) "1".
Proof. split; reflexivity. Qed.

End PhonePlanFacts.

(** ** WhatsApp dispatch: the entries and the guards *)

Module DispatchMore.

Import Dispatch.

Section Endpoint.

Variable PhoneNumber : Type.
Variable parse : string -> option string -> option PhoneNumber.
Variable is_valid_number : PhoneNumber -> bool.
Variable format_e164 : PhoneNumber -> string.
Variable twilio_client : option client.
Variable TWILIO_WHATSAPP_FROM : option string.

Local Abbreviation process := (process PhoneNumber parse is_valid_number format_e164).
Local Abbreviation loop := (loop PhoneNumber parse is_valid_number format_e164).
Local Abbreviation send_whatsapp :=
  (send_whatsapp PhoneNumber parse is_valid_number format_e164 twilio_client
     TWILIO_WHATSAPP_FROM).
Local Abbreviation format_phone_number :=
  (Phone.format_phone_number PhoneNumber parse is_valid_number format_e164).

(** The keys of one entry, by outcome. *)
Lemma process_shape create sender idx (r : recipient) :
  let e := process create sender idx r in
  e_phone e = get r "phone" /\
  e_customerName e = get_default r "customerName" "Customer" /\
  (e_success e = true ->
     (exists formatted, e_formattedPhone e = Some formatted
                        /\ format_phone_number (get r "phone") "US" = Some formatted) /\
     is_Some (e_messageId e) /\ is_Some (e_status e) /\
     e_error e = None /\ e_errorType e = None) /\
  (e_success e = false ->
     is_Some (e_error e) /\ e_formattedPhone e = None /\
     e_messageId e = None /\ e_status e = None).
Proof.
  unfold Dispatch.process.
  destruct (get r "phone") as [ph|]; [|cbn; intuition (eauto || discriminate)].
  destruct (get r "message") as [msg|]; [|cbn; intuition (eauto || discriminate)].
  destruct (Py.truthy ph && Py.truthy msg); [|cbn; intuition (eauto || discriminate)].
  destruct (format_phone_number (Some ph) "US") as [formatted|] eqn:Ef;
    [|cbn; intuition (eauto || discriminate)].
  destruct (Py.truthy formatted); [|cbn; intuition (eauto || discriminate)].
  destruct (create idx msg sender ("whatsapp:" ++ formatted)) as [e|m];
    cbn; intuition (eauto || discriminate).
Qed.

(** In a report every element of the batch was an object, and the entry at
    its position echoes its phone and its display name ("Customer" when the
    key is absent).  A success entry carries the normalised phone, the
    message id and the status, and no error; a failure entry carries an error
    text and none of those three. *)
Theorem report_entries_shape (items : list item) total sent failed results :
  send_whatsapp (Data (Items items)) = Report total sent failed results ->
  forall i it, items !! i = Some it ->
    exists r e,
      it = Object r /\
      results !! i = Some e /\
      e_phone e = get r "phone" /\
      e_customerName e = get_default r "customerName" "Customer" /\
      (e_success e = true ->
         (exists formatted, e_formattedPhone e = Some formatted
                            /\ format_phone_number (get r "phone") "US" = Some formatted) /\
         is_Some (e_messageId e) /\ is_Some (e_status e) /\
         e_error e = None /\ e_errorType e = None) /\
      (e_success e = false ->
         is_Some (e_error e) /\ e_formattedPhone e = None /\
         e_messageId e = None /\ e_status e = None).
Proof.
  unfold Dispatch.send_whatsapp. destruct items as [|it0 rest] eqn:Hitems; [discriminate|].
  rewrite <- Hitems. clear Hitems it0 rest.
  destruct twilio_client as [create|]; [|discriminate].
  destruct (Py.truthy_opt TWILIO_WHATSAPP_FROM); [|discriminate].
  destruct (loop _ _ _ items []) as [out [type_name|]] eqn:Hloop; [discriminate|].
  intros H i it Hi. injection H as _ _ _ <-.
  destruct (DispatchFacts.loop_completes _ _ _ _ _ _ _ _ _ _ Hloop)
    as (recipients & -> & ->).
  cbn [app].
  rewrite list_lookup_fmap in Hi.
  destruct (recipients !! i) as [r|] eqn:Hr; [|discriminate Hi]. injection Hi as <-.
  exists r, (process create (default EmptyString TWILIO_WHATSAPP_FROM) i r).
  split; [reflexivity|]. split.
  - rewrite list_lookup_imap, Hr. reflexivity.
  - apply process_shape.
Qed.

(** The provider is not consulted for a recipient without a phone, without
    a message, or whose phone the normaliser rejects: the entry is the same
    whatever the provider and the sender are. *)
Theorem rejected_recipient_not_sent create create' sender sender' idx (r : recipient) :
  Py.truthy_opt (get r "phone") = false
  \/ Py.truthy_opt (get r "message") = false
  \/ format_phone_number (get r "phone") "US" = None ->
  process create sender idx r = process create' sender' idx r
  /\ e_success (process create sender idx r) = false.
Proof.
  unfold Dispatch.process.
  destruct (get r "phone") as [ph|]; [|auto].
  destruct (get r "message") as [msg|]; [|auto].
  cbn [Py.truthy_opt].
  destruct (Py.truthy ph) eqn:Hp; destruct (Py.truthy msg) eqn:Hm; cbn [andb]; auto.
  intros [H|[H|H]]; try discriminate. rewrite H. auto.
Qed.

(** A report is only given for a non-empty list of recipients, all of them
    objects, with the provider and the sender configured; its counts lie
    between 0 and the number of recipients. *)
Theorem report_only_when_configured data total sent failed results :
  send_whatsapp data = Report total sent failed results ->
  exists recipients : list recipient,
    data = Data (Items (map Object recipients)) /\ recipients <> [] /\
    is_Some twilio_client /\ Py.truthy_opt TWILIO_WHATSAPP_FROM = true /\
    total = Z.of_nat (length recipients) /\
    (0 <= sent <= total)%Z /\ (0 <= failed <= total)%Z.
Proof.
  unfold Dispatch.send_whatsapp. destruct data as [|type_name|[items|type_name]];
    try discriminate.
  destruct items as [|it0 rest] eqn:Hitems; [discriminate|]. rewrite <- Hitems.
  destruct twilio_client as [create|]; [|discriminate].
  destruct (Py.truthy_opt TWILIO_WHATSAPP_FROM); [|discriminate].
  destruct (loop _ _ _ items []) as [out [type_name|]] eqn:Hloop; [discriminate|].
  intros H. injection H as <- <- <- <-.
  destruct (DispatchFacts.loop_completes _ _ _ _ _ _ _ _ _ _ Hloop)
    as (recipients & Hobj & ->).
  exists recipients. cbn [app].
  set (results := imap _ recipients).
  pose proof (DispatchFacts.filter_success_split results) as Hs.
  assert (Hlen : length results = length recipients) by apply length_imap.
  assert (Hl : length items = length recipients) by (rewrite Hobj; apply length_map).
  assert (Hne : recipients <> []).
  { intros ->. rewrite Hitems in Hobj. discriminate Hobj. }
  rewrite Hl. unfold success_count.
  repeat split; try (now rewrite <- Hobj); eauto; lia.
Qed.

End Endpoint.

Lemma report_entries_shape_witness :
  exists e,
    [Dispatch.process string Scenario.parse Scenario.is_valid_number Scenario.format_e164
       Scenario.create "whatsapp:+14155238886" 0 (Scenario.recipient "9876543210" "Hello")]
      !! 0%nat = Some e /\
    e_phone e = Some "9876543210" /\
    e_customerName e = Some "Customer" /\
    e_success e = true.
Proof.
  destruct (report_entries_shape string Scenario.parse Scenario.is_valid_number
              Scenario.format_e164 (Some Scenario.create) (Some "whatsapp:+14155238886")
              [Object (Scenario.recipient "9876543210" "Hello")] 1 1 0 _ eq_refl 0%nat _
              eq_refl)
    as (r & e & Hr & He & Hp & Hn & _).
  injection Hr as <-.
  exists e. split; [exact He|]. split; [exact Hp|]. split; [exact Hn|].
  vm_compute in He. injection He as <-. reflexivity.
Defined.

Lemma rejected_recipient_witness :
  Dispatch.process string Scenario.parse Scenario.is_valid_number Scenario.format_e164
    Scenario.create "whatsapp:+14155238886" 1 (Scenario.recipient "12345" "Hello")
  = Dispatch.process string Scenario.parse Scenario.is_valid_number Scenario.format_e164
      (fun _ _ _ _ => inl {| exc_str := "down"; exc_type := "TwilioRestException";
                             exc_msg := None; exc_code := None |})
      "whatsapp:+10000000000" 1 (Scenario.recipient "12345" "Hello")
  /\ e_success
       (Dispatch.process string Scenario.parse Scenario.is_valid_number
          Scenario.format_e164 Scenario.create "whatsapp:+14155238886" 1
          (Scenario.recipient "12345" "Hello")) = false.
Proof.
  apply (rejected_recipient_not_sent string Scenario.parse Scenario.is_valid_number
           Scenario.format_e164).
  right. right. reflexivity.
Defined.

Lemma report_only_when_configured_witness :
  exists recipients : list recipient,
    Data (Items (map Object Scenario.batch)) = Data (Items (map Object recipients)) /\
    recipients <> [] /\
    is_Some (Some Scenario.create) /\
    Py.truthy_opt (Some "whatsapp:+14155238886") = true /\
    3%Z = Z.of_nat (length recipients) /\
    (0 <= 2 <= 3)%Z /\ (0 <= 1 <= 3)%Z.
Proof.
  refine (report_only_when_configured string Scenario.parse Scenario.is_valid_number
            Scenario.format_e164 (Some Scenario.create) (Some "whatsapp:+14155238886")
            (Data (Items (map Object Scenario.batch))) 3 2 1 _ _).
  vm_compute. reflexivity.
Defined.

End DispatchMore.

(** ** The WhatsApp helper and the [/send-whatsapp] route *)

Module ClientFacts.

Import WhatsappClient.

Lemma prefix_append p s : String.prefix p (p ++ s) = true.
Proof.
  induction p as [|c p IH]; [now destruct s|].
  change (String.prefix (String c p) (String c p ++ s))
    with (if ascii_dec c c then String.prefix p (p ++ s) else false).
  destruct (ascii_dec c c); [exact IH|congruence].
Qed.

(** Prefixing: an empty number stays empty, any other number starts with
    [whatsapp:] afterwards, and prefixing twice is prefixing once. *)
Theorem ensure_whatsapp_prefix_idempotent (number : string) :
  ensure_whatsapp_prefix (ensure_whatsapp_prefix number) = ensure_whatsapp_prefix number
  /\ (number <> EmptyString ->
      Py.startswith "whatsapp:" (ensure_whatsapp_prefix number) = true)
  /\ ensure_whatsapp_prefix EmptyString = EmptyString.
Proof.
  split; [|split; [|reflexivity]].
  - unfold ensure_whatsapp_prefix. destruct number as [|c number]; [reflexivity|].
    cbn [Py.truthy negb].
    destruct (Py.startswith "whatsapp:" (String c number)) eqn:E.
    + cbn [Py.truthy negb]. now rewrite E.
    + change (Py.truthy ("whatsapp:" ++ String c number)) with true. cbn [negb].
      unfold Py.startswith. now rewrite prefix_append.
  - intros Hne. unfold ensure_whatsapp_prefix. destruct number as [|c number]; [congruence|].
    cbn [Py.truthy negb].
    destruct (Py.startswith "whatsapp:" (String c number)) eqn:E; [exact E|].
    apply prefix_append.
Qed.

(** The loop adds one entry per user, to one of the two lists, in order. *)
Lemma dispatch_spec create from_number body users : forall idx acc,
  exists s f,
    sent (dispatch create from_number body idx users acc) = (sent acc ++ s)%list /\
    failed (dispatch create from_number body idx users acc) = (failed acc ++ f)%list /\
    (length s + length f = length users)%nat /\
    (map s_to s ++ map f_to f)%list ≡ₚ map ensure_whatsapp_prefix users /\
    sublist (map s_to s) (map ensure_whatsapp_prefix users) /\
    sublist (map f_to f) (map ensure_whatsapp_prefix users).
Proof.
  induction users as [|user rest IH]; intros idx acc; cbn [dispatch].
  - exists [], []. rewrite !app_nil_r. repeat split; constructor.
  - destruct (create idx body from_number (ensure_whatsapp_prefix user)) as [e|msg].
    + destruct (IH (S idx) {| sent := sent acc;
                              failed := failed acc ++ [{| f_to := ensure_whatsapp_prefix user;
                                                          f_error := Dispatch.exc_str e |}] |})
        as (s & f & Hs & Hf & Hlen & Hperm & Hsub1 & Hsub2).
      cbn [sent failed] in Hs, Hf.
      exists s, ({| f_to := ensure_whatsapp_prefix user; f_error := Dispatch.exc_str e |} :: f).
      rewrite Hs, Hf, <- app_assoc. cbn [app map length s_to f_to].
      repeat split; [lia| | |].
      * rewrite <- Hperm. symmetry. apply Permutation_middle.
      * now apply sublist_cons.
      * now apply sublist_skip.
    + destruct (IH (S idx) {| sent := sent acc ++ [{| s_to := ensure_whatsapp_prefix user;
                                                      s_sid := Some (Dispatch.sid msg) |}];
                              failed := failed acc |})
        as (s & f & Hs & Hf & Hlen & Hperm & Hsub1 & Hsub2).
      cbn [sent failed] in Hs, Hf.
      exists ({| s_to := ensure_whatsapp_prefix user; s_sid := Some (Dispatch.sid msg) |} :: s), f.
      rewrite Hs, Hf, <- app_assoc. cbn [app map length s_to f_to].
      repeat split; [lia| | |].
      * now rewrite Hperm.
      * now apply sublist_skip.
      * now apply sublist_cons.
Qed.

Section Helper.

Variable TWILIO_ACCOUNT_SID : option string.
Variable TWILIO_AUTH_TOKEN : option string.
Variable TWILIO_WHATSAPP_FROM : option string.
Variable Client : option (string -> string -> Dispatch.client).

Local Abbreviation send_whatsapp :=
  (send_whatsapp TWILIO_ACCOUNT_SID TWILIO_AUTH_TOKEN TWILIO_WHATSAPP_FROM Client).

(** When the helper returns, both credentials are set and the twilio
    package is there; every user is in exactly one of the two lists under its
    prefixed number, and each list keeps the order of the users. *)
Theorem helper_partitions_users users body from_number res :
  send_whatsapp users body from_number = inr res ->
  Py.truthy_opt TWILIO_ACCOUNT_SID = true /\
  Py.truthy_opt TWILIO_AUTH_TOKEN = true /\
  is_Some Client /\
  (length (sent res) + length (failed res) = length users)%nat /\
  (map s_to (sent res) ++ map f_to (failed res))%list
    ≡ₚ map ensure_whatsapp_prefix users /\
  sublist (map s_to (sent res)) (map ensure_whatsapp_prefix users) /\
  sublist (map f_to (failed res)) (map ensure_whatsapp_prefix users).
Proof.
  unfold WhatsappClient.send_whatsapp.
  destruct TWILIO_ACCOUNT_SID as [account_sid|]; [|discriminate].
  destruct TWILIO_AUTH_TOKEN as [auth_token|]; [|discriminate].
  destruct (Py.truthy account_sid) eqn:Ha; [|discriminate].
  destruct (Py.truthy auth_token) eqn:Ht; [|discriminate]. cbn [andb].
  destruct Client as [new_client|]; [|discriminate].
  intros H. injection H as <-.
  match goal with |- context [dispatch ?c ?fr ?b ?i ?u ?a] =>
    destruct (dispatch_spec c fr b u i a) as (s & f & Hs & Hf & Hlen & Hperm & H1 & H2) end.
  cbn [sent failed app] in Hs, Hf. rewrite Hs, Hf. cbn [Py.truthy_opt]. auto 10.
Qed.

End Helper.

Lemma helper_partitions_users_witness :
  exists res,
    WhatsappClient.send_whatsapp (Some "AC0123") (Some "token") None
      (Some (fun _ _ => Scenario.create)) ["+918850097691"; "whatsapp:+919820386915"]
      "Hello from Python test" None = inr res /\
    map s_to (sent res) = ["whatsapp:+918850097691"; "whatsapp:+919820386915"] /\
    (length (sent res) + length (failed res) = 2)%nat.
Proof.
  eexists. split; [reflexivity|]. split; [reflexivity|].
  exact (proj1 (proj2 (proj2 (proj2
    (helper_partitions_users (Some "AC0123") (Some "token") None
       (Some (fun _ _ => Scenario.create)) ["+918850097691"; "whatsapp:+919820386915"]
       "Hello from Python test" None _ eq_refl))))).
Defined.

Import AppModule.


Section Route.

Variable TWILIO_ACCOUNT_SID : option string.
Variable TWILIO_AUTH_TOKEN : option string.
Variable TWILIO_WHATSAPP_FROM : option string.
Variable Client : option (string -> string -> Dispatch.client).

Local Abbreviation send_whatsapp_route :=
  (send_whatsapp_route TWILIO_ACCOUNT_SID TWILIO_AUTH_TOKEN TWILIO_WHATSAPP_FROM Client).


End Route.

(** Had the helper kept its name, the same request would be sent. *)
Example route_with_helper_bound :
  exists results,
    AppModule.send_whatsapp_route (Some "AC0123") (Some "token") None
      (Some (fun _ _ => Scenario.create)) {["send_whatsapp" := VHelper]}
      (Some {| users := Some ["+918850097691"]; to := None; message := Some "Hello";
               body_text := None; from_ := None |})
    = Sent results.
Proof. eexists. reflexivity. Qed.

End ClientFacts.

(** ** Statistics collector: requests, pages and rows *)

Module CollectorFacts.

Import RepoStats RepoCollector.

Section Collector.

Variable session_get : nat -> string -> list (string * string) -> string + Response.
Variable query_first : string -> string -> option string.
Variable int_of_str : string -> option Z.
Variable has_content : Response -> bool.
Variable total_count : Response -> string + Z.
Variable repo_of_item : string -> Repo.

Local Abbreviation get := (get session_get int_of_str).
Local Abbreviation extend := (extend has_content).
Local Abbreviation follow := (follow session_get int_of_str has_content).
Local Abbreviation paginate := (paginate session_get int_of_str has_content).
Local Abbreviation count_prs_merged := (count_prs_merged session_get int_of_str total_count).
Local Abbreviation count_issues := (count_issues session_get int_of_str total_count).
Local Abbreviation count_collaborators :=
  (count_collaborators session_get int_of_str has_content).
Local Abbreviation estimate_commit_count :=
  (estimate_commit_count session_get query_first int_of_str).
Local Abbreviation repo_stats :=
  (repo_stats session_get query_first int_of_str has_content total_count).
Local Abbreviation collect :=
  (collect session_get query_first int_of_str has_content total_count).

(** What [get] returns is the answer to the last request it made; the
    answers before it were 202 or 403. *)
Lemma get_trace fuel : forall n url params resp n1,
  get fuel n url params = (Returned resp, n1) ->
  (n < n1)%nat /\
  session_get (n1 - 1) url params = inr resp /\
  (forall k, (n <= k < n1 - 1)%nat ->
     exists r, session_get k url params = inr r
               /\ (status_code r = 202 \/ status_code r = 403)%Z).
Proof.
  induction fuel as [|fuel IH]; intros n url params resp n1 H; [discriminate H|].
  cbn [RepoStats.get] in H.
  destruct (session_get n url params) as [e|r] eqn:Hs; [discriminate H|].
  assert (Hretry : (status_code r = 202 \/ status_code r = 403)%Z ->
            get fuel (S n) url params = (Returned resp, n1) ->
            (n < n1)%nat /\ session_get (n1 - 1) url params = inr resp /\
            (forall k, (n <= k < n1 - 1)%nat ->
               exists r, session_get k url params = inr r
                         /\ (status_code r = 202 \/ status_code r = 403)%Z)).
  { intros Hst Hg. destruct (IH _ _ _ _ _ Hg) as (Hlt & Hlast & Hbefore).
    split; [lia|]. split; [exact Hlast|]. intros k Hk.
    destruct (decide (k = n)) as [->|Hne]; [eauto|]. apply Hbefore. lia. }
  destruct (Z.eqb_spec (status_code r) 202) as [E|E]; [now apply Hretry; auto|].
  destruct (Z.eqb_spec (status_code r) 403) as [E3|E3]; cbn [andb] in H.
  - destruct (bool_decide (headers r !! "x-ratelimit-remaining" = Some "0")).
    + destruct (headers r !! "x-ratelimit-reset") as [reset|]; [|now apply Hretry; auto].
      destruct (int_of_str reset); [now apply Hretry; auto|discriminate H].
    + destruct (is_http_error (status_code r)); [discriminate H|].
      injection H as <- <-. replace (S n - 1)%nat with n by lia.
      split; [lia|]. split; [exact Hs|]. intros k Hk. lia.
  - destruct (is_http_error (status_code r)); [discriminate H|].
    injection H as <- <-. replace (S n - 1)%nat with n by lia.
    split; [lia|]. split; [exact Hs|]. intros k Hk. lia.
Qed.

(** [get] answers with the last response it fetched, after at least one
    request; that response is neither a 202 nor an HTTP error, and every
    response fetched before it was a 202 or a 403. *)
Theorem get_returns_last_response fuel n url params resp n1 :
  get fuel n url params = (Returned resp, n1) ->
  (n < n1)%nat /\
  session_get (n1 - 1) url params = inr resp /\
  status_code resp <> 202%Z /\
  is_http_error (status_code resp) = false /\
  (forall k, (n <= k < n1 - 1)%nat ->
     exists r, session_get k url params = inr r
               /\ (status_code r = 202 \/ status_code r = 403)%Z).
Proof.
  intros H. destruct (get_trace fuel n url params resp n1 H) as (Hlt & Hlast & Hbefore).
  destruct (RepoFacts.get_returned_status session_get int_of_str fuel n url params resp n1 H)
    as [H202 Herr].
  auto.
Qed.

Lemma extend_prefix items resp items' :
  extend items resp = Some items' -> exists page, items' = (items ++ page)%list.
Proof.
  unfold RepoCollector.extend. destruct (has_content resp).
  - destruct (json resp) as [page|]; [|discriminate]. intros H. injection H as <-. eauto.
  - intros H. injection H as <-. exists []. now rewrite app_nil_r.
Qed.

Lemma follow_prefix fuel : forall n resp items out n2,
  follow fuel n resp items = (Returned out, n2) ->
  (n <= n2)%nat /\ exists more, out = (items ++ more)%list.
Proof.
  induction fuel as [|fuel IH]; intros n resp items out n2 H; [discriminate H|].
  cbn [RepoCollector.follow] in H.
  assert (Hstop : (Returned items, n) = (Returned out, n2) ->
            (n <= n2)%nat /\ exists more, out = (items ++ more)%list).
  { intros E. injection E as <- <-. split; [lia|]. exists []. now rewrite app_nil_r. }
  destruct (headers resp !! "link") as [link|]; [|now apply Hstop].
  destruct (next_link link) as [url|]; [|now apply Hstop].
  destruct (negb (Py.truthy url)); [now apply Hstop|].
  destruct (get (S fuel) n url []) as [[next| |] n1] eqn:Hg; try discriminate H.
  destruct (extend items next) as [items'|] eqn:He; [|discriminate H].
  apply IH in H as (Hle & more & ->).
  apply get_trace in Hg as (Hlt & _). apply extend_prefix in He as (page & ->).
  split; [lia|]. exists (page ++ more)%list. now rewrite app_assoc.
Qed.

(** [paginate]: what is returned starts with the items of the first page, and
    the pages that follow are only asked for after it. *)
Theorem paginate_first_page fuel n url params resp n1 page out n2 :
  get fuel n url params = (Returned resp, n1) ->
  extend [] resp = Some page ->
  paginate fuel n url params = (Returned out, n2) ->
  (n1 <= n2)%nat /\ exists more, out = (page ++ more)%list.
Proof.
  intros Hg He. unfold RepoCollector.paginate. rewrite Hg, He. intros Hf.
  destruct (follow_prefix _ _ _ _ _ _ Hf) as (Hle & more & ->). eauto.
Qed.

(** [paginate] on a first answer without a link header, or whose link header
    has no part marked [rel="next"]: the items of that answer are returned and
    no further request is made. *)
Theorem paginate_single_page fuel n url params resp n1 page :
  get (S fuel) n url params = (Returned resp, n1) ->
  extend [] resp = Some page ->
  headers resp !! "link" ≫= next_link = None ->
  paginate (S fuel) n url params = (Returned page, n1).
Proof.
  intros Hg He Hnone. unfold RepoCollector.paginate. rewrite Hg, He.
  cbn [RepoCollector.follow].
  destruct (headers resp !! "link") as [link|]; cbn [mbind option_bind] in Hnone;
    [now rewrite Hnone|reflexivity].
Qed.

(** A listing of collaborators that is refused (a 4xx or 5xx answer that
    is not a rate limit) counts as unknown: [None], after that one request. *)
Theorem count_collaborators_refused fuel n owner repo resp :
  session_get n (GITHUB_API ++ "/repos/" ++ owner ++ "/" ++ repo ++ "/collaborators")
    [("per_page", "100")] = inr resp ->
  is_http_error (status_code resp) = true ->
  (status_code resp =? 403)%Z
    && bool_decide (headers resp !! "x-ratelimit-remaining" = Some "0") = false ->
  count_collaborators (S fuel) n owner repo = (Returned None, S n).
Proof.
  intros Hs Herr Hrate.
  unfold RepoCollector.count_collaborators, RepoCollector.paginate.
  cbn [RepoStats.get]. rewrite Hs.
  destruct (Z.eqb_spec (status_code resp) 202) as [E|_].
  { rewrite E in Herr. discriminate Herr. }
  rewrite Hrate, Herr. reflexivity.
Qed.

(** An exception of the client other than [HTTPError], raised by the listing
    of collaborators, is not caught by [count_collaborators]. *)
Theorem count_collaborators_propagates fuel n owner repo e :
  session_get n (GITHUB_API ++ "/repos/" ++ owner ++ "/" ++ repo ++ "/collaborators")
    [("per_page", "100")] = inl e ->
  e <> "HTTPError" ->
  count_collaborators (S fuel) n owner repo = (Raised e, S n).
Proof.
  intros Hs Hne.
  unfold RepoCollector.count_collaborators, RepoCollector.paginate.
  cbn [RepoStats.get]. rewrite Hs.
  destruct (String.eqb_spec e "HTTPError"); [contradiction|reflexivity].
Qed.

(** The row of a repository echoes its listing, and each of the three counts
    under [try] is the value obtained, or [None] when the call raised. *)
Lemma repo_stats_row fuel n owner r rec n4 :
  repo_stats fuel n owner r = (Returned rec, n4) ->
  st_repo_name rec = name r /\
  st_full_name rec = full_name r /\
  st_visibility rec = (if private r then "private" else "public") /\
  st_default_branch rec
  = (if Py.truthy_opt (default_branch r) then default "main" (default_branch r) else "main") /\
  st_commits_count rec
  = match (estimate_commit_count fuel n owner (str_opt (name r)) (st_default_branch rec)).1
    with Returned c => Some c | _ => None end.
Proof.
  unfold RepoCollector.repo_stats.
  set (branch := if Py.truthy_opt (default_branch r) then _ else _).
  destruct (estimate_commit_count fuel n owner (str_opt (name r)) branch)
    as [commits n1] eqn:He.
  destruct commits as [c|e|];
    (destruct (count_prs_merged fuel n1 owner (str_opt (name r))) as [[p|e'|] n2];
     [ | |try discriminate];
     (destruct (count_issues fuel n2 owner (str_opt (name r))) as [[i|e''|] n3];
      [ | |try discriminate];
      (destruct (count_collaborators fuel n3 owner (str_opt (name r))) as [[k|e3|] n5];
       try discriminate;
       intros H; injection H as <- <-; cbn; rewrite ?He; auto))).
Qed.

(** When the loop of [main] ends, there is one row per repository, in the
    order of the listing, each with the name, the visibility and the default
    branch ("main" when absent) of its repository. *)
Theorem collect_one_row_per_repo fuel owner repos : forall n rows n',
  collect fuel n owner repos = (Returned rows, n') ->
  Forall2 (fun r rec =>
             st_repo_name rec = name r /\
             st_full_name rec = full_name r /\
             st_visibility rec = (if private r then "private" else "public") /\
             st_default_branch rec
             = (if Py.truthy_opt (default_branch r)
                then default "main" (default_branch r) else "main"))
          repos rows.
Proof.
  induction repos as [|r rest IH]; intros n rows n' H; cbn [RepoCollector.collect] in H.
  - injection H as <- _. constructor.
  - destruct (repo_stats fuel n owner r) as [[rec|e|] n1] eqn:Hr; try discriminate H.
    destruct (collect fuel n1 owner rest) as [[rows'|e|] n2] eqn:Hc; try discriminate H.
    injection H as <- _. constructor; [|exact (IH _ _ _ Hc)].
    apply repo_stats_row in Hr as (? & ? & ? & ? & _). auto.
Qed.

(** A commit estimate that raises does not stop the row.  The counts of
    merged pull requests and of issues are asked for next, whatever they give
    (a value or an exception), then the count of collaborators; when that one
    returns, the row is produced, without a commit count and with the
    collaborators count returned. *)
Theorem failed_estimate_is_recorded fuel n owner r e n1 prs n2 issues n3 collaborators n4 :
  estimate_commit_count fuel n owner (str_opt (name r))
    (if Py.truthy_opt (default_branch r) then default "main" (default_branch r) else "main")
  = (Raised e, n1) ->
  count_prs_merged fuel n1 owner (str_opt (name r)) = (prs, n2) ->
  prs <> Pending ->
  count_issues fuel n2 owner (str_opt (name r)) = (issues, n3) ->
  issues <> Pending ->
  count_collaborators fuel n3 owner (str_opt (name r)) = (Returned collaborators, n4) ->
  exists rec,
    repo_stats fuel n owner r = (Returned rec, n4) /\
    st_repo_name rec = name r /\
    st_commits_count rec = None /\
    st_prs_merged_count rec = match prs with Returned c => Some c | _ => None end /\
    st_collaborators_count rec = collaborators.
Proof.
  intros He Hp Hpn Hi Hin Hc. unfold RepoCollector.repo_stats. rewrite He, Hp.
  destruct prs as [p|ep|]; [| |congruence]; rewrite Hi;
    (destruct issues as [i|ei|]; [| |congruence]); rewrite Hc;
    eexists; (split; [reflexivity|]); cbn; auto.
Qed.

(** An exception leaves the loop body only from the count of
    collaborators. *)
Lemma repo_stats_raised fuel n owner r e n4 :
  repo_stats fuel n owner r = (Raised e, n4) ->
  e <> "HTTPError" /\
  exists n3, count_collaborators fuel n3 owner (str_opt (name r)) = (Raised e, n4).
Proof.
  unfold RepoCollector.repo_stats.
  set (branch := if Py.truthy_opt (default_branch r) then _ else _).
  destruct (estimate_commit_count fuel n owner (str_opt (name r)) branch)
    as [commits n1'].
  assert (Hcol : forall n3, count_collaborators fuel n3 owner (str_opt (name r))
                            = (Raised e, n4) -> e <> "HTTPError").
  { intros n3. unfold RepoCollector.count_collaborators.
    destruct (paginate fuel n3 _ _) as [[items|e0|] n5]; try discriminate.
    destruct (String.eqb_spec e0 "HTTPError"); [discriminate|].
    intros H. now injection H as <- _. }
  destruct commits as [c|e0|];
    (destruct (count_prs_merged fuel n1' owner (str_opt (name r))) as [[p|e'|] n2];
     [ | |try discriminate];
     (destruct (count_issues fuel n2 owner (str_opt (name r))) as [[i|e''|] n3];
      [ | |try discriminate];
      (destruct (count_collaborators fuel n3 owner (str_opt (name r)))
         as [[k|e3|] n5] eqn:Hk;
       try discriminate;
       intros H; injection H as <- <-; (split; [now apply (Hcol n3)|eauto])))).
Qed.

(** The only exception that stops the loop of [main] is one raised while
    counting the collaborators of one of the repositories, and it is not an
    [HTTPError]: the counts of commits, pull requests and issues never stop
    it. *)
Theorem collect_stops_only_on_collaborators fuel owner repos : forall n e n',
  collect fuel n owner repos = (Raised e, n') ->
  e <> "HTTPError" /\
  exists r n3, r ∈ repos /\
    count_collaborators fuel n3 owner (str_opt (name r)) = (Raised e, n').
Proof.
  induction repos as [|r rest IH]; intros n e n' H; cbn [RepoCollector.collect] in H;
    [discriminate H|].
  destruct (repo_stats fuel n owner r) as [[rec|e0|] n1] eqn:Hr; try discriminate H.
  - destruct (collect fuel n1 owner rest) as [[rows'|e1|] n2] eqn:Hc; try discriminate H.
    injection H as -> ->. destruct (IH _ _ _ Hc) as (Hne & r' & n3 & Hin & Hcol).
    split; [exact Hne|]. exists r', n3. split; [now right|exact Hcol].
  - injection H as -> ->. destruct (repo_stats_raised _ _ _ _ _ _ Hr) as (Hne & n3 & Hcol).
    split; [exact Hne|]. exists r, n3. split; [left|exact Hcol].
Qed.

End Collector.

Lemma get_returns_last_response_witness :
  let resp := {| status_code := 200; headers := {["link" := Scenario.link_header]};
                 json := Some ["commit 1"] |} in
  (0 < 2)%nat /\
  Scenario.paged_session (2 - 1) "https://api.github.com/repos/o/r/commits" [] = inr resp /\
  status_code resp <> 202%Z /\
  is_http_error (status_code resp) = false /\
  (forall k, (0 <= k < 2 - 1)%nat ->
     exists r, Scenario.paged_session k "https://api.github.com/repos/o/r/commits" [] = inr r
               /\ (status_code r = 202 \/ status_code r = 403)%Z).
Proof.
  exact (get_returns_last_response Scenario.paged_session Scenario.int_of_str 2 0
           "https://api.github.com/repos/o/r/commits" [] _ 2 eq_refl).
Defined.

Lemma paginate_first_page_witness :
  (1 <= 2)%nat /\
  exists more, ["commit 1"; "commit 57"] = (["commit 1"] ++ more)%list.
Proof.
  exact (paginate_first_page Scenario.two_pages Scenario.int_of_str Scenario.has_content
           3 0 "https://api.github.com/repositories/1/commits" [("per_page", "1")]
           _ 1 ["commit 1"] ["commit 1"; "commit 57"] 2 eq_refl eq_refl eq_refl).
Defined.

Lemma paginate_single_page_witness :
  RepoCollector.paginate Scenario.single_page_session Scenario.int_of_str
    Scenario.has_content 1 0 "https://api.github.com/users/debugfest/repos"
    [("per_page", "100"); ("type", "all")]
  = (Returned ["commit 1"], 1%nat).
Proof.
  exact (paginate_single_page Scenario.single_page_session Scenario.int_of_str
           Scenario.has_content 0 0 "https://api.github.com/users/debugfest/repos"
           [("per_page", "100"); ("type", "all")] _ 1 ["commit 1"]
           eq_refl eq_refl eq_refl).
Defined.

Lemma count_collaborators_refused_witness :
  RepoCollector.count_collaborators Scenario.org_session Scenario.int_of_str
    Scenario.has_content 1 5 "debugfest" "kaizen" = (Returned None, 6%nat).
Proof.
  exact (count_collaborators_refused Scenario.org_session Scenario.int_of_str
           Scenario.has_content 0 5 "debugfest" "kaizen" Scenario.forbidden
           eq_refl eq_refl eq_refl).
Defined.

Lemma count_collaborators_propagates_witness :
  RepoCollector.count_collaborators Scenario.down_session Scenario.int_of_str
    Scenario.has_content 1 5 "debugfest" "kaizen" = (Raised "ConnectionError", 6%nat).
Proof.
  apply (count_collaborators_propagates Scenario.down_session Scenario.int_of_str
           Scenario.has_content 0 5 "debugfest" "kaizen" "ConnectionError" eq_refl).
  discriminate.
Defined.

Lemma collect_one_row_per_repo_witness :
  exists rows n',
    RepoCollector.run Scenario.org_session Scenario.query_first Scenario.int_of_str
      Scenario.has_content Scenario.total_count Scenario.repo_of_item 2 "debugfest"
    = (Returned rows, n') /\
    length rows = 2%nat /\
    Forall (fun rec => st_default_branch rec = "main" /\ st_visibility rec = "public") rows.
Proof.
  eexists _, _. split; [vm_compute; reflexivity|].
  pose proof (collect_one_row_per_repo Scenario.org_session Scenario.query_first
                Scenario.int_of_str Scenario.has_content Scenario.total_count 2 "debugfest"
                (map Scenario.repo_of_item ["kaizen"; "pixro"]) 1 _ _ eq_refl) as H.
  split; [exact (eq_sym (Forall2_length _ _ _ H))|].
  repeat constructor.
Defined.

Lemma failed_estimate_witness :
  exists rec,
    RepoCollector.repo_stats Scenario.org_session Scenario.query_first Scenario.int_of_str
      Scenario.has_content Scenario.total_count 2 1 "debugfest"
      (Scenario.repo_of_item "kaizen") = (Returned rec, 6%nat) /\
    st_repo_name rec = Some "kaizen" /\
    st_commits_count rec = None /\
    st_prs_merged_count rec = Some 7%Z /\
    st_collaborators_count rec = None.
Proof.
  exact (failed_estimate_is_recorded Scenario.org_session Scenario.query_first
           Scenario.int_of_str Scenario.has_content Scenario.total_count 2 1 "debugfest"
           (Scenario.repo_of_item "kaizen") "ConnectionError" 2 (Returned 7%Z) 3
           (Returned (7%Z, 7%Z)) 5 None 6 eq_refl eq_refl
           (fun H => eq_ind (Returned 7%Z)
                       (fun o => match o with Pending => False | _ => True end) I _ H)
           eq_refl
           (fun H => eq_ind (Returned (7%Z, 7%Z))
                       (fun o => match o with Pending => False | _ => True end) I _ H)
           eq_refl).
Defined.

Lemma collect_stops_witness :
  "ConnectionError" <> "HTTPError" /\
  exists r n3, r ∈ map Scenario.repo_of_item ["kaizen"; "pixro"] /\
    RepoCollector.count_collaborators Scenario.down_session Scenario.int_of_str
      Scenario.has_content 2 n3 "debugfest" (str_opt (name r))
    = (Raised "ConnectionError", 6%nat).
Proof.
  exact (collect_stops_only_on_collaborators Scenario.down_session Scenario.query_first
           Scenario.int_of_str Scenario.has_content Scenario.total_count 2 "debugfest"
           (map Scenario.repo_of_item ["kaizen"; "pixro"]) 1 "ConnectionError" 6 eq_refl).
Defined.

End CollectorFacts.

(** ** Lists *)

Module ListFacts.

Lemma lookup_map {A B} (g : A -> B) (l : list A) i : map g l !! i = g <$> (l !! i).
Proof. exact (list_lookup_fmap g l i). Qed.

Lemma lookup_zip {A B} (l : list A) (k : list B) i x y :
  l !! i = Some x -> k !! i = Some y -> zip l k !! i = Some (x, y).
Proof. intros Hx Hy. now apply lookup_zip_Some. Qed.

Lemma map_fst_zip {A B} (l : list A) (k : list B) :
  length l = length k -> map fst (zip l k) = l.
Proof.
  revert k. induction l as [|x l IH]; intros [|y k] H; try discriminate; [reflexivity|].
  cbn. f_equal. apply IH. now injection H.
Qed.

Lemma map_snd_zip {A B} (l : list A) (k : list B) :
  length l = length k -> map snd (zip l k) = k.
Proof.
  revert k. induction l as [|x l IH]; intros [|y k] H; try discriminate; [reflexivity|].
  cbn. f_equal. apply IH. now injection H.
Qed.

End ListFacts.

(** ** Forecast endpoint: the fit, the two lists and the metrics *)

Module ForecastMore.

Import Forecast.

Local Abbreviation by_date := (fun a b : row => (a.2 <= b.2)%Z).

Lemma insert_row_length r l : length (insert_row r l) = S (length l).
Proof.
  induction l as [|x xs IH]; [reflexivity|]. cbn [insert_row].
  destruct (r.2 <=? x.2)%Z; cbn [length]; [reflexivity|now rewrite IH].
Qed.

Lemma sort_values_length l : length (sort_values l) = length l.
Proof.
  induction l as [|x xs IH]; [reflexivity|]. unfold sort_values in *. cbn [foldr].
  now rewrite insert_row_length, IH.
Qed.

Lemma insert_row_perm r l : insert_row r l ≡ₚ r :: l.
Proof.
  induction l as [|x xs IH]; [reflexivity|]. cbn [insert_row].
  destruct (r.2 <=? x.2)%Z; [reflexivity|]. rewrite IH. apply Permutation_swap.
Qed.

Lemma frame_length (samples : list MonthlySample) (ds : list Z) :
  length (sort_values (zip samples ds)) = (length samples `min` length ds)%nat.
Proof. rewrite sort_values_length. apply length_zip. Qed.

Lemma sort_values_perm l : sort_values l ≡ₚ l.
Proof.
  induction l as [|x xs IH]; [reflexivity|]. unfold sort_values in *. cbn [foldr].
  now rewrite insert_row_perm, IH.
Qed.

Lemma insert_row_sorted r l : Sorted by_date l -> Sorted by_date (insert_row r l).
Proof.
  induction l as [|x xs IH]; intros Hs; cbn [insert_row].
  - repeat constructor.
  - destruct (r.2 <=? x.2)%Z eqn:E.
    + constructor; [exact Hs|]. constructor. now apply Z.leb_le.
    + apply Z.leb_gt in E. inversion Hs as [|? ? Hxs Hhd]; subst.
      constructor; [now apply IH|].
      destruct xs as [|y ys]; cbn [insert_row].
      * constructor. lia.
      * destruct (r.2 <=? y.2)%Z; constructor; [lia|now inversion Hhd].
Qed.

Lemma sort_values_sorted l : Sorted by_date (sort_values l).
Proof.
  induction l as [|x xs IH]; [constructor|]. unfold sort_values in *. cbn [foldr].
  now apply insert_row_sorted.
Qed.

Lemma sorted_dates (l : list row) : Sorted by_date l -> Sorted Z.le (map snd l).
Proof.
  induction 1 as [|x l Hs IH Hhd]; cbn [map]; constructor; [exact IH|].
  destruct Hhd; cbn [map]; constructor. assumption.
Qed.

(** What [historical_points] lists: at most one point per row, each of type
    [historical], with the month and the value of its row. *)
Lemma historical_points_spec forecast_type (df : list row) historical_forecast :
  Forall (fun pt => pt_type pt = "historical" /\
                    exists r, r ∈ df /\ pt_month pt = month r.1 /\
                              field forecast_type r.1 = Some (pt_value pt))
         (historical_points forecast_type df historical_forecast)
  /\ (length (historical_points forecast_type df historical_forecast) <= length df)%nat.
Proof.
  unfold historical_points. induction df as [|r df [IHa IHl]]; cbn [flat_map].
  - split; [constructor|reflexivity].
  - assert (Hrest : Forall (fun pt => pt_type pt = "historical" /\
                      exists r0, r0 ∈ r :: df /\ pt_month pt = month r0.1 /\
                                 field forecast_type r0.1 = Some (pt_value pt))
                      (flat_map (fun r : row =>
                         match List.filter (fun p => (p_ds p =? r.2)%Z) historical_forecast,
                               field forecast_type r.1 with
                         | p :: _, Some v =>
                             [{| pt_month := month r.1; pt_value := v;
                                 pt_type := "historical"; pt_trend := trend p;
                                 pt_yhat_lower := yhat_lower p;
                                 pt_yhat_upper := yhat_upper p |}]
                         | _, _ => []
                         end) df)).
    { eapply Forall_impl; [exact IHa|]. intros pt (Ht & r0 & Hin & Hrest).
      split; [exact Ht|]. exists r0. split; [now right|exact Hrest]. }
    destruct (List.filter _ historical_forecast) as [|p ps];
      [cbn [app length]; split; [exact Hrest|lia]|].
    destruct (field forecast_type r.1) as [v|] eqn:Hv;
      [|cbn [app length]; split; [exact Hrest|lia]].
    cbn [app length]. split; [|lia]. constructor; [|exact Hrest].
    split; [reflexivity|]. exists r. split; [left|]. split; [reflexivity|exact Hv].
Qed.

(** Absolute values are never minus infinity; a sum or a mean of such values
    that has an infinite or NaN term is itself infinite or NaN. *)
Local Abbreviation unbounded := (fun v : float => v = PInf \/ v = NaN).

Lemma abs_not_ninf x : Float.abs x <> NInf.
Proof. destruct x; discriminate. Qed.

Lemma add_not_ninf a x : a <> NInf -> x <> NInf -> Float.add a x <> NInf.
Proof. destruct a, x; cbn; congruence. Qed.

Lemma add_unbounded a x :
  a <> NInf -> x <> NInf -> unbounded a \/ unbounded x -> unbounded (Float.add a x).
Proof. destruct a, x; cbn; intuition congruence. Qed.

Lemma sum_unbounded l : forall acc,
  acc <> NInf -> Forall (fun x => x <> NInf) l ->
  unbounded acc \/ Exists unbounded l -> unbounded (foldl Float.add acc l).
Proof.
  induction l as [|x l IH]; intros acc Ha Hall Hex; cbn [foldl].
  - destruct Hex as [H|H]; [exact H|inversion H].
  - inversion Hall as [|? ? Hx Hl]; subst.
    apply IH; [now apply add_not_ninf|exact Hl|].
    destruct Hex as [H|H].
    + left. apply add_unbounded; auto.
    + inversion H; subst; [left; apply add_unbounded; auto|now right].
Qed.

Lemma mean_unbounded l :
  Forall (fun x => x <> NInf) l -> Exists unbounded l -> unbounded (Float.mean l).
Proof.
  intros Hall Hex. unfold Float.mean, Float.sum.
  assert (Hn : Qle_bool 0 (inject_Z (Z.of_nat (length l))) = true).
  { apply Qle_bool_iff. unfold Qle. cbn. lia. }
  destruct (sum_unbounded l (Fin 0) ltac:(discriminate) Hall (or_intror Hex)) as [-> | ->];
    unfold Float.of_Z; cbn [Float.div]; [rewrite Hn|]; auto.
Qed.

Lemma div_by_zero p q :
  q == 0 -> unbounded (Float.abs (Float.div (Float.sub (Fin q) p) (Fin q))).
Proof.
  intros Hq. apply Qeq_bool_iff in Hq.
  destruct p as [b| | |]; unfold Float.sub; cbn [Float.neg Float.add Float.div Float.abs].
  - rewrite Hq. destruct (_ ?= _)%Q; cbn; auto.
  - destruct (Qle_bool 0 q); cbn; auto.
  - destruct (Qle_bool 0 q); cbn; auto.
  - auto.
Qed.

(** Broadcasting against an array of two or more cells keeps its shape. *)
Lemma broadcast_left (f : float -> float -> float) a b r :
  Float.broadcast f a b = Some r -> (2 <= length a)%nat ->
  length r = length a /\
  forall i x, a !! i = Some x -> exists y, r !! i = Some (f x y).
Proof.
  unfold Float.broadcast. destruct (length a =? length b)%nat eqn:E.
  - apply Nat.eqb_eq in E. intros H _. injection H as <-.
    split; [now apply length_zip_with_l_eq|]. intros i x Hx.
    destruct (lookup_lt_is_Some_2 b i) as [y Hy].
    { rewrite <- E. eapply lookup_lt_Some, Hx. }
    exists y. now rewrite lookup_zip_with, Hx, Hy.
  - intros H Hlen. destruct a as [|x1 [|x2 a]]; cbn [length] in Hlen; try lia.
    destruct b as [|y [|y2 b]]; try discriminate H. injection H as <-.
    split; [cbn [map length]; now rewrite length_map|]. intros i x Hx. exists y.
    change (map (fun x => f x y) (x1 :: x2 :: a) !! i = Some (f x y)).
    now rewrite ListFacts.lookup_map, Hx.
Qed.

(** The MAPE of actual values of which one is zero and another is not is
    infinite or NaN. *)
Lemma compute_mape_unbounded actuals predictions i q m :
  actuals !! i = Some (Fin q) -> q == 0 ->
  existsb Float.nonzero actuals = true ->
  compute_mape actuals predictions = Some m ->
  unbounded m.
Proof.
  intros Hi Hq Hex. unfold compute_mape. rewrite Hex.
  apply existsb_exists in Hex as (x & Hin & Hx).
  apply list_elem_of_In, list_elem_of_lookup_1 in Hin as [j Hj].
  assert (Hlen : (2 <= length actuals)%nat).
  { assert (i <> j).
    { intros ->. rewrite Hi in Hj. injection Hj as <-. cbn in Hx.
      apply Qeq_bool_iff in Hq. now rewrite Hq in Hx. }
    apply lookup_lt_Some in Hi, Hj. lia. }
  destruct (Float.broadcast Float.sub actuals predictions) as [d|] eqn:Hd;
    cbn [mbind option_bind]; [|discriminate].
  destruct (Float.broadcast Float.div d actuals) as [r|] eqn:Hr;
    cbn [mbind option_bind]; [|discriminate].
  intros H. injection H as <-.
  destruct (broadcast_left _ _ _ _ Hd Hlen) as [Hdl Hdi].
  destruct (Hdi i _ Hi) as [p Hp].
  destruct (broadcast_left _ _ _ _ Hr ltac:(lia)) as [Hrl Hri].
  destruct (Hri i _ Hp) as [z Hz].
  assert (Hz' : r !! i = Some (Float.div (Float.sub (Fin q) p) (Fin q))).
  { revert Hr. unfold Float.broadcast. rewrite Hdl, Nat.eqb_refl.
    intros H. injection H as <-. now rewrite lookup_zip_with, Hp, Hi. }
  assert (Hm : unbounded (Float.mean (map Float.abs r))).
  { apply mean_unbounded.
    - apply Forall_forall. intros v Hv. apply list_elem_of_In, in_map_iff in Hv as (w & <- & _).
      apply abs_not_ninf.
    - apply Exists_exists. exists (Float.abs (Float.div (Float.sub (Fin q) p) (Fin q))).
      split; [|now apply div_by_zero].
      apply list_elem_of_lookup_2 with i. now rewrite ListFacts.lookup_map, Hz'. }
  destruct Hm as [-> | ->]; cbn; auto.
Qed.

Section Endpoint.

Variable int_of_str : string -> option Z.
Variable to_datetime : string -> option Z.
Variable strftime : Z -> string.
Variable sqrt : float -> float.
Variable Model : Type.
Variable fit : list (Z * float) -> string + Model.
Variable predict : Model -> Z -> string + list prediction.

Local Abbreviation int := (int int_of_str).
Local Abbreviation forecast_points := (forecast_points strftime).
Local Abbreviation compute_metrics := (compute_metrics sqrt).
Local Abbreviation forecast :=
  (forecast int_of_str to_datetime strftime sqrt Model fit predict).

(** The ways a request with a body can end. *)
Lemma forecast_cases (b : body) resp log :
  forecast (Some b) = (resp, log) ->
  (log = [] /\
   exists code e h, resp = Failure code e h /\
     (code = 400%Z ->
        e = insufficient_msg /\ h = monthlyData b /\
        (length (monthlyData b) < 3)%nat /\
        exists p, int (default (PInt 6) (periods b)) = inr p)) \/
  (exists p ds y,
     let df := sort_values (zip (monthlyData b) ds) in
     let prophet_df := zip (map snd df) y in
     let n := length prophet_df in
     int (default (PInt 6) (periods b)) = inr p /\
     (3 <= length (monthlyData b))%nat /\
     mapM (fun s => to_datetime (month s ++ "-01")) (monthlyData b) = Some ds /\
     mapM (fun r : row => field (default "revenue" (type b)) r.1) df = Some y /\
     log = [Fit prophet_df] /\
     ((exists e, resp = Failure 500 e []) \/
      exists model rows m,
        fit prophet_df = inr model /\
        predict model p = inr rows /\
        compute_metrics y (map yhat (take n rows)) = Some m /\
        resp = Success (historical_points (default "revenue" (type b)) df (take n rows))
                 (forecast_points (drop n rows)) m)).
Proof.
  unfold Forecast.forecast.
  destruct (int (default (PInt 6) (periods b))) as [e|p] eqn:Hint.
  { intros H. injection H as <- <-. left. split; [reflexivity|].
    exists 500%Z, e, []. split; [reflexivity|discriminate]. }
  destruct (length (monthlyData b) <? 3)%nat eqn:Hlen.
  { intros H. injection H as <- <-. left. split; [reflexivity|].
    exists 400%Z, insufficient_msg, (monthlyData b). split; [reflexivity|].
    intros _. apply Nat.ltb_lt in Hlen. eauto. }
  apply Nat.ltb_ge in Hlen.
  destruct (mapM _ (monthlyData b)) as [ds|] eqn:Hds.
  2:{ intros H. injection H as <- <-. left. split; [reflexivity|].
      exists 500%Z, "ValueError", []. split; [reflexivity|discriminate]. }
  destruct (mapM _ (sort_values (zip (monthlyData b) ds))) as [y|] eqn:Hy.
  2:{ intros H. injection H as <- <-. left. split; [reflexivity|].
      exists 500%Z, "KeyError", []. split; [reflexivity|discriminate]. }
  intros H. right. exists p, ds, y. cbv zeta.
  split; [reflexivity|]. split; [exact Hlen|]. split; [reflexivity|].
  split; [exact Hy|].
  destruct (fit _) as [e|model] eqn:Hfit.
  { injection H as <- <-. split; [reflexivity|]. left. eauto. }
  destruct (predict model p) as [e|rows] eqn:Hpred.
  { injection H as <- <-. split; [reflexivity|]. left. eauto. }
  destruct (compute_metrics y _) as [m|] eqn:Hm.
  2:{ injection H as <- <-. split; [reflexivity|]. left. eauto. }
  injection H as <- <-. split; [reflexivity|]. right.
  exists model, rows, m. auto.
Qed.

Lemma success_length (b : body) ds y :
  mapM (fun s => to_datetime (month s ++ "-01")) (monthlyData b) = Some ds ->
  mapM (fun r : row => field (default "revenue" (type b)) r.1)
    (sort_values (zip (monthlyData b) ds)) = Some y ->
  length ds = length (monthlyData b) /\
  length y = length (monthlyData b) /\
  length (zip (map snd (sort_values (zip (monthlyData b) ds))) y)
  = length (monthlyData b).
Proof.
  intros Hds Hy. apply length_mapM in Hds, Hy.
  rewrite frame_length in Hy.
  rewrite length_zip, length_map, frame_length. lia.
Qed.

(** A value of a sample of the request is one of the actual values the
    metrics are computed on. *)
Lemma field_in_actuals (b : body) ds y s v :
  mapM (fun s => to_datetime (month s ++ "-01")) (monthlyData b) = Some ds ->
  mapM (fun r : row => field (default "revenue" (type b)) r.1)
    (sort_values (zip (monthlyData b) ds)) = Some y ->
  s ∈ monthlyData b ->
  field (default "revenue" (type b)) s = Some v ->
  v ∈ y.
Proof.
  intros Hds Hy Hs Hv. apply list_elem_of_lookup_1 in Hs as [i Hi].
  destruct (lookup_lt_is_Some_2 ds i) as [d Hd].
  { apply length_mapM in Hds. rewrite <- Hds. eapply lookup_lt_Some, Hi. }
  assert (Hin : (s, d) ∈ sort_values (zip (monthlyData b) ds)).
  { rewrite sort_values_perm. eapply list_elem_of_lookup_2, ListFacts.lookup_zip; eassumption. }
  apply list_elem_of_lookup_1 in Hin as [j Hj].
  apply mapM_Some in Hy.
  destruct (Forall2_lookup_l _ _ _ _ _ Hy Hj) as (w & Hw & Hf).
  cbn [fst] in Hf. rewrite Hv in Hf. injection Hf as <-.
  eapply list_elem_of_lookup_2, Hw.
Qed.

(** A 400 answer has one of two causes, and is given before any model is
    fitted: no body, or fewer than three samples in a body whose [periods]
    could be converted. *)
Theorem bad_request_causes data e h log :
  forecast data = (Failure 400 e h, log) ->
  log = [] /\
  ((data = None /\ e = no_data_msg /\ h = []) \/
   exists b p, data = Some b /\
     int (default (PInt 6) (periods b)) = inr p /\
     (length (monthlyData b) < 3)%nat /\
     e = insufficient_msg /\ h = monthlyData b).
Proof.
  destruct data as [b|].
  - intros H. destruct (forecast_cases b _ _ H) as [(Hlog & code & e' & h' & Hr & H400)|Hfit].
    + injection Hr as <- <- <-. destruct (H400 eq_refl) as (-> & -> & Hlen & p & Hp).
      split; [exact Hlog|]. right. exists b, p. auto.
    + destruct Hfit as (p & ds & y & _ & _ & _ & _ & _ & [[e' Hr]|(? & ? & ? & _ & _ & _ & Hr)]);
        discriminate Hr.
  - intros H. injection H as <- <- <-. auto.
Qed.

(** Prophet is fitted at most once per request, on one entry per sample of
    the request, in chronological order whatever the order in the request. *)
Theorem fit_history_is_chronological (b : body) resp log h :
  forecast (Some b) = (resp, log) ->
  Fit h ∈ log ->
  log = [Fit h] /\
  Sorted Z.le (map fst h) /\
  exists ds,
    mapM (fun s => to_datetime (month s ++ "-01")) (monthlyData b) = Some ds /\
    map fst h ≡ₚ ds.
Proof.
  intros H Hin. destruct (forecast_cases b _ _ H) as [(-> & _)|Hfit].
  { now apply elem_of_nil in Hin. }
  destruct Hfit as (p & ds & y & _ & _ & Hds & Hy & -> & _).
  apply list_elem_of_singleton in Hin. injection Hin as ->.
  destruct (success_length b ds y Hds Hy) as (Hlds & Hly & _).
  assert (Hfst : map fst (zip (map snd (sort_values (zip (monthlyData b) ds))) y)
                 = map snd (sort_values (zip (monthlyData b) ds))).
  { apply ListFacts.map_fst_zip. rewrite length_map, frame_length. lia. }
  rewrite Hfst. split; [reflexivity|]. split.
  - apply sorted_dates, sort_values_sorted.
  - exists ds. split; [exact Hds|].
    rewrite <- (ListFacts.map_snd_zip (monthlyData b) ds) at 2 by lia.
    apply Permutation_map, sort_values_perm.
Qed.

(** The two lists of a successful answer: at most one historical point per
    sample, each of type [historical] with the month and the value of a sample
    of the request; the forecast points are of type [forecast]. *)
Theorem answer_points (b : body) historical forecast_data m log :
  forecast (Some b) = (Success historical forecast_data m, log) ->
  (length historical <= length (monthlyData b))%nat /\
  Forall (fun pt => pt_type pt = "historical" /\
            exists s, s ∈ monthlyData b /\ pt_month pt = month s /\
                      field (default "revenue" (type b)) s = Some (pt_value pt))
         historical /\
  Forall (fun pt => pt_type pt = "forecast") forecast_data.
Proof.
  intros H. destruct (forecast_cases b _ _ H) as [(_ & ? & ? & ? & Hr & _)|Hfit];
    [discriminate Hr|].
  destruct Hfit as (p & ds & y & _ & _ & Hds & Hy & _ & [[e Hr]|Hok]); [discriminate Hr|].
  destruct Hok as (model & rows & m' & _ & _ & _ & Hr). injection Hr as -> -> ->.
  destruct (success_length b ds y Hds Hy) as (Hlds & _ & _).
  match goal with |- context [historical_points ?ft ?df ?hf] =>
    destruct (historical_points_spec ft df hf) as [Hall Hlen] end.
  split; [|split].
  - rewrite frame_length in Hlen. lia.
  - eapply Forall_impl; [exact Hall|]. intros pt (Ht & r & Hin & Hm & Hv).
    split; [exact Ht|]. exists r.1. split; [|auto].
    rewrite sort_values_perm in Hin. destruct r as [s d]. eapply elem_of_zip_l, Hin.
  - unfold Forecast.forecast_points. apply Forall_forall. intros pt Hin.
    apply list_elem_of_In, in_map_iff in Hin as (q & <- & _). reflexivity.
Qed.

(** The forecast list of a successful answer is made of the rows Prophet
    predicted beyond the first [len(monthlyData)] ones, in order: there are as
    many points as such rows. *)
Theorem forecast_is_tail_of_prediction (b : body) historical forecast_data m log :
  forecast (Some b) = (Success historical forecast_data m, log) ->
  exists history model p rows,
    log = [Fit history] /\
    fit history = inr model /\
    int (default (PInt 6) (periods b)) = inr p /\
    predict model p = inr rows /\
    forecast_data = forecast_points (drop (length (monthlyData b)) rows) /\
    length forecast_data = (length rows - length (monthlyData b))%nat.
Proof.
  intros H. destruct (forecast_cases b _ _ H) as [(_ & ? & ? & ? & Hr & _)|Hfit];
    [discriminate Hr|].
  destruct Hfit as (p & ds & y & Hp & _ & Hds & Hy & -> & [[e Hr]|Hok]); [discriminate Hr|].
  destruct Hok as (model & rows & m' & Hfit & Hpred & _ & Hr). injection Hr as -> -> ->.
  destruct (success_length b ds y Hds Hy) as (_ & _ & Hn).
  eexists _, model, p, rows. rewrite Hn.
  repeat split; auto.
  unfold Forecast.forecast_points. now rewrite length_map, length_drop.
Qed.

(** When the requested series has a zero in one month and another value in
    some other month, the MAPE of a successful answer is infinite or NaN. *)
Theorem mape_not_finite_with_a_zero (b : body) historical forecast_data m log s q s' x :
  forecast (Some b) = (Success historical forecast_data m, log) ->
  s ∈ monthlyData b -> field (default "revenue" (type b)) s = Some (Fin q) -> q == 0 ->
  s' ∈ monthlyData b -> field (default "revenue" (type b)) s' = Some x ->
  Float.nonzero x = true ->
  Float.isfinite (mape m) = false.
Proof.
  intros H Hs Hq Hq0 Hs' Hx Hnz.
  destruct (forecast_cases b _ _ H) as [(_ & ? & ? & ? & Hr & _)|Hfit]; [discriminate Hr|].
  destruct Hfit as (p & ds & y & _ & _ & Hds & Hy & _ & [[e Hr]|Hok]); [discriminate Hr|].
  destruct Hok as (model & rows & m' & _ & _ & Hm & Hr). injection Hr as _ _ ->.
  pose proof (field_in_actuals b ds y s _ Hds Hy Hs Hq) as Hin.
  pose proof (field_in_actuals b ds y s' _ Hds Hy Hs' Hx) as Hin'.
  apply list_elem_of_lookup_1 in Hin as [i Hi].
  assert (Hex : existsb Float.nonzero y = true).
  { apply existsb_exists. exists x. split; [now apply list_elem_of_In|exact Hnz]. }
  unfold Forecast.compute_metrics in Hm.
  destruct (compute_mape y _) as [a|] eqn:Ha; [|discriminate Hm].
  cbn [mbind option_bind] in Hm.
  destruct (compute_mae y _) as [c|]; [|discriminate Hm]. cbn [mbind option_bind] in Hm.
  destruct (compute_rmse sqrt y _) as [c'|]; [|discriminate Hm]. cbn [mbind option_bind] in Hm.
  injection Hm as <-. cbn [mape].
  destruct (compute_mape_unbounded _ _ _ _ _ Hi Hq0 Hex Ha) as [-> | ->]; reflexivity.
Qed.

End Endpoint.

Lemma bad_request_causes_witness :
  ([] : list event) = [] /\
  ((Some Scenario.one_month = None /\ insufficient_msg = no_data_msg
    /\ monthlyData Scenario.one_month = []) \/
   exists b p, Some Scenario.one_month = Some b /\
     Forecast.int Scenario.int_of_str (default (PInt 6) (periods b)) = inr p /\
     (length (monthlyData b) < 3)%nat /\
     insufficient_msg = insufficient_msg /\ monthlyData Scenario.one_month = monthlyData b).
Proof.
  exact (bad_request_causes Scenario.int_of_str Scenario.to_datetime Scenario.strftime
           Scenario.sqrt _ Scenario.fit Scenario.predict (Some Scenario.one_month)
           insufficient_msg (monthlyData Scenario.one_month) [] eq_refl).
Defined.

Lemma fit_history_witness :
  Sorted Z.le [24288; 24289; 24290]%Z.
Proof.
  refine (proj1 (proj2
    (fit_history_is_chronological Scenario.int_of_str Scenario.to_datetime Scenario.strftime
       Scenario.sqrt _ Scenario.fit Scenario.predict Scenario.launch_months _ _
       [(24288%Z, Fin 0); (24289%Z, Fin 120); (24290%Z, Fin 150)] eq_refl _))).
  apply list_elem_of_here.
Defined.

Lemma answer_points_witness :
  exists historical forecast_data m log,
    Forecast.forecast Scenario.int_of_str Scenario.to_datetime Scenario.strftime
      Scenario.sqrt _ Scenario.fit Scenario.predict (Some Scenario.launch_months)
    = (Success historical forecast_data m, log) /\
    (length historical <= 3)%nat /\
    Forall (fun pt => pt_type pt = "forecast") forecast_data.
Proof.
  do 4 eexists. split; [vm_compute; reflexivity|].
  pose proof (answer_points Scenario.int_of_str Scenario.to_datetime Scenario.strftime
                Scenario.sqrt _ Scenario.fit Scenario.predict Scenario.launch_months
                _ _ _ _ eq_refl) as (Hlen & _ & Hfc).
  split; [exact Hlen|exact Hfc].
Defined.

Lemma forecast_is_tail_witness :
  exists historical forecast_data m log,
    Forecast.forecast Scenario.int_of_str Scenario.to_datetime Scenario.strftime
      Scenario.sqrt _ Scenario.fit Scenario.predict (Some Scenario.launch_months)
    = (Success historical forecast_data m, log) /\
    length forecast_data = 2%nat.
Proof.
  do 4 eexists. split; [vm_compute; reflexivity|].
  destruct (forecast_is_tail_of_prediction Scenario.int_of_str Scenario.to_datetime
              Scenario.strftime Scenario.sqrt _ Scenario.fit Scenario.predict
              Scenario.launch_months _ _ _ _ eq_refl)
    as (history & model & p & rows & Hlog & Hfit & Hp & Hpred & _ & Hlen).
  refine (eq_trans Hlen _). injection Hlog as <-. vm_compute in Hfit. injection Hfit as <-.
  vm_compute in Hp. injection Hp as <-. vm_compute in Hpred. injection Hpred as <-.
  reflexivity.
Defined.

Lemma mape_not_finite_witness :
  exists historical forecast_data m log,
    Forecast.forecast Scenario.int_of_str Scenario.to_datetime Scenario.strftime
      Scenario.sqrt _ Scenario.fit Scenario.predict (Some Scenario.launch_months)
    = (Success historical forecast_data m, log) /\
    Float.isfinite (mape m) = false.
Proof.
  do 4 eexists. split; [vm_compute; reflexivity|].
  eapply (mape_not_finite_with_a_zero Scenario.int_of_str Scenario.to_datetime
            Scenario.strftime Scenario.sqrt _ Scenario.fit Scenario.predict
            Scenario.launch_months _ _ _ _
            (Scenario.sample "2024-01" 0) 0 (Scenario.sample "2024-02" 120) (Fin 120));
    [vm_compute; reflexivity
    |apply list_elem_of_further, list_elem_of_here
    |reflexivity
    |reflexivity
    |apply list_elem_of_further, list_elem_of_further, list_elem_of_here
    |reflexivity
    |reflexivity].
Defined.

End ForecastMore.

(** ** Fuzzy stage: the bins *)

Module FuzzyMore.

Import Fuzzy.

(** The three bins leave no gap: the category is [Unknown] exactly when the
    score is missing (NaN) or lies outside the range from 0 to 10. *)
Theorem category_unknown_outside_range (r : row_data) :
  (apply_fuzzy_segmentation r).2 = "Unknown" <->
  match (apply_fuzzy_segmentation r).1 with
  | Some score => ~ (0 <= score <= 10)%Q
  | None => True
  end.
Proof.
  unfold apply_fuzzy_segmentation. destruct (compute r) as [score|]; cbn [fst snd];
    [|tauto].
  unfold category, promotional_bins, promotional_labels, Qlt_bool.
  destruct (Qle_bool 0 score) eqn:E0; destruct (Qle_bool (45 # 10) score) eqn:E1;
    destruct (Qle_bool (75 # 10) score) eqn:E2; destruct (Qle_bool score 10) eqn:E3;
    cbn [andb negb];
    repeat match goal with
           | H : Qle_bool _ _ = true |- _ => apply Qle_bool_iff in H
           | H : Qle_bool _ _ = false |- _ =>
               apply not_true_iff_false in H; rewrite Qle_bool_iff in H
           end;
    split; intros H; try discriminate H; try reflexivity;
    try (intros [? ?]; lra); try (exfalso; apply H; split; lra).
Qed.

End FuzzyMore.

(** ** Segmentation pipeline: recency, the flag and the records *)

Module SegmentationMore.

Import Segmentation.

Local Abbreviation step :=
  (fun (acc d : option Z) =>
     match acc, d with
     | Some a, Some b => Some (Z.max a b)
     | None, _ => d
     | _, None => acc
     end).

Lemma series_max_bound l : forall acc m,
  foldl step acc l = Some m ->
  (forall a, acc = Some a -> (a <= m)%Z) /\ (forall b, Some b ∈ l -> (b <= m)%Z).
Proof.
  induction l as [|d l IH]; intros acc m H; cbn [foldl] in H.
  - split; [intros a ->; injection H as ->; lia|]. intros b Hb. now apply elem_of_nil in Hb.
  - destruct (IH _ _ H) as [Hacc Hl]. split.
    + intros a ->. destruct d as [b|]; [|now apply Hacc].
      specialize (Hacc _ eq_refl). lia.
    + intros b Hb. apply elem_of_cons in Hb as [<-|Hb]; [|now apply Hl].
      destruct acc as [a|]; specialize (Hacc _ eq_refl); lia.
Qed.

Lemma series_max_none l : forall acc,
  foldl step acc l = None -> acc = None /\ Forall (fun d => d = None) l.
Proof.
  induction l as [|d l IH]; intros acc H; cbn [foldl] in H; [now split|].
  destruct (IH _ H) as [Hacc Hl]. destruct acc as [a|], d as [b|]; try discriminate Hacc.
  split; [reflexivity|]. now constructor.
Qed.

Lemma series_max_all_missing l :
  Forall (fun d : option Z => d = None) l -> foldl step None l = None.
Proof. induction 1 as [|d l -> _ IH]; [reflexivity|exact IH]. Qed.

(** The recency of a customer without purchase date is at least 30 days more
    than the recency of every customer with one, which is the number of whole
    days since the purchase; it is 1030 when no customer has a date. *)
Theorem recency_of_missing_date now dates i :
  dates !! i = Some None ->
  exists ri,
    recency_column now dates !! i = Some ri /\
    (forall j t, dates !! j = Some (Some t) ->
       recency_column now dates !! j = Some ((now - t) / 86400)%Z /\
       ((now - t) / 86400 + 30 <= ri)%Z) /\
    (Forall (fun d => d = None) dates -> ri = 1030%Z).
Proof.
  intros Hi. unfold recency_column.
  set (recency := days_since now dates).
  assert (Hrec : forall k, recency !! k
                 = (fun d : option Z => (fun t => (now - t) / seconds_per_day)%Z <$> d)
                     <$> dates !! k).
  { intros k. unfold recency, days_since. apply ListFacts.lookup_map. }
  exists (default 1000%Z (series_max recency) + 30)%Z. split; [|split].
  - rewrite ListFacts.lookup_map, Hrec, Hi. reflexivity.
  - intros j t Hj. rewrite ListFacts.lookup_map, Hrec, Hj. cbn. split; [reflexivity|].
    assert (Hin : Some ((now - t) / seconds_per_day)%Z ∈ recency).
    { apply list_elem_of_lookup_2 with j. now rewrite Hrec, Hj. }
    unfold series_max. destruct (foldl _ None recency) as [m|] eqn:Hm.
    + destruct (series_max_bound _ _ _ Hm) as [_ Hb]. specialize (Hb _ Hin).
      cbn. unfold seconds_per_day in Hb. lia.
    + destruct (series_max_none _ _ Hm) as [_ Hall].
      rewrite Forall_forall in Hall. now specialize (Hall _ Hin).
  - intros Hall. unfold series_max. rewrite series_max_all_missing; [reflexivity|].
    unfold recency, days_since. apply Forall_forall. intros d Hd.
    apply list_elem_of_In, in_map_iff in Hd as (d0 & <- & Hd0).
    rewrite Forall_forall in Hall. apply list_elem_of_In in Hd0.
    now rewrite (Hall _ Hd0).
Qed.

Lemma ensure_features_keeps n (base : gmap string (list float)) feature column :
  base !! feature = Some column -> ensure_features n base !! feature = Some column.
Proof.
  unfold ensure_features. generalize clustering_features. intros features.
  revert base. induction features as [|f features IH]; intros base Hb; [exact Hb|].
  cbn [foldl]. apply IH. destruct (base !! f) eqn:Hf; [exact Hb|].
  rewrite lookup_insert_ne; [exact Hb|]. intros ->. congruence.
Qed.

(** After preprocessing the [total_spent] column is the one of the file with
    its blank cells replaced by 0. *)
Lemma preprocess_total_spent now df columns spent :
  preprocess now df = inr columns ->
  numeric df !! "total_spent" = Some spent ->
  columns !! "total_spent" = Some (fillna (Fin 0) spent).
Proof.
  unfold preprocess. destruct (last_purchase_date df) as [dates|]; [|discriminate].
  intros H Hs. rewrite Hs in H. injection H as <-.
  apply ensure_features_keeps. now simplify_map_eq.
Qed.

Section Pipeline.

Variable scaler_fit : list (list float) -> string + (list float * list float).
Variable kmeans_fit : nat -> Z -> list (list float) -> string + list (list Q).

Local Abbreviation initialize_segmentation_models :=
  (initialize_segmentation_models scaler_fit kmeans_fit).
Local Abbreviation segment_customers := (segment_customers scaler_fit kmeans_fit).
Local Abbreviation initialize_segmentation := (initialize_segmentation scaler_fit kmeans_fit).

(** Once the pipeline is marked initialised it stays so: a classification
    request leaves the globals as they are, and an initialisation request,
    failed or not, leaves the flag set. *)
Theorem initialized_flag_is_kept now_init now req st :
  segmentation_initialized st = true ->
  (segment_customers now_init now req st).2 = st /\
  segmentation_initialized (initialize_segmentation now req st).2 = true.
Proof.
  intros Hi. split.
  - unfold Segmentation.segment_customers. destruct req as [|filename [e|df]]; [reflexivity| |].
    + now destruct (negb (Py.truthy filename)).
    + destruct (negb (Py.truthy filename)); [reflexivity|]. now rewrite Hi.
  - unfold Segmentation.initialize_segmentation. destruct req as [|filename [e|df]]; [exact Hi| |].
    + now destruct (negb (Py.truthy filename)).
    + destruct (negb (Py.truthy filename)); [exact Hi|].
      pose proof (SegmentationFacts.initialize_outcome scaler_fit kmeans_fit now df st) as Ho.
      destruct (initialize_segmentation_models now df st) as [ok st1] eqn:Hinit.
      inversion Ho; subst; cbn; auto.
Qed.


(** In the records of a classification the amount spent is the one of the
    file, with 0 for a blank cell; there is one record per row. *)
Theorem records_total_spent_filled now_init now filename df st result st' spent :
  segment_customers now_init now (File filename (inr df)) st = (Records result, st') ->
  numeric df !! "total_spent" = Some spent ->
  length spent = nrows df ->
  length result = nrows df /\
  forall i x, spent !! i = Some x ->
    exists r, result !! i = Some r /\
              r_total_spent r = (if Float.isnan x then Fin 0 else x).
Proof.
  intros H Hs Hlen.
  apply SegmentationFacts.segment_customers_records in H
    as (filename0 & df0 & Hreq & Hc & _ & _).
  injection Hreq as _ <-.
  pose proof (SegmentationFacts.classify_length _ _ _ _ Hc) as Hl.
  split; [exact Hl|]. intros i x Hx.
  apply SegmentationFacts.classify_records in Hc
    as (columns & scaled & centres & labels & Hprep & _ & _ & ->).
  apply SegmentationFacts.prepare_customer_data_columns in Hprep.
  rewrite length_imap in Hl.
  destruct (lookup_lt_is_Some_2 labels i) as [label Hlabel].
  { rewrite Hl, <- Hlen. eapply lookup_lt_Some, Hx. }
  exists (make_result columns i label). split.
  - now rewrite list_lookup_imap, Hlabel.
  - cbn [make_result r_total_spent]. unfold cell.
    rewrite (preprocess_total_spent _ _ _ _ Hprep Hs). cbn [mbind option_bind].
    unfold fillna. now rewrite ListFacts.lookup_map, Hx.
Qed.

End Pipeline.

Lemma recency_of_missing_date_witness :
  exists ri,
    recency_column Scenario.now
      [Scenario.days_ago 10; Scenario.days_ago 20; Scenario.days_ago 400; None] !! 3%nat
    = Some ri /\
    (400 + 30 <= ri)%Z.
Proof.
  destruct (recency_of_missing_date Scenario.now
              [Scenario.days_ago 10; Scenario.days_ago 20; Scenario.days_ago 400; None]
              3 eq_refl) as (ri & Hri & Hpresent & _).
  exists ri. split; [exact Hri|].
  exact (proj2 (Hpresent 2%nat _ eq_refl)).
Defined.

Lemma initialized_flag_witness :
  (Segmentation.segment_customers Scenario.scaler_fit Scenario.kmeans_fit Scenario.now
     Scenario.now (Scenario.upload Scenario.two_columns) Scenario.trained).2
  = Scenario.trained /\
  segmentation_initialized
    (Segmentation.initialize_segmentation Scenario.scaler_fit Scenario.kmeans_fit
       Scenario.now (Scenario.upload Scenario.two_columns) Scenario.trained).2 = true.
Proof.
  exact (initialized_flag_is_kept Scenario.scaler_fit Scenario.kmeans_fit Scenario.now
           Scenario.now (Scenario.upload Scenario.two_columns) Scenario.trained eq_refl).
Defined.


Lemma records_total_spent_witness :
  exists result st',
    Segmentation.segment_customers Scenario.scaler_fit Scenario.kmeans_fit Scenario.now
      Scenario.now (File "customers.csv" (inr Scenario.two_columns)) Scenario.trained
    = (Records result, st') /\
    length result = 2%nat /\
    exists r, result !! 1%nat = Some r /\ r_total_spent r = Fin 0.
Proof.
  do 2 eexists. split; [vm_compute; reflexivity|].
  destruct (records_total_spent_filled Scenario.scaler_fit Scenario.kmeans_fit Scenario.now
              Scenario.now "customers.csv" Scenario.two_columns Scenario.trained _ _
              [Fin 4800; NaN] eq_refl eq_refl eq_refl) as [Hlen Hcells].
  split; [exact Hlen|]. exact (Hcells 1%nat NaN eq_refl).
Defined.

End SegmentationMore.
